(** * GGM to OpenRegister configuration generator (generate.py)

    A shallow embedding of the generation engine of [generate.py]: the
    type mapper, the slug codec, the package-tree expansion of
    [GGMDatabase], and the schema and domain builders of
    [OpenRegisterGenerator], followed by the properties of the
    specification that are settled on them.

    Conventions of the embedding.
    - A Python [str] is a list of Unicode code points ([list N]).
    - A Python [dict] whose iteration order reaches the output (JSON
      objects, the [schemas] map) is an association list in insertion
      order with Python's update-in-place semantics; the lookup caches
      ([package_children], [objects], [enums], [object_slug_map], ...)
      are finite maps.
    - An SQLite row is a record; integer id columns are [Z], text columns
      are [option (list N)] ([None] is NULL) and the columns the code
      passes through [str()] are dynamically typed [sqlval]s.
    - A Python exception is a [Raise]; the interpreter's recursion limit
      is an explicit [limit : nat].
    - What the program takes from its platform is a parameter: the
      Unicode tables of the interpreter, its limit on the digits of an
      integer text, and the two limits of the SQLite library on a
      statement. *)

From Stdlib Require Import ZArith NArith Ascii String List Bool.
From stdpp Require Import base tactics option list relations gmap strings pretty.

Local Open Scope N_scope.

(** ** Python strings *)

Abbreviation pystr := (list N).

(** A string literal of the source, as code points. *)
Definition py (s : string) : pystr :=
  List.map N_of_ascii (list_ascii_of_string s).

(** [a == b] on strings. *)
Fixpoint str_eqb (a b : pystr) : bool :=
  match a, b with
  | [], [] => true
  | x :: a', y :: b' => (x =? y) && str_eqb a' b'
  | _, _ => false
  end.

(** [x in (k1, k2, ...)] on strings. *)
Definition str_in (x : pystr) (ks : list pystr) : bool :=
  existsb (str_eqb x) ks.

Definition is_ascii (c : N) : bool := c <? 128.
Definition is_az (c : N) : bool := (97 <=? c) && (c <=? 122).
Definition is_AZ (c : N) : bool := (65 <=? c) && (c <=? 90).
Definition is_09 (c : N) : bool := (48 <=? c) && (c <=? 57).

Definition hyphen : N := 45.
Definition is_hyphen (c : N) : bool := c =? hyphen.

Definition ascii_lower (c : N) : N := if is_AZ c then c + 32 else c.
Definition ascii_upper (c : N) : N := if is_az c then c - 32 else c.

(** White space among the ASCII code points, as [str.isspace], [str.strip],
    [str.split] and the [\s] class of [re] see it: TAB, LF, VT, FF, CR,
    the separators FS, GS, RS, US, and the space. *)
Definition ascii_isspace (c : N) : bool :=
  ((9 <=? c) && (c <=? 13)) || ((28 <=? c) && (c <=? 32)).

(** The Unicode character database of the interpreter is not part of the
    program.  On ASCII text the functions below are fixed by the language;
    on text with other code points they defer to these tables.  Three
    limits of the platform come with them: the interpreter's bound on
    the digits of a text read by [int()] ([sys.get_int_max_str_digits()],
    0 for none; CPython checks it above 640 digits only), and the bounds
    of the SQLite library on the number of [?] parameters and on the
    length of a statement.  Every build admits the fixed statements of
    the program, which bind at most two parameters; only the two
    statements that grow with their argument are checked. *)
Record Unicode := {
  ext_lower : pystr -> pystr;      (* str.lower on non-ASCII text *)
  ext_upper : pystr -> pystr;      (* str.upper on non-ASCII text *)
  ext_isspace : N -> bool;         (* white space beyond ASCII *)
  ext_digit : N -> option Z;       (* value of a decimal digit beyond ASCII *)
  ext_isalpha : N -> bool;         (* alphabetic beyond ASCII *)
  int_max_str_digits : N;          (* most digits int() reads; 0: no bound *)
  sqlite_max_variable_number : N;  (* SQLITE_LIMIT_VARIABLE_NUMBER *)
  sqlite_max_sql_length : N        (* SQLITE_LIMIT_SQL_LENGTH *)
}.

(** A table for interpreters that know ASCII only, with the default
    limits of CPython 3.11 and of SQLite 3.32 and later. *)
Definition ascii_only : Unicode :=
  {| ext_lower := fun s => s; ext_upper := fun s => s;
     ext_isspace := fun _ => false; ext_digit := fun _ => None;
     ext_isalpha := fun _ => false;
     int_max_str_digits := 4300;
     sqlite_max_variable_number := 32766;
     sqlite_max_sql_length := 1000000000 |}.

(** Scanning helpers shared by the regular expressions of the source. *)

Fixpoint drop_while (p : N -> bool) (s : pystr) : pystr :=
  match s with
  | [] => []
  | c :: r => if p c then drop_while p r else s
  end.

Fixpoint take_while (p : N -> bool) (s : pystr) : pystr :=
  match s with
  | [] => []
  | c :: r => if p c then c :: take_while p r else []
  end.

Definition is_nil {A} (l : list A) : bool :=
  match l with [] => true | _ => false end.

(** Removal of the trailing characters that satisfy [p]. *)
Fixpoint rstrip_with (p : N -> bool) (s : pystr) : pystr :=
  match s with
  | [] => []
  | c :: r =>
      let r' := rstrip_with p r in
      if p c && is_nil r' then [] else c :: r'
  end.

(** [s.strip(chars)] for the character set [p]. *)
Definition strip_with (p : N -> bool) (s : pystr) : pystr :=
  rstrip_with p (drop_while p s).

(** [re.sub(r'C+', '-', s)] for a character class [C] given as [p]: every
    maximal run of characters of the class becomes one hyphen.  [in_run]
    tells that the previous character belonged to a run already replaced. *)
Fixpoint sub_runs (p : N -> bool) (in_run : bool) (s : pystr) : pystr :=
  match s with
  | [] => []
  | c :: r =>
      if p c then
        if in_run then sub_runs p true r else hyphen :: sub_runs p true r
      else c :: sub_runs p false r
  end.

Fixpoint starts_with (pre s : pystr) : bool :=
  match pre, s with
  | [], _ => true
  | a :: pre', b :: s' => (a =? b) && starts_with pre' s'
  | _ :: _, [] => false
  end.

Definition ends_with (suf s : pystr) : bool :=
  starts_with (rev suf) (rev s).

(** [sub in s] *)
Fixpoint contains (sub s : pystr) : bool :=
  starts_with sub s ||
  match s with
  | [] => false
  | _ :: r => contains sub r
  end.

(** [sep.join(l)] *)
Fixpoint join (sep : pystr) (l : list pystr) : pystr :=
  match l with
  | [] => []
  | [x] => x
  | x :: r => x ++ sep ++ join sep r
  end.


(** ** Python values *)

(** The values that reach the JSON output. *)
#[warnings="-register-all"]
Inductive json :=
| JNull
| JBool (b : bool)
| JInt (z : Z)
| JStr (s : pystr)
| JList (l : list json)
| JDict (d : list (pystr * json)).

Abbreviation pydict := (list (pystr * json)).

(** A [dict] with string keys, in insertion order. *)
Section Dict.
Context {V : Type}.

(** [d.get(k)] *)
Fixpoint dict_get (k : pystr) (d : list (pystr * V)) : option V :=
  match d with
  | [] => None
  | (k', v) :: r => if str_eqb k k' then Some v else dict_get k r
  end.

(** [k in d] *)
Definition dict_mem (k : pystr) (d : list (pystr * V)) : bool :=
  match dict_get k d with Some _ => true | None => false end.

(** [d[k] = v]: an existing key keeps its position, a new one goes last. *)
Fixpoint dict_set (k : pystr) (v : V) (d : list (pystr * V)) : list (pystr * V) :=
  match d with
  | [] => [(k, v)]
  | (k', v') :: r =>
      if str_eqb k k' then (k', v) :: r else (k', v') :: dict_set k v r
  end.

Definition dict_keys (d : list (pystr * V)) : list pystr := List.map fst d.

(** Truth value of a dict: non-empty. *)
Definition dict_truthy (d : list (pystr * V)) : bool := negb (is_nil d).

End Dict.

(** A value read from a dynamically typed SQLite column: NULL, an
    integer (of 64 bits in a file) or a text; floating point and blob
    values are left out. *)
Inductive sqlval :=
| SqlNull
| SqlInt (z : Z)
| SqlText (s : pystr).

(** Truth value of such a value: [None], [0] and [''] are false. *)
Definition truthy (v : sqlval) : bool :=
  match v with
  | SqlNull => false
  | SqlInt z => negb (z =? 0)%Z
  | SqlText s => negb (is_nil s)
  end.

(** [str(v)] *)
Definition py_str (v : sqlval) : pystr :=
  match v with
  | SqlNull => py "None"
  | SqlInt z => py (pretty z)
  | SqlText s => s
  end.

(** Truth value of a text that may be NULL; [x or ""]. *)
Definition text_or_empty (x : option pystr) : pystr := default [] x.

Definition json_of_text (x : option pystr) : json :=
  match x with Some s => JStr s | None => JNull end.

(** ** Exceptions *)

Inductive pyerr :=
| AttributeError      (* a method of [str] called on [None] *)
| ValueError          (* [int()] of a text it does not read as a number *)
| TypeError           (* [int(None)] *)
| KeyError            (* a missing key of a dict *)
| RecursionError      (* the recursion limit of the interpreter is reached *)
| DataError           (* [sqlite3.DataError]: the statement is too long *)
| OperationalError    (* [sqlite3.OperationalError]: too many SQL variables *)
| Diverges.           (* no exception: a loop of the model ran out of steps *)

Inductive result (A : Type) :=
| Ok (a : A)
| Raise (e : pyerr).
Arguments Ok {A} a.
Arguments Raise {A} e.

#[global] Instance result_ret : MRet result := fun A a => Ok a.
#[global] Instance result_bind : MBind result := fun A B f m =>
  match m with Ok a => f a | Raise e => Raise e end.

(** A [for] loop whose body may raise. *)
Fixpoint foldM {A B : Type} (f : B -> A -> result B) (b : B) (l : list A)
  : result B :=
  match l with
  | [] => Ok b
  | a :: r => b' ← f b a; foldM f b' r
  end.

(** ** The source model: rows of the repository *)

Record PackageRow := {
  pkg_Package_ID : Z;
  pkg_Name : option pystr;
  pkg_Parent_ID : Z
}.

Record ObjectRow := {
  Object_ID : Z;
  obj_Name : option pystr;
  Object_Type : option pystr;
  obj_Package_ID : Z;
  Stereotype : option pystr;
  Note : option pystr;
  ea_guid : option pystr
}.

Record AttributeRow := {
  attr_Object_ID : Z;
  attr_Name : option pystr;
  attr_Type : option pystr;
  Classifier : sqlval;
  LowerBound : sqlval;
  UpperBound : sqlval;
  Notes : option pystr;
  Length : sqlval;
  Default : sqlval;
  Pos : Z
}.

Record ConnectorRow := {
  Connector_ID : Z;
  conn_Name : option pystr;
  Connector_Type : option pystr;
  Start_Object_ID : Z;
  End_Object_ID : Z;
  SourceCard : sqlval;
  DestCard : sqlval;
  SourceRole : option pystr;
  DestRole : option pystr
}.

(** The tables of the QEA file. *)
Record Snapshot := {
  t_package : list PackageRow;
  t_object : list ObjectRow;
  t_attribute : list AttributeRow;
  t_connector : list ConnectorRow
}.

(** [GGMDatabase]: the connection and the caches built by [__init__]. *)
Record GGMDatabase := {
  conn : Snapshot;
  packages : gmap Z PackageRow;
  package_children : gmap Z (list Z);
  objects : gmap Z ObjectRow;
  enums : gmap Z (list (option pystr))
}.

(** SQL comparison of a text column with a literal: NULL never matches. *)
Definition text_is (x : option pystr) (lit : pystr) : bool :=
  match x with Some s => str_eqb s lit | None => false end.

Definition Z_in (x : Z) (l : list Z) : bool := existsb (Z.eqb x) l.

(** [ORDER BY Pos]: a stable insertion sort on the position (rows of
    equal position stay in table order; SQLite leaves their order open). *)
Fixpoint insert_by_pos (a : AttributeRow) (l : list AttributeRow)
  : list AttributeRow :=
  match l with
  | [] => [a]
  | b :: r => if (Pos a <=? Pos b)%Z then a :: l else b :: insert_by_pos a r
  end.

Definition order_by_pos (l : list AttributeRow) : list AttributeRow :=
  fold_right insert_by_pos [] l.

(** *** Configuration *)

Definition GGM_VERSION : pystr := py "2.5.0".
Definition GGM_ROOT_PACKAGE_ID : Z := 3.
Definition GITHUB_REPO : pystr := py "ConductionNL/ggm-openregister".
Definition GITHUB_BRANCH : pystr := py "main".

Record DomainInfo := { dom_name : pystr; dom_slug : pystr; dom_file : pystr }.

Definition domain (n s f : string) : DomainInfo :=
  {| dom_name := py n; dom_slug := py s; dom_file := py f |}.

(** Top-level domain packages (direct children of the root package). *)
Definition DOMAIN_PACKAGES : list (Z * DomainInfo) := [
  (4%Z, domain "0 Bestuur, Politiek en Ondersteuning" "ggm-bestuur-politiek"
          "0-bestuur-politiek.openregister.json");
  (12%Z, domain "1 Veiligheid en Vergunningen" "ggm-veiligheid-vergunningen"
          "1-veiligheid-vergunningen.openregister.json");
  (15%Z, domain "2 Verkeer, Vervoer en Waterstaat" "ggm-verkeer-vervoer-waterstaat"
          "2-verkeer-vervoer-waterstaat.openregister.json");
  (22%Z, domain "3 Economie" "ggm-economie" "3-economie.openregister.json");
  (25%Z, domain "4 Onderwijs" "ggm-onderwijs" "4-onderwijs.openregister.json");
  (32%Z, domain "5 Sport, Cultuur en Recreatie" "ggm-sport-cultuur-recreatie"
          "5-sport-cultuur-recreatie.openregister.json");
  (52%Z, domain "6 Sociaal Domein" "ggm-sociaal-domein"
          "6-sociaal-domein.openregister.json");
  (91%Z, domain "7 Volksgezondheid en Milieu" "ggm-volksgezondheid-milieu"
          "7-volksgezondheid-milieu.openregister.json");
  (95%Z, domain "8 Volkshuisvesting, Leefomgeving en Stedelijke Vernieuwing"
          "ggm-volkshuisvesting-leefomgeving"
          "8-volkshuisvesting-leefomgeving.openregister.json");
  (114%Z, domain "9 Interne Organisatie" "ggm-interne-organisatie"
          "9-interne-organisatie.openregister.json");
  (135%Z, domain "10 Dienstverlening" "ggm-dienstverlening"
          "10-dienstverlening.openregister.json");
  (367%Z, domain "99 Kern" "ggm-kern" "99-kern.openregister.json")
].

(** ** The interpreter's string functions *)

Section Python.
Context (U : Unicode).

Definition isspace (c : N) : bool :=
  if is_ascii c then ascii_isspace c else ext_isspace U c.

(** Value of a decimal digit (the class [\d], the digits [int()] reads). *)
Definition digit_value (c : N) : option Z :=
  if is_ascii c then (if is_09 c then Some (Z.of_N (c - 48)) else None)
  else ext_digit U c.

Definition isdigit (c : N) : bool :=
  match digit_value c with Some _ => true | None => false end.

Definition isalpha_char (c : N) : bool :=
  if is_ascii c then is_az c || is_AZ c else ext_isalpha U c.

(** [s.isalpha()] *)
Definition isalpha (s : pystr) : bool :=
  negb (is_nil s) && forallb isalpha_char s.

(** [s.lower()], [s.upper()] *)
Definition lower (s : pystr) : pystr :=
  if forallb is_ascii s then List.map ascii_lower s else ext_lower U s.

Definition upper (s : pystr) : pystr :=
  if forallb is_ascii s then List.map ascii_upper s else ext_upper U s.

(** [s.strip()] *)
Definition strip (s : pystr) : pystr := strip_with isspace s.

(** [s.split()]: the maximal runs of characters that are not white space. *)
Fixpoint split_ws (cur : pystr) (s : pystr) : list pystr :=
  match s with
  | [] => if is_nil cur then [] else [cur]
  | c :: r =>
      if isspace c then
        (if is_nil cur then split_ws [] r else cur :: split_ws [] r)
      else split_ws (cur ++ [c]) r
  end.

Definition split (s : pystr) : list pystr := split_ws [] s.

(** *** slugify *)

(** The class [[a-z0-9\s-]] whose complement the first substitution
    deletes. *)
Definition slug_keep (c : N) : bool :=
  is_az c || is_09 c || isspace c || is_hyphen c.

Definition slugify (name : pystr) : pystr :=
  let s := lower name in
  let s := List.filter slug_keep s in          (* re.sub(r'[^a-z0-9\s-]', '', s) *)
  let s := sub_runs isspace false s in         (* re.sub(r'[\s]+', '-', s) *)
  let s := sub_runs is_hyphen false s in       (* re.sub(r'-+', '-', s) *)
  strip_with is_hyphen s.                      (* s.strip('-') *)

(** The white space [int()] skips around a number.  Among the ASCII code
    points these are TAB, LF, VT, FF, CR and the space only: unlike
    [str.strip], [int()] does not skip the separators FS, GS, RS, US. *)
Definition int_isspace (c : N) : bool :=
  if is_ascii c then ((9 <=? c) && (c <=? 13)) || (c =? 32)
  else ext_isspace U c.

(** The digits of [int()]: decimal digits with single underscores between
    them, none in front and none at the end.  A code point is taken as
    white space before it is taken as a digit.  The result is the number
    read together with the count of its digits. *)
Fixpoint parse_digits (acc : Z) (n : nat) (after_digit : bool) (s : pystr)
  : option (Z * nat) :=
  match s with
  | [] => if after_digit then Some (acc, n) else None
  | c :: r =>
      if c =? 95 then
        (if after_digit then parse_digits acc n false r else None)
      else if int_isspace c then None
      else
        match digit_value c with
        | Some v => parse_digits (10 * acc + v)%Z (S n) true r
        | None => None
        end
  end.

(** The interpreter refuses a text of more than [int_max_str_digits]
    digits; texts of up to 640 digits are never refused. *)
Definition exceeds_str_digits (n : nat) : bool :=
  (640 <? N.of_nat n) && (0 <? int_max_str_digits U)
  && (int_max_str_digits U <? N.of_nat n).

(** [int(s)] for a text: optional white space around, an optional sign,
    then the digits; [None] stands for [ValueError]. *)
Definition parse_int (s : pystr) : option Z :=
  let body := strip_with int_isspace s in
  let '(negative, digits) :=
    match body with
    | c :: r =>
        if c =? 43 then (false, r)
        else if c =? 45 then (true, r)
        else (false, body)
    | [] => (false, body)
    end in
  '(z, n) ← parse_digits 0%Z O false digits;
  if exceeds_str_digits n then None
  else Some (if negative then (- z)%Z else z).

(** [int(s)] for a text. *)
Definition int_of_text (s : pystr) : result Z :=
  match parse_int s with Some z => Ok z | None => Raise ValueError end.

(** [int(v)] *)
Definition py_int (v : sqlval) : result Z :=
  match v with
  | SqlNull => Raise TypeError
  | SqlInt z => Ok z
  | SqlText s => int_of_text s
  end.

(** [$]: the end of the text, or just before a final line feed. *)
Definition at_dollar (s : pystr) : bool := is_nil s || str_eqb s [10].

(** [re.match(r'^N\d+$', t)] *)
Definition re_N_int (t : pystr) : bool :=
  match t with
  | 78 :: r =>
      negb (is_nil (take_while isdigit r)) && at_dollar (drop_while isdigit r)
  | _ => false
  end.

(** [re.match(r'^N\d+[.,]\d+$', t)] *)
Definition re_N_dec (t : pystr) : bool :=
  match t with
  | 78 :: r =>
      match drop_while isdigit r with
      | c :: r2 =>
          negb (is_nil (take_while isdigit r))
          && ((c =? 46) || (c =? 44))
          && negb (is_nil (take_while isdigit r2))
          && at_dollar (drop_while isdigit r2)
      | [] => false
      end
  | _ => false
  end.

(** [re.match(r'^AN(\d+)$', t)], giving group 1. *)
Definition re_AN (t : pystr) : option pystr :=
  match t with
  | 65 :: 78 :: r =>
      if negb (is_nil (take_while isdigit r)) && at_dollar (drop_while isdigit r)
      then Some (take_while isdigit r) else None
  | _ => None
  end.

(** [re.match(r'varchar2?\((\d+)\)', t_lower)], giving group 1; the match
    is anchored at the start only. *)
Definition re_varchar (t_lower : pystr) : option pystr :=
  if starts_with (py "varchar") t_lower then
    let r := drop 7 t_lower in
    let r := match r with 50 :: r' => r' | _ => r end in
    match r with
    | 40 :: r2 =>
        match drop_while isdigit r2 with
        | 41 :: _ =>
            if is_nil (take_while isdigit r2) then None
            else Some (take_while isdigit r2)
        | _ => None
        end
    | _ => None
    end
  else None.

Definition ty (t : string) : pydict := [(py "type", JStr (py t))].
Definition ty_format (t f : string) : pydict :=
  [(py "type", JStr (py t)); (py "format", JStr (py f))].
Definition ty_maxlen (n : Z) : pydict :=
  [(py "type", JStr (py "string")); (py "maxLength", JInt n)].

(** Map a GGM/EA attribute type to a JSON Schema type definition.  The
    two calls of [int()] on a matched run of digits can raise. *)
Definition map_type (type_name : option pystr) (length : Z) : result pydict :=
  if is_nil (text_or_empty type_name) then Ok (ty "string") else
  let t := strip (text_or_empty type_name) in
  let t_lower := lower t in
  (* Boolean types *)
  if str_in t_lower [py "boolean"; py "bool"; py "indic"; py "stdindijn"]
  then Ok (ty "boolean")
  (* Integer types *)
  else if str_in t_lower [py "int"; py "integer"; py "number"]
  then Ok (ty "integer")
  else if re_N_int t then Ok (ty "integer")
  (* Number/decimal types *)
  else if str_in t_lower [py "double"; py "decimal"; py "float"]
  then Ok (ty "number")
  else if str_eqb t_lower (py "bedrag") || str_eqb t_lower (py "geldbedrag")
  then Ok (ty "number")
  else if re_N_dec t then Ok (ty "number")
  (* Date/time types *)
  else if str_in t_lower [py "date"; py "datum"]
  then Ok (ty_format "string" "date")
  else if str_in t_lower [py "datetime"; py "datumtijd"]
  then Ok (ty_format "string" "date-time")
  else if str_eqb t_lower (py "time") then Ok (ty_format "string" "time")
  else if str_in t_lower [py "jaar"; py "year"]
  then Ok (ty_format "string" "date")
  else if str_eqb t_lower (py "onvolledgedatum") then Ok (ty "string")
  (* URI/URL/email *)
  else if str_in t_lower [py "url"; py "uri"] then Ok (ty_format "string" "uri")
  else if str_eqb t_lower (py "email") then Ok (ty_format "string" "email")
  else if str_eqb t_lower (py "iban") then Ok (ty "string")
  else if str_eqb t_lower (py "telefoonnummer") then Ok (ty "string")
  (* Geometry types *)
  else if str_in t_lower [py "point"; py "punt"; py "gm_point"; py "gm_punt"]
  then Ok (ty_format "string" "geo")
  else if str_in t_lower
            [py "gm_surface"; py "gm_multisurface"; py "vlak"; py "spatial";
             py "gm_curve"; py "gm_lijn"; py "gm_multicurve";
             py "gm_multipoint"; py "multipuntlijn(multi)vlak"]
  then Ok (ty_format "string" "geo")
  (* GUID *)
  else if str_eqb t_lower (py "guid") then Ok (ty_format "string" "uuid")
  (* Binary *)
  else if str_eqb t_lower (py "blob") then Ok (ty_format "string" "binary")
  else if str_eqb t_lower (py "image") then Ok (ty_format "string" "binary")
  else
  (* ANxx patterns (alphanumeric with max length) *)
  match re_AN t with
  | Some g => n ← int_of_text g; Ok (ty_maxlen n)
  | None =>
  (* VARCHAR types *)
  if starts_with (py "varchar") t_lower then
    match re_varchar t_lower with
    | Some g => n ← int_of_text g; Ok (ty_maxlen n)
    | None => Ok (ty_maxlen 255)
    end
  (* Char/string types *)
  else if str_in t_lower [py "char"; py "characterstring"; py "string";
                          py "text"; py "tekst"; py "tan"]
  then Ok (ty "string")
  (* Single-letter or short codes that are string enums in EA *)
  else if (List.length t <=? 3)%nat && isalpha t then Ok (ty "string")
  (* Enumeration reference or complex type: string as fallback *)
  else Ok (ty "string")
  end.

(** [re.sub(r'<[^>]+>', '', s)]: [find_gt r] is the index of the first
    ['>'] of [r]; a tag needs at least one character before it. *)
Fixpoint find_gt (r : pystr) : option nat :=
  match r with
  | [] => None
  | c :: r' => if c =? 62 then Some O else S <$> find_gt r'
  end.

Fixpoint strip_tags_from (skip : nat) (s : pystr) : pystr :=
  match s with
  | [] => []
  | c :: r =>
      match skip with
      | S k => strip_tags_from k r
      | O =>
          if c =? 60 then
            match find_gt r with
            | Some (S i) => strip_tags_from (S (S i)) r
            | _ => c :: strip_tags_from O r
            end
          else c :: strip_tags_from O r
      end
  end.

Definition strip_tags (s : pystr) : pystr := strip_tags_from O s.

(** The class [[a-zA-Z0-9\s_]] kept in a property name. *)
Definition sanitize_keep (c : N) : bool :=
  is_az c || is_AZ c || is_09 c || isspace c || (c =? 95).

(** Sanitize a property name for use in JSON Schema. *)
Definition _sanitize_property_name (name : option pystr) : pystr :=
  if is_nil (text_or_empty name) then [] else
  let name := strip (text_or_empty name) in
  let name := List.filter sanitize_keep name in
  let parts := split name in
  match parts with
  | [] => []
  | p0 :: rest =>
      fold_left (fun result part => result ++ upper (take 1 part) ++ drop 1 part)
                rest (lower (take 1 p0) ++ drop 1 p0)
  end.

(** ** GGMDatabase *)

(** Build a parent to children map for packages. *)
Definition _build_package_tree (s : Snapshot)
  : gmap Z PackageRow * gmap Z (list Z) :=
  fold_left
    (fun '(pk, ch) row =>
       (<[pkg_Package_ID row := row]> pk,
        <[pkg_Parent_ID row :=
            default [] (ch !! pkg_Parent_ID row) ++ [pkg_Package_ID row]]> ch))
    (t_package s) (∅, ∅).

(** Cache all objects by ID for quick lookup. *)
Definition _build_object_cache (s : Snapshot) : gmap Z ObjectRow :=
  fold_left (fun m row => <[Object_ID row := row]> m) (t_object s) ∅.

(** [SELECT ... FROM t_attribute WHERE Object_ID = ? ORDER BY Pos] *)
Definition select_attributes (s : Snapshot) (object_id : Z) : list AttributeRow :=
  order_by_pos
    (List.filter (fun a => (attr_Object_ID a =? object_id)%Z) (t_attribute s)).

(** Cache enumeration literals. *)
Definition _build_enum_cache (s : Snapshot) : gmap Z (list (option pystr)) :=
  let enum_ids :=
    List.map Object_ID
      (List.filter (fun o => text_is (Object_Type o) (py "Enumeration"))
                   (t_object s)) in
  fold_left
    (fun m eid => <[eid := List.map attr_Name (select_attributes s eid)]> m)
    enum_ids ∅.

Definition GGMDatabase_init (s : Snapshot) : GGMDatabase :=
  let '(pk, ch) := _build_package_tree s in
  {| conn := s; packages := pk; package_children := ch;
     objects := _build_object_cache s; enums := _build_enum_cache s |}.

(** Recursively get all descendant package IDs.  Every call takes one
    frame of the interpreter's stack; [limit] is the number of frames
    left. *)
Fixpoint get_descendant_packages (limit : nat) (db : GGMDatabase)
    (parent_id : Z) : result (list Z) :=
  match limit with
  | O => Raise RecursionError
  | S limit' =>
      foldM (fun result child_id =>
               sub ← get_descendant_packages limit' db child_id;
               Ok (result ++ sub))
            [parent_id]
            (default [] (package_children db !! parent_id))
  end.

(** [",".join("?" * n)]: one [?] per parameter. *)
Definition placeholders (n : nat) : pystr := join (py ",") (repeat (py "?") n).

(** [cursor.execute(sql, parameters)] for a statement with one [?] per
    parameter.  The module refuses a statement longer than the library's
    limit on a statement, and the library refuses one with more [?] than
    its limit on parameters. *)
Definition cursor_execute (sql : pystr) (parameters : list Z) : result unit :=
  if sqlite_max_sql_length U <? N.of_nat (List.length sql)
  then Raise DataError
  else if sqlite_max_variable_number U <? N.of_nat (List.length parameters)
  then Raise OperationalError
  else Ok tt.

(** The statement of [get_classes_in_packages]. *)
Definition sql_classes_in_packages (package_ids : list Z) : pystr :=
  py "SELECT Object_ID, Name, Note, Stereotype, Package_ID, ea_guid "
  ++ py "FROM t_object "
  ++ py "WHERE Object_Type = 'Class' AND Stereotype = 'Objecttype' "
  ++ py "AND Package_ID IN (" ++ placeholders (List.length package_ids)
  ++ py ")".

(** Get all Class objects with Stereotype='Objecttype' in the given
    packages. *)
Definition get_classes_in_packages (db : GGMDatabase) (package_ids : list Z)
  : result (list ObjectRow) :=
  _ ← cursor_execute (sql_classes_in_packages package_ids) package_ids;
  Ok (List.filter
        (fun o => text_is (Object_Type o) (py "Class")
                  && text_is (Stereotype o) (py "Objecttype")
                  && Z_in (obj_Package_ID o) package_ids)
        (t_object (conn db))).

(** The statement of [get_enumerations_in_packages]. *)
Definition sql_enumerations_in_packages (package_ids : list Z) : pystr :=
  py "SELECT Object_ID, Name, Note, Package_ID "
  ++ py "FROM t_object "
  ++ py "WHERE Object_Type = 'Enumeration' "
  ++ py "AND Package_ID IN (" ++ placeholders (List.length package_ids)
  ++ py ")".

(** Get all Enumeration objects in the given packages. *)
Definition get_enumerations_in_packages (db : GGMDatabase)
    (package_ids : list Z) : result (list ObjectRow) :=
  _ ← cursor_execute (sql_enumerations_in_packages package_ids) package_ids;
  Ok (List.filter
        (fun o => text_is (Object_Type o) (py "Enumeration")
                  && Z_in (obj_Package_ID o) package_ids)
        (t_object (conn db))).

(** Get all attributes for a given object. *)
Definition get_attributes (db : GGMDatabase) (object_id : Z)
  : list AttributeRow :=
  select_attributes (conn db) object_id.

(** Get all Association/Aggregation connectors where this object is
    source or dest. *)
Definition get_associations_for_object (db : GGMDatabase) (object_id : Z)
  : list ConnectorRow :=
  List.filter
    (fun c => (text_is (Connector_Type c) (py "Association")
               || text_is (Connector_Type c) (py "Aggregation"))
              && ((Start_Object_ID c =? object_id)%Z
                  || (End_Object_ID c =? object_id)%Z))
    (t_connector (conn db)).

(** Get generalization connectors where this object is the child (Start). *)
Definition get_generalizations_for_object (db : GGMDatabase) (object_id : Z)
  : list Z :=
  List.map End_Object_ID
    (List.filter
       (fun c => text_is (Connector_Type c) (py "Generalization")
                 && (Start_Object_ID c =? object_id)%Z)
       (t_connector (conn db))).

(** ** OpenRegisterGenerator *)

Record OpenRegisterGenerator := {
  db : GGMDatabase;
  object_domain_map : gmap Z Z;       (* object_id to domain package_id *)
  object_slug_map : gmap Z pystr;     (* object_id to schema slug *)
  domain_slug_map : gmap Z pystr      (* domain package_id to register slug *)
}.

(** [slugify(name)] for a name column: [None] has no [lower]. *)
Definition slugify_text (name : option pystr) : result pystr :=
  match name with
  | Some n => Ok (slugify n)
  | None => Raise AttributeError
  end.

(** [__init__]: the global map from object id to domain and schema slug. *)
Definition OpenRegisterGenerator_init (limit : nat) (d : GGMDatabase)
  : result OpenRegisterGenerator :=
  foldM
    (fun self '(pkg_id, info) =>
       let self :=
         {| db := db self;
            object_domain_map := object_domain_map self;
            object_slug_map := object_slug_map self;
            domain_slug_map := <[pkg_id := dom_slug info]> (domain_slug_map self) |} in
       descendant_ids ← get_descendant_packages limit d pkg_id;
       classes ← get_classes_in_packages d descendant_ids;
       foldM
         (fun self cls =>
            let obj_id := Object_ID cls in
            schema_slug ← slugify_text (obj_Name cls);
            Ok {| db := db self;
                  object_domain_map := <[obj_id := pkg_id]> (object_domain_map self);
                  object_slug_map := <[obj_id := schema_slug]> (object_slug_map self);
                  domain_slug_map := domain_slug_map self |})
         self classes)
    {| db := d; object_domain_map := ∅; object_slug_map := ∅;
       domain_slug_map := ∅ |}
    DOMAIN_PACKAGES.

(** [x not in ("0", "")] after [str()], guarded by the truth of [x]. *)
Definition set_and_nonzero (x : sqlval) : bool :=
  truthy x && negb (str_in (py_str x) [py "0"; []]).

Definition attach_notes (prop : pydict) (notes : pystr) : pydict :=
  if is_nil notes then prop else dict_set (py "description") (JStr notes) prop.

(** Map a GGM attribute to a JSON Schema property. *)
Definition _map_attribute (self : OpenRegisterGenerator) (attr : AttributeRow)
    (local_enums : gmap Z (list (option pystr))) : result pydict :=
  let attr_name := attr_Name attr in
  let attr_type := attr_Type attr in
  let classifier := Classifier attr in
  let notes := strip (strip_tags (text_or_empty (Notes attr))) in
  let default_val := Default attr in
  (* Standard type mapping *)
  let standard :=
    prop ← map_type attr_type 0;
    let prop := dict_set (py "title") (json_of_text attr_name) prop in
    let prop := attach_notes prop notes in
    if truthy default_val && negb (is_nil (strip (py_str default_val)))
    then Ok (dict_set (py "default") (JStr (strip (py_str default_val))) prop)
    else Ok prop in
  (* Check if this attribute references an enumeration *)
  if set_and_nonzero classifier then
    classifier_id ← py_int classifier;
    match enums (db self) !! classifier_id with
    | Some literals =>
        let prop := [(py "type", JStr (py "string"));
                     (py "title", json_of_text attr_name)] in
        let prop := attach_notes prop notes in
        Ok (if is_nil literals then prop
            else dict_set (py "enum") (JList (List.map json_of_text literals)) prop)
    | None =>
        (* Check if it's a DataType (treat as string with the type name) *)
        match objects (db self) !! classifier_id with
        | Some obj =>
            if text_is (Object_Type obj) (py "DataType") then
              prop ← map_type attr_type 0;
              let prop := dict_set (py "title") (json_of_text attr_name) prop in
              Ok (attach_notes prop notes)
            else standard
        | None => standard
        end
    end
  else standard.

(** [a or b] on texts. *)
Definition text_or (a : option pystr) (b : pystr) : pystr :=
  if is_nil (text_or_empty a) then b else text_or_empty a.

(** The to-many test of [_map_association] on an end cardinality. *)
Definition is_multiple (cardinality : sqlval) : bool :=
  let card_str := py_str cardinality in
  let is_multiple :=
    truthy cardinality
    && (contains (py "*") card_str
        || (contains (py "..") card_str && negb (ends_with (py "..1") card_str))) in
  (* Check cardinality more carefully *)
  if truthy cardinality then
    if str_in card_str [py "0..*"; py "1..*"; py "*"] then true
    else if str_in card_str [py "0..1"; py "1"; py "1..1"] then false
    else is_multiple
  else is_multiple.

(** Map a GGM association to an OpenRegister relationship property. *)
Definition _map_association (self : OpenRegisterGenerator)
    (assoc : ConnectorRow) (source_obj_id : Z) : option (pystr * pydict) :=
  let start_id := Start_Object_ID assoc in
  let end_id := End_Object_ID assoc in
  let assoc_name := text_or_empty (conn_Name assoc) in
  (* Determine which end is the "other" object *)
  let '(target_id, cardinality, role) :=
    if (start_id =? source_obj_id)%Z
    then (end_id, DestCard assoc, text_or (DestRole assoc) assoc_name)
    else (start_id, SourceCard assoc, text_or (SourceRole assoc) assoc_name) in
  (* Skip if target is not a known class *)
  match object_slug_map self !! target_id with
  | None => None
  | Some target_slug =>
      (* Build property name from role or association name *)
      let prop_name :=
        _sanitize_property_name (Some (if is_nil role then target_slug else role)) in
      let prop_name := if is_nil prop_name then target_slug else prop_name in
      let prop :=
        if is_multiple cardinality then
          [(py "type", JStr (py "array"));
           (py "title", JStr prop_name);
           (py "items", JDict [(py "type", JStr (py "object"));
                               (py "$ref", JStr target_slug)])]
        else
          [(py "type", JStr (py "object"));
           (py "title", JStr prop_name);
           (py "$ref", JStr target_slug)] in
      Some (prop_name, prop)
  end.

(** One turn of the attribute loop of [_generate_schema]. *)
Definition attribute_step (self : OpenRegisterGenerator)
    (local_enums : gmap Z (list (option pystr)))
    (st : pydict * list pystr) (attr : AttributeRow)
  : result (pydict * list pystr) :=
  let '(properties, required) := st in
  prop ← _map_attribute self attr local_enums;
  if dict_truthy prop then
    let prop_name := _sanitize_property_name (attr_Name attr) in
    let properties := dict_set prop_name (JDict prop) properties in
    (* Check if required (LowerBound >= 1) *)
    if set_and_nonzero (LowerBound attr)
    then Ok (properties, required ++ [prop_name])
    else Ok (properties, required)
  else Ok st.

(** One turn of the association loop of [_generate_schema]. *)
Definition association_step (self : OpenRegisterGenerator) (obj_id : Z)
    (properties : pydict) (assoc : ConnectorRow) : pydict :=
  match _map_association self assoc obj_id with
  | Some (prop_name, prop_def) =>
      if dict_mem prop_name properties then properties
      else dict_set prop_name (JDict prop_def) properties
  | None => properties
  end.

(** Generate an OpenRegister schema from a GGM class. *)
Definition _generate_schema (self : OpenRegisterGenerator) (cls : ObjectRow)
    (local_enums : gmap Z (list (option pystr))) : result pydict :=
  let obj_id := Object_ID cls in
  slug ← slugify_text (obj_Name cls);
  let name := text_or_empty (obj_Name cls) in
  (* Clean up HTML from notes *)
  let note := strip (strip_tags (text_or_empty (Note cls))) in
  (* Get attributes *)
  let attributes := get_attributes (db self) obj_id in
  '(properties, required) ←
    foldM (attribute_step self local_enums) ([], []) attributes;
  (* Get associations (relationships) *)
  let associations := get_associations_for_object (db self) obj_id in
  let properties := fold_left (association_step self obj_id) associations properties in
  (* Build schema *)
  let description := if is_nil note then py "GGM entity: " ++ name else note in
  let schema :=
    [(py "slug", JStr slug);
     (py "title", JStr name);
     (py "version", JStr GGM_VERSION);
     (py "description", JStr description);
     (py "required", JList (List.map JStr required));
     (py "properties", JDict properties);
     (py "searchable", JBool true);
     (py "hardValidation", JBool false)] in
  (* Handle generalizations (inheritance) *)
  let parent_ids := get_generalizations_for_object (db self) obj_id in
  let parent_names := omap (fun p => object_slug_map self !! p) parent_ids in
  if is_nil parent_names then Ok schema
  else
    let extends_note := py " Extends: " ++ join (py ", ") parent_names ++ py "." in
    Ok (dict_set (py "description") (JStr (description ++ extends_note)) schema).

(** The [while slug in schemas] loop of [_generate_domain]; [fuel] bounds
    the number of turns. *)
Fixpoint dedup_slug (fuel : nat) (schemas : list (pystr * pydict))
    (original_slug slug : pystr) (schema : pydict) (counter : Z)
  : option (pystr * pydict) :=
  if dict_mem slug schemas then
    match fuel with
    | O => None
    | S fuel' =>
        let slug := original_slug ++ py "-" ++ py (pretty counter) in
        dedup_slug fuel' schemas original_slug slug
                   (dict_set (py "slug") (JStr slug) schema) (counter + 1)%Z
    end
  else Some (slug, schema).

(** One turn of the class loop of [_generate_domain].  A map with [n]
    keys makes the inner loop turn at most [n] times, so [n + 1] turns
    are enough. *)
Definition domain_step (self : OpenRegisterGenerator)
    (local_enums : gmap Z (list (option pystr)))
    (st : list (pystr * pydict) * list pystr) (cls : ObjectRow)
  : result (list (pystr * pydict) * list pystr) :=
  let '(schemas, schema_slugs) := st in
  schema ← _generate_schema self cls local_enums;
  if dict_truthy schema then
    match dict_get (py "slug") schema with
    | Some (JStr slug) =>
        (* Handle duplicate slugs by appending a suffix *)
        match dedup_slug (S (List.length schemas)) schemas slug slug schema 2 with
        | Some (slug, schema) =>
            Ok (dict_set slug schema schemas, schema_slugs ++ [slug])
        | None => Raise Diverges
        end
    | _ => Raise KeyError
    end
  else Ok st.

Definition json_of_schemas (schemas : list (pystr * pydict)) : json :=
  JDict (List.map (fun '(k, v) => (k, JDict v)) schemas).

(** The schemas and the ordered slug list of a domain: the first half of
    [_generate_domain]. *)
Definition domain_schemas (limit : nat) (self : OpenRegisterGenerator)
    (pkg_id : Z) : result (list (pystr * pydict) * list pystr) :=
  descendant_ids ← get_descendant_packages limit (db self) pkg_id;
  classes ← get_classes_in_packages (db self) descendant_ids;
  enumerations ← get_enumerations_in_packages (db self) descendant_ids;
  (* Build local enum lookup (enum object_id to list of literal names) *)
  let local_enums :=
    fold_left
      (fun m enum =>
         <[Object_ID enum := default [] (enums (db self) !! Object_ID enum)]> m)
      enumerations (∅ : gmap Z (list (option pystr))) in
  (* Generate schemas *)
  foldM (domain_step self local_enums) ([], []) classes.

(** Generate a single domain's OpenRegister configuration. *)
Definition _generate_domain (limit : nat) (self : OpenRegisterGenerator)
    (pkg_id : Z) (domain_info : DomainInfo) : result pydict :=
  '(schemas, schema_slugs) ← domain_schemas limit self pkg_id;
  (* Build register *)
  let register :=
    [(py "slug", JStr (dom_slug domain_info));
     (py "title", JStr (py "GGM - " ++ dom_name domain_info));
     (py "version", JStr GGM_VERSION);
     (py "description",
        JStr (py "Gemeentelijk Gegevensmodel domain: " ++ dom_name domain_info));
     (py "schemas", JList (List.map JStr schema_slugs));
     (py "source", JStr (py "internal"))] in
  (* Build OpenAPI envelope *)
  Ok [(py "openapi", JStr (py "3.0.0"));
      (py "info", JDict
         [(py "title", JStr (py "GGM - " ++ dom_name domain_info));
          (py "description",
             JStr (py "OpenRegister configuration for the Gemeentelijk Gegevensmodel (GGM) domain: "
                   ++ dom_name domain_info ++ py ". "
                   ++ py "Auto-generated from GGM v" ++ GGM_VERSION ++ py "."));
          (py "version", JStr GGM_VERSION)]);
      (py "x-openregister", JDict
         [(py "type", JStr (py "application"));
          (py "sourceType", JStr (py "github"));
          (py "sourceUrl", JStr (py "https://github.com/" ++ GITHUB_REPO));
          (py "openregister", JStr (py "^v0.2.10"));
          (py "github", JDict
             [(py "repo", JStr GITHUB_REPO);
              (py "branch", JStr GITHUB_BRANCH);
              (py "path", JStr (dom_file domain_info))]);
          (py "description",
             JStr (py "Gemeentelijk Gegevensmodel - " ++ dom_name domain_info))]);
      (py "components", JDict
         [(py "schemas", json_of_schemas schemas);
          (py "registers", JDict [(dom_slug domain_info, JDict register)])])].

(** Generate all domain configuration files: the file names with the
    documents written to them. *)
Definition generate_all (limit : nat) (self : OpenRegisterGenerator)
  : result (list (pystr * pydict)) :=
  foldM (fun out '(pkg_id, info) =>
           config ← _generate_domain limit self pkg_id info;
           Ok (out ++ [(dom_file info, config)]))
        [] DOMAIN_PACKAGES.

End Python.

(** The alphabet of a slug: lowercase letters, digits and the hyphen. *)
Definition slug_char (c : N) : bool := is_az c || is_09 c || is_hyphen c.

(** No two adjacent hyphens; [prev] tells that a hyphen precedes [s]. *)
Fixpoint no_hh (prev : bool) (s : pystr) : bool :=
  match s with
  | [] => true
  | c :: r => if is_hyphen c then negb prev && no_hh true r else no_hh false r
  end.


(** What every slug looks like. *)
Record slug_shaped (s : pystr) : Prop := {
  shaped_chars : Forall (fun c => slug_char c = true) s;
  shaped_no_hh : no_hh false s = true;
  shaped_head : forall c, head s = Some c -> is_hyphen c = false;
  shaped_last : forall c, last s = Some c -> is_hyphen c = false
}.


(** ** The specification's side *)

(** The other end of an association seen from [source_obj_id]. *)
Definition other_end_id (assoc : ConnectorRow) (source_obj_id : Z) : Z :=
  if (Start_Object_ID assoc =? source_obj_id)%Z
  then End_Object_ID assoc else Start_Object_ID assoc.

Definition other_end_card (assoc : ConnectorRow) (source_obj_id : Z) : sqlval :=
  if (Start_Object_ID assoc =? source_obj_id)%Z
  then DestCard assoc else SourceCard assoc.

(** The cardinality rule in the words of the specification: the three
    to-many strings, the three to-one strings, then the fallback. *)
Definition spec_is_multiple (card : pystr) : bool :=
  if str_in card [py "0..*"; py "1..*"; py "*"] then true
  else if str_in card [py "0..1"; py "1"; py "1..1"] then false
  else if negb (is_nil card)
          && (contains (py "*") card
              || (contains (py "..") card && negb (ends_with (py "..1") card)))
       then true
  else false.

(** The two shapes of a relationship property. *)
Definition array_ref (title target_slug : pystr) : pydict :=
  [(py "type", JStr (py "array"));
   (py "title", JStr title);
   (py "items", JDict [(py "type", JStr (py "object"));
                       (py "$ref", JStr target_slug)])].

Definition object_ref (title target_slug : pystr) : pydict :=
  [(py "type", JStr (py "object"));
   (py "title", JStr title);
   (py "$ref", JStr target_slug)].

(** The required rule in the words of the specification: the lower bound
    is present and is neither the literal zero nor the empty string. *)
Definition lower_bound_required (a : AttributeRow) : bool :=
  match LowerBound a with
  | SqlNull => false
  | v => negb (str_eqb (py_str v) (py "0")) && negb (str_eqb (py_str v) [])
  end.

(** The attribute half of [_generate_schema] on its own. *)
Definition attribute_properties (U : Unicode) (self : OpenRegisterGenerator)
    (cls : ObjectRow) (local_enums : gmap Z (list (option pystr)))
  : result (pydict * list pystr) :=
  foldM (attribute_step U self local_enums) ([], [])
        (get_attributes (db self) (Object_ID cls)).

(** ** A small model to run the generator on

    Domain package 4 with a sub-package 5; the classes Persoon (with a
    required attribute and an attribute typed by an enumeration), Adres
    and a second class whose name gives the slug of Adres again; the
    enumeration lives in package 99, outside every domain. *)

Definition class_row (id : Z) (nm : string) (pkg : Z) : ObjectRow :=
  {| Object_ID := id; obj_Name := Some (py nm);
     Object_Type := Some (py "Class"); obj_Package_ID := pkg;
     Stereotype := Some (py "Objecttype"); Note := None; ea_guid := None |}.

Definition attribute_row (oid : Z) (nm ty : string) (cl lb : sqlval) (pos : Z)
  : AttributeRow :=
  {| attr_Object_ID := oid; attr_Name := Some (py nm);
     attr_Type := Some (py ty); Classifier := cl; LowerBound := lb;
     UpperBound := SqlText (py "1"); Notes := None; Length := SqlNull;
     Default := SqlNull; Pos := pos |}.

Definition association_row (id start_id end_id : Z) (src dst : string)
    (src_role dst_role : option pystr) : ConnectorRow :=
  {| Connector_ID := id; conn_Name := None;
     Connector_Type := Some (py "Association");
     Start_Object_ID := start_id; End_Object_ID := end_id;
     SourceCard := SqlText (py src); DestCard := SqlText (py dst);
     SourceRole := src_role; DestRole := dst_role |}.

(** The enumeration, in package 99. *)
Definition ja_nee : ObjectRow :=
  {| Object_ID := 13; obj_Name := Some (py "JaNee");
     Object_Type := Some (py "Enumeration"); obj_Package_ID := 99;
     Stereotype := None; Note := None; ea_guid := None |}.

(** The attribute of Persoon typed by the enumeration. *)
Definition indicatie : AttributeRow :=
  attribute_row 10 "indicatie overleden" "JaNee" (SqlText (py "13")) SqlNull 3.

(** The associations of Persoon: two to Adres, one to a class that is
    not part of the model. *)
Definition heeft_adressen : ConnectorRow :=
  association_row 1 10 11 "1" "1..*" None (Some (py "adressen")).
Definition heeft_hoofdadres : ConnectorRow :=
  association_row 2 10 11 "1" "0..1" None (Some (py "hoofdadres")).
Definition heeft_voertuigen : ConnectorRow :=
  association_row 3 10 77 "1" "0..*" None (Some (py "voertuigen")).

Definition example_snapshot : Snapshot :=
  {| t_package :=
       [ {| pkg_Package_ID := 4; pkg_Name := Some (py "0 Bestuur");
            pkg_Parent_ID := 3 |};
         {| pkg_Package_ID := 5; pkg_Name := Some (py "Personen");
            pkg_Parent_ID := 4 |} ];
     t_object :=
       [ class_row 10 "Persoon" 5;
         class_row 11 "Adres" 4;
         class_row 12 "ADRES!!" 4;
         ja_nee ];
     t_attribute :=
       [ attribute_row 10 "leeftijd" "N3" SqlNull (SqlText (py "1")) 1;
         attribute_row 10 "adressen" "AN40" SqlNull (SqlText (py "0")) 2;
         indicatie;
         attribute_row 11 "postcode" "AN6" (SqlText (py "0")) (SqlText (py "0")) 1;
         attribute_row 13 "Ja" "" SqlNull SqlNull 1;
         attribute_row 13 "Nee" "" SqlNull SqlNull 2 ];
     t_connector :=
       [ heeft_adressen; heeft_hoofdadres; heeft_voertuigen ] |}.

Definition example_db : GGMDatabase := GGMDatabase_init example_snapshot.

(** The generator of a database, when [__init__] does not raise. *)
Definition generator_of (U : Unicode) (limit : nat) (d : GGMDatabase)
  : OpenRegisterGenerator :=
  match OpenRegisterGenerator_init U limit d with
  | Ok g => g
  | Raise _ =>
      {| db := d; object_domain_map := ∅; object_slug_map := ∅;
         domain_slug_map := ∅ |}
  end.

Definition example_gen : OpenRegisterGenerator :=
  generator_of ascii_only 1000 example_db.

Definition persoon : ObjectRow := class_row 10 "Persoon" 5.

(** The children of a package, and the subtree relation they span. *)
Definition children_of (d : GGMDatabase) (p : Z) : list Z :=
  default [] (package_children d !! p).

Definition child_of (d : GGMDatabase) (p c : Z) : Prop := In c (children_of d p).

(** [descendant d p q]: [q] is [p] or lies below it. *)
Definition descendant (d : GGMDatabase) : Z -> Z -> Prop := rtc (child_of d).

(** The subtree below [p] has fewer than [limit] levels under [p]: every
    chain of children from [p] ends within [limit] packages. *)
Fixpoint depth_le (limit : nat) (d : GGMDatabase) (p : Z) : bool :=
  match limit with
  | O => false
  | S limit' => forallb (depth_le limit' d) (children_of d p)
  end.

(** A malformed hierarchy: package 4 is its own parent. *)
Definition cyclic_snapshot : Snapshot :=
  {| t_package :=
       [ {| pkg_Package_ID := 4; pkg_Name := Some (py "0 Bestuur");
            pkg_Parent_ID := 4 |} ];
     t_object := []; t_attribute := []; t_connector := [] |}.

Definition cyclic_db : GGMDatabase := GGMDatabase_init cyclic_snapshot.

(** The slug tried by the collision loop at counter [n]. *)
Definition suffixed (base : pystr) (n : Z) : pystr :=
  base ++ py "-" ++ py (pretty n).

(** A domain whose only class has a name without any slug character. *)
Definition nameless_snapshot : Snapshot :=
  {| t_package :=
       [ {| pkg_Package_ID := 4; pkg_Name := Some (py "0 Bestuur");
            pkg_Parent_ID := 3 |} ];
     t_object := [ class_row 20 "!!!" 4 ];
     t_attribute := []; t_connector := [] |}.

Definition nameless_gen : OpenRegisterGenerator :=
  generator_of ascii_only 1000 (GGMDatabase_init nameless_snapshot).

(** An enumeration without literals, in package 99 outside every domain,
    and a class of domain 4 with an attribute typed by it. *)
Definition leeg : ObjectRow :=
  {| Object_ID := 14; obj_Name := Some (py "Leeg");
     Object_Type := Some (py "Enumeration"); obj_Package_ID := 99;
     Stereotype := None; Note := None; ea_guid := None |}.

Definition soort : AttributeRow :=
  attribute_row 30 "soort" "Leeg" (SqlText (py "14")) SqlNull 1.

Definition literal_free_snapshot : Snapshot :=
  {| t_package :=
       [ {| pkg_Package_ID := 4; pkg_Name := Some (py "0 Bestuur");
            pkg_Parent_ID := 3 |} ];
     t_object := [ class_row 30 "Zaak" 4; leeg ];
     t_attribute := [ soort ]; t_connector := [] |}.

Definition literal_free_gen : OpenRegisterGenerator :=
  generator_of ascii_only 1000 (GGMDatabase_init literal_free_snapshot).

(** The entry of a class in the schemas map. *)
Definition entry_of (U : Unicode) (cls : ObjectRow) (entry : pystr * pydict)
  : Prop :=
  exists nm,
    obj_Name cls = Some nm
    /\ dict_get (py "title") (snd entry) = Some (JStr nm)
    /\ dict_get (py "slug") (snd entry) = Some (JStr (fst entry))
    /\ (fst entry = slugify U nm
        \/ exists n, (2 <= n)%Z /\ fst entry = suffixed (slugify U nm) n).


(** The schemas and slug list of domain 4 of the small model. *)
Definition example_domain : list (pystr * pydict) * list pystr :=
  match domain_schemas ascii_only 1000 example_gen 4 with
  | Ok r => r
  | Raise _ => ([], [])
  end.

Definition bestuur : DomainInfo :=
  domain "0 Bestuur, Politiek en Ondersteuning" "ggm-bestuur-politiek"
         "0-bestuur-politiek.openregister.json".

Definition persoon_schema : pydict :=
  match _generate_schema ascii_only example_gen persoon ∅ with
  | Ok s => s
  | Raise _ => []
  end.

Definition persoon_attributes : pydict * list pystr :=
  match attribute_properties ascii_only example_gen persoon ∅ with
  | Ok r => r
  | Raise _ => ([], [])
  end.

Definition nameless_domain : list (pystr * pydict) * list pystr :=
  match domain_schemas ascii_only 1000 nameless_gen 4 with
  | Ok r => r
  | Raise _ => ([], [])
  end.

(** ** Further code of the generator *)

From Stdlib Require Import Sorting.Sorted.

(** Convert CamelCase to a slug: a hyphen goes before every capital
    letter of the class [[A-Z]], then [slugify]. *)
Definition hyphenate_capitals (name : pystr) : pystr :=
  flat_map (fun c => if is_AZ c then [hyphen; c] else [c]) name.

Definition camel_to_slug (U : Unicode) (name : pystr) : pystr :=
  slugify U (strip_with is_hyphen (hyphenate_capitals name)).

(** A letter or digit of a slug. *)
Definition is_alnum (c : N) : bool := is_az c || is_09 c.

(** The alphabet of a sanitized property name: [[a-zA-Z0-9_]]. *)
Definition ident_char (c : N) : bool :=
  is_az c || is_AZ c || is_09 c || (c =? 95).

(** The formats the type mapper can name. *)
Definition type_formats : list pystr :=
  [py "date"; py "date-time"; py "time"; py "uri"; py "email"; py "geo";
   py "uuid"; py "binary"].

(** The three shapes of a property type: a bare kind, a string with a
    format, a string with a maximal length. *)
Inductive property_type : pydict -> Prop :=
| pt_kind kind :
    In kind [py "string"; py "integer"; py "number"; py "boolean"] ->
    property_type [(py "type", JStr kind)]
| pt_format f :
    In f type_formats ->
    property_type [(py "type", JStr (py "string")); (py "format", JStr f)]
| pt_maxlen n :
    property_type [(py "type", JStr (py "string")); (py "maxLength", JInt n)].

(** The number written by ASCII digits. *)
Definition decimal_value (ds : pystr) : Z :=
  fold_left (fun acc c => (10 * acc + Z.of_N (c - 48))%Z) ds 0%Z.

(** The note of an attribute as the mapper cleans it. *)
Definition attribute_notes (U : Unicode) (attr : AttributeRow) : pystr :=
  strip U (strip_tags (text_or_empty (Notes attr))).

(** The attribute's classifier names an enumeration of the cache or a
    DataType object. *)
Definition classifier_resolved (U : Unicode) (self : OpenRegisterGenerator)
    (attr : AttributeRow) : bool :=
  set_and_nonzero (Classifier attr)
  && match py_int U (Classifier attr) with
     | Ok cid =>
         match enums (db self) !! cid, objects (db self) !! cid with
         | Some _, _ => true
         | None, Some obj => text_is (Object_Type obj) (py "DataType")
         | None, None => false
         end
     | Raise _ => false
     end.

(** The property key of an attribute. *)
Definition attribute_key (U : Unicode) (attr : AttributeRow) : pystr :=
  _sanitize_property_name U (attr_Name attr).

(** The slugs of the generalization parents of a class that the global
    index knows. *)
Definition resolved_parents (self : OpenRegisterGenerator) (cls : ObjectRow)
  : list pystr :=
  omap (fun p => object_slug_map self !! p)
       (get_generalizations_for_object (db self) (Object_ID cls)).

(** The description of a schema before the inheritance note. *)
Definition base_description (U : Unicode) (cls : ObjectRow) : pystr :=
  let note := strip U (strip_tags (text_or_empty (Note cls))) in
  if is_nil note then py "GGM entity: " ++ text_or_empty (obj_Name cls)
  else note.

(** The two loops of [OpenRegisterGenerator.__init__], turn by turn. *)
Definition index_class (U : Unicode) (pkg_id : Z)
    (self : OpenRegisterGenerator) (cls : ObjectRow)
  : result OpenRegisterGenerator :=
  let obj_id := Object_ID cls in
  schema_slug ← slugify_text U (obj_Name cls);
  Ok {| db := db self;
        object_domain_map := <[obj_id := pkg_id]> (object_domain_map self);
        object_slug_map := <[obj_id := schema_slug]> (object_slug_map self);
        domain_slug_map := domain_slug_map self |}.

Definition index_domain (U : Unicode) (limit : nat) (d : GGMDatabase)
    (self : OpenRegisterGenerator) (entry : Z * DomainInfo)
  : result OpenRegisterGenerator :=
  let '(pkg_id, info) := entry in
  let self :=
    {| db := db self;
       object_domain_map := object_domain_map self;
       object_slug_map := object_slug_map self;
       domain_slug_map := <[pkg_id := dom_slug info]> (domain_slug_map self) |} in
  descendant_ids ← get_descendant_packages limit d pkg_id;
  classes ← get_classes_in_packages U d descendant_ids;
  foldM (index_class U pkg_id) self classes.

(** A class row as the generator selects it, with its name. *)
Definition modeled_class (d : GGMDatabase) (cls : ObjectRow) (nm : pystr) : Prop :=
  In cls (t_object (conn d))
  /\ text_is (Object_Type cls) (py "Class") = true
  /\ text_is (Stereotype cls) (py "Objecttype") = true
  /\ obj_Name cls = Some nm.

(** No complete tag is left: after every ['<'] the next ['>'], if any,
    follows at once. *)
Fixpoint no_tag (s : pystr) : bool :=
  match s with
  | [] => true
  | c :: r =>
      (if c =? 60 then
         match find_gt r with Some (S _) => false | _ => true end
       else true)
      && no_tag r
  end.

(** ** The small model, continued *)

Definition leeftijd_attr : AttributeRow :=
  attribute_row 10 "leeftijd" "N3" SqlNull (SqlText (py "1")) 1.

Definition adressen_attr : AttributeRow :=
  attribute_row 10 "adressen" "AN40" SqlNull (SqlText (py "0")) 2.

Definition indicatie_property : pydict :=
  match _map_attribute ascii_only example_gen indicatie ∅ with
  | Ok p => p
  | Raise _ => []
  end.

Definition adressen_relation : pystr * pydict :=
  match _map_association ascii_only example_gen heeft_adressen 10 with
  | Some r => r
  | None => ([], [])
  end.

Definition example_config : pydict :=
  match _generate_domain ascii_only 1000 example_gen 4 bestuur with
  | Ok c => c
  | Raise _ => []
  end.

(** A class with an attribute whose classifier is a text that is no
    number. *)
Definition faulty_attr : AttributeRow :=
  attribute_row 40 "soort" "AN10" (SqlText (py "geen")) SqlNull 1.

Definition besluit : ObjectRow := class_row 40 "Besluit" 4.

Definition faulty_snapshot : Snapshot :=
  {| t_package :=
       [ {| pkg_Package_ID := 4; pkg_Name := Some (py "0 Bestuur");
            pkg_Parent_ID := 3 |} ];
     t_object := [ besluit ];
     t_attribute := [ faulty_attr ]; t_connector := [] |}.

Definition faulty_db : GGMDatabase := GGMDatabase_init faulty_snapshot.

Definition faulty_gen : OpenRegisterGenerator :=
  generator_of ascii_only 1000 faulty_db.

Definition hoofdadres_relation : pystr * pydict :=
  match _map_association ascii_only example_gen heeft_hoofdadres 10 with
  | Some r => r
  | None => ([], [])
  end.
Example slugify_adres U : slugify U (py "Adres") = py "adres".
Proof. vm_compute. reflexivity. Qed.

Example slugify_adres_bang U : slugify U (py "ADRES!!") = py "adres".
Proof. vm_compute. reflexivity. Qed.

Example slugify_spaces U :
  slugify U (py " Natuurlijk  Persoon - (NPS) ") = py "natuurlijk-persoon-nps".
Proof. vm_compute. reflexivity. Qed.

(** ** Basic facts on strings and dicts *)

Lemma str_eqb_eq a b : str_eqb a b = true <-> a = b.
Proof.
  revert b. induction a as [|x a IH]; intros [|y b]; simpl;
    try (split; [discriminate|discriminate]); [tauto|].
  rewrite andb_true_iff, N.eqb_eq, IH. split.
  - intros [-> ->]. reflexivity.
  - intros [= -> ->]. auto.
Qed.

Lemma str_eqb_refl a : str_eqb a a = true.
Proof. apply str_eqb_eq. reflexivity. Qed.

Lemma str_eqb_neq a b : str_eqb a b = false <-> a <> b.
Proof.
  rewrite <- str_eqb_eq. destruct (str_eqb a b); split; congruence.
Qed.

Lemma foldM_cons {A B} (f : B -> A -> result B) b a r :
  foldM f b (a :: r)
  = match f b a with Ok b' => foldM f b' r | Raise e => Raise e end.
Proof. reflexivity. Qed.

Lemma bind_Ok_l {A B} (a : A) (f : A -> result B) : mbind f (Ok a) = f a.
Proof. reflexivity. Qed.

Lemma bind_Ok {A B} (m : result A) (f : A -> result B) b :
  mbind f m = Ok b -> exists a, m = Ok a /\ f a = Ok b.
Proof. destruct m as [a|e]; simpl; [eauto|discriminate]. Qed.

Section DictFacts.
Context {V : Type}.
Implicit Types (d : list (pystr * V)) (k : pystr) (v : V).

Lemma dict_get_set_eq k v d : dict_get k (dict_set k v d) = Some v.
Proof.
  induction d as [|[k' v'] r IH]; simpl.
  - rewrite str_eqb_refl. reflexivity.
  - destruct (str_eqb k k') eqn:E; simpl; rewrite E; [reflexivity|exact IH].
Qed.

Lemma dict_get_set_ne k k' v d :
  k <> k' -> dict_get k' (dict_set k v d) = dict_get k' d.
Proof.
  intros Hne. induction d as [|[k0 v0] r IH]; simpl.
  - destruct (str_eqb k' k) eqn:E; [|reflexivity].
    apply str_eqb_eq in E. congruence.
  - destruct (str_eqb k k0) eqn:E; simpl.
    + apply str_eqb_eq in E. subst k0.
      destruct (str_eqb k' k) eqn:E'; [|reflexivity].
      apply str_eqb_eq in E'. congruence.
    + rewrite IH. reflexivity.
Qed.

Lemma dict_mem_set_same k v d : dict_mem k (dict_set k v d) = true.
Proof. unfold dict_mem. rewrite dict_get_set_eq. reflexivity. Qed.

Lemma dict_mem_set_mono k k' v d :
  dict_mem k' d = true -> dict_mem k' (dict_set k v d) = true.
Proof.
  unfold dict_mem. destruct (str_eqb k k') eqn:E.
  - apply str_eqb_eq in E. subst. rewrite dict_get_set_eq. reflexivity.
  - apply str_eqb_neq in E. rewrite dict_get_set_ne by exact E. auto.
Qed.

Lemma dict_set_fresh k v d : dict_mem k d = false -> dict_set k v d = d ++ [(k, v)].
Proof.
  unfold dict_mem. induction d as [|[k' v'] r IH]; simpl; [reflexivity|].
  destruct (str_eqb k k'); [discriminate|]. intros H. rewrite IH by exact H.
  reflexivity.
Qed.

Lemma dict_set_set k v1 v2 d : dict_set k v2 (dict_set k v1 d) = dict_set k v2 d.
Proof.
  induction d as [|[k' v'] r IH]; simpl.
  - rewrite str_eqb_refl. reflexivity.
  - destruct (str_eqb k k') eqn:E; simpl; rewrite E; [reflexivity|].
    rewrite IH. reflexivity.
Qed.

Lemma dict_set_same k v d : dict_get k d = Some v -> dict_set k v d = d.
Proof.
  induction d as [|[k' v'] r IH]; simpl; [discriminate|].
  destruct (str_eqb k k'); [intros [= ->]; reflexivity|].
  intros H. rewrite IH by exact H. reflexivity.
Qed.

Lemma dict_set_nonempty k v d : dict_truthy (dict_set k v d) = true.
Proof. destruct d as [|[k' v'] r]; simpl; [|destruct (str_eqb k k')]; reflexivity. Qed.

Lemma dict_get_In k v d : dict_get k d = Some v -> In (k, v) d.
Proof.
  induction d as [|[k' v'] r IH]; simpl; [discriminate|].
  destruct (str_eqb k k') eqn:E.
  - apply str_eqb_eq in E. intros [= ->]. subst. left. reflexivity.
  - intros H. right. apply IH, H.
Qed.

Lemma dict_mem_keys k d : dict_mem k d = true <-> In k (dict_keys d).
Proof.
  unfold dict_mem, dict_keys. induction d as [|[k' v'] r IH]; simpl.
  - split; [discriminate|tauto].
  - destruct (str_eqb k k') eqn:E.
    + apply str_eqb_eq in E. subst. tauto.
    + apply str_eqb_neq in E. rewrite IH. split; [tauto|].
      intros [H|H]; [congruence|exact H].
Qed.

End DictFacts.

(** ** Properties of the slug codec *)

Section SlugProperties.
Context (U : Unicode).

Lemma slug_char_ascii c : slug_char c = true -> is_ascii c = true.
Proof.
  unfold slug_char, is_az, is_09, is_hyphen, is_ascii, hyphen. intros H.
  apply N.ltb_lt.
  repeat (apply orb_prop in H; destruct H as [H|H]);
    try (apply andb_prop in H; destruct H as [H1 H2];
         apply N.leb_le in H1, H2; lia).
  apply N.eqb_eq in H. lia.
Qed.

Lemma slug_char_not_upper c : slug_char c = true -> is_AZ c = false.
Proof.
  unfold slug_char, is_az, is_09, is_hyphen, is_AZ, hyphen. intros H.
  apply andb_false_iff. rewrite !N.leb_gt.
  repeat (apply orb_prop in H; destruct H as [H|H]);
    try (apply andb_prop in H; destruct H as [H1 H2];
         apply N.leb_le in H1, H2; lia).
  apply N.eqb_eq in H. lia.
Qed.

Lemma slug_char_not_space c : slug_char c = true -> isspace U c = false.
Proof.
  intros H. unfold isspace. rewrite (slug_char_ascii _ H).
  revert H. unfold slug_char, is_az, is_09, is_hyphen, ascii_isspace, hyphen.
  intros H. apply orb_false_iff. rewrite !andb_false_iff, !N.leb_gt.
  repeat (apply orb_prop in H; destruct H as [H|H]);
    try (apply andb_prop in H; destruct H as [H1 H2];
         apply N.leb_le in H1, H2; lia).
  apply N.eqb_eq in H. lia.
Qed.

Lemma slug_char_keep c : slug_char c = true -> slug_keep U c = true.
Proof.
  unfold slug_char, slug_keep. intros H.
  repeat (apply orb_prop in H; destruct H as [H|H]); rewrite H;
    rewrite ?orb_true_r; reflexivity.
Qed.

Lemma keep_not_space_slug c :
  slug_keep U c = true -> isspace U c = false -> slug_char c = true.
Proof.
  unfold slug_keep, slug_char. intros H Hs. rewrite Hs, orb_false_r in H.
  exact H.
Qed.

Lemma hyphen_slug_char : slug_char hyphen = true.
Proof. reflexivity. Qed.

(** The substitution of white space leaves slug characters only. *)
Lemma sub_runs_space_chars b s :
  Forall (fun c => slug_keep U c = true) s ->
  Forall (fun c => slug_char c = true) (sub_runs (isspace U) b s).
Proof.
  intros H. revert b. induction H as [|c r Hc _ IH]; intros b; simpl.
  - constructor.
  - destruct (isspace U c) eqn:Hs.
    + destruct b; [apply IH|constructor; [apply hyphen_slug_char|apply IH]].
    + constructor; [apply keep_not_space_slug; assumption|apply IH].
Qed.

Lemma sub_runs_hyphen_chars b s :
  Forall (fun c => slug_char c = true) s ->
  Forall (fun c => slug_char c = true) (sub_runs is_hyphen b s).
Proof.
  intros H. revert b. induction H as [|c r Hc _ IH]; intros b; simpl.
  - constructor.
  - destruct (is_hyphen c).
    + destruct b; [apply IH|constructor; [apply hyphen_slug_char|apply IH]].
    + constructor; [assumption|apply IH].
Qed.

Lemma sub_runs_hyphen_no_hh b s : no_hh b (sub_runs is_hyphen b s) = true.
Proof.
  revert b. induction s as [|c r IH]; intros b; simpl; [reflexivity|].
  destruct (is_hyphen c) eqn:Hc.
  - destruct b; simpl.
    + (* still inside the run: nothing is emitted *)
      clear Hc. specialize (IH true).
      destruct (sub_runs is_hyphen true r) as [|d r'] eqn:E; [reflexivity|].
      simpl in *. destruct (is_hyphen d); [discriminate IH|exact IH].
    + change (is_hyphen hyphen) with true. simpl. apply IH.
  - simpl. rewrite Hc. apply IH.
Qed.

Lemma no_hh_weaken s : no_hh true s = true -> no_hh false s = true.
Proof.
  destruct s as [|c r]; simpl; [reflexivity|].
  destruct (is_hyphen c); [discriminate|auto].
Qed.

Lemma drop_while_Forall (P : N -> Prop) p s :
  Forall P s -> Forall P (drop_while p s).
Proof.
  induction 1 as [|c r Hc Hr IH]; simpl; [constructor|].
  destruct (p c); [exact IH|constructor; assumption].
Qed.

Lemma rstrip_with_Forall (P : N -> Prop) p s :
  Forall P s -> Forall P (rstrip_with p s).
Proof.
  induction 1 as [|c r Hc Hr IH]; simpl; [constructor|].
  destruct (p c && is_nil (rstrip_with p r)); constructor; assumption.
Qed.

Lemma drop_while_no_hh b p s :
  no_hh b s = true -> no_hh false (drop_while p s) = true.
Proof.
  revert b. induction s as [|c r IH]; intros b H; simpl; [reflexivity|].
  destruct (p c).
  - simpl in H. destruct (is_hyphen c).
    + apply andb_prop in H. destruct H as [_ H]. apply (IH true H).
    + apply (IH false H).
  - destruct b; [apply no_hh_weaken|]; exact H.
Qed.

Lemma rstrip_with_no_hh b p s :
  no_hh b s = true -> no_hh b (rstrip_with p s) = true.
Proof.
  revert b. induction s as [|c r IH]; intros b H; simpl; [reflexivity|].
  destruct (p c && is_nil (rstrip_with p r)); [reflexivity|].
  simpl in *. destruct (is_hyphen c).
  - apply andb_prop in H. destruct H as [H1 H2]. rewrite H1. simpl.
    apply IH, H2.
  - apply IH, H.
Qed.

Lemma drop_while_head p s c :
  head (drop_while p s) = Some c -> p c = false.
Proof.
  induction s as [|d r IH]; simpl; [discriminate|].
  destruct (p d) eqn:Hd; [exact IH|].
  simpl. intros [= <-]. exact Hd.
Qed.

Lemma rstrip_with_head p s c :
  head s = Some c -> p c = false -> head (rstrip_with p s) = Some c.
Proof.
  destruct s as [|d r]; simpl; [discriminate|].
  intros [= ->] Hc. rewrite Hc. reflexivity.
Qed.

Lemma rstrip_with_head_inv p s c :
  head (rstrip_with p s) = Some c -> head s = Some c.
Proof.
  destruct s as [|d r]; simpl; [discriminate|].
  destruct (p d && is_nil (rstrip_with p r)); simpl; [discriminate|auto].
Qed.

Lemma rstrip_with_last p s c :
  last (rstrip_with p s) = Some c -> p c = false.
Proof.
  induction s as [|d r IH]; simpl; [discriminate|].
  destruct (rstrip_with p r) as [|e r'] eqn:E; simpl.
  - rewrite andb_true_r. destruct (p d) eqn:Hd; simpl; [discriminate|].
    intros [= <-]. exact Hd.
  - rewrite andb_false_r. simpl. exact IH.
Qed.

Lemma drop_while_id p s :
  (forall c, head s = Some c -> p c = false) -> drop_while p s = s.
Proof.
  destruct s as [|d r]; simpl; [reflexivity|].
  intros H. rewrite (H d eq_refl). reflexivity.
Qed.

Lemma rstrip_with_id p s :
  (forall c, last s = Some c -> p c = false) -> rstrip_with p s = s.
Proof.
  induction s as [|d r IH]; simpl; [reflexivity|]. intros H.
  destruct r as [|e r'].
  - simpl. rewrite andb_true_r, (H d eq_refl). reflexivity.
  - rewrite IH by (intros c Hc; apply H; exact Hc).
    simpl. rewrite andb_false_r. reflexivity.
Qed.

Lemma sub_runs_id p b s :
  Forall (fun c => p c = false) s -> sub_runs p b s = s.
Proof.
  intros H. revert b. induction H as [|c r Hc _ IH]; intros b; simpl;
    [reflexivity|].
  rewrite Hc, IH. reflexivity.
Qed.

Lemma sub_runs_hyphen_id b s : no_hh b s = true -> sub_runs is_hyphen b s = s.
Proof.
  revert b. induction s as [|c r IH]; intros b H; simpl in *; [reflexivity|].
  destruct (is_hyphen c) eqn:Hc.
  - apply andb_prop in H. destruct H as [Hb H]. destruct b; [discriminate|].
    rewrite (IH true H). apply N.eqb_eq in Hc. rewrite Hc. reflexivity.
  - rewrite (IH false H). reflexivity.
Qed.

Lemma no_hh_infix b a r : no_hh b (a ++ hyphen :: hyphen :: r) = false.
Proof.
  revert b. induction a as [|c a IH]; intros b; simpl.
  - change (is_hyphen hyphen) with true. simpl. apply andb_false_r.
  - destruct (is_hyphen c); [rewrite IH; apply andb_false_r|apply IH].
Qed.

Lemma slugify_shaped x : slug_shaped (slugify U x).
Proof.
  unfold slugify, strip_with.
  set (s1 := List.filter (slug_keep U) (lower U x)).
  assert (H1 : Forall (fun c => slug_keep U c = true) s1).
  { apply List.Forall_forall. intros c Hc.
    apply List.filter_In in Hc. apply Hc. }
  pose proof (sub_runs_space_chars false _ H1) as H2.
  pose proof (sub_runs_hyphen_chars false _ H2) as H3.
  pose proof (sub_runs_hyphen_no_hh false
                (sub_runs (isspace U) false s1)) as H4.
  set (s3 := sub_runs is_hyphen false (sub_runs (isspace U) false s1)) in *.
  split.
  - apply rstrip_with_Forall, drop_while_Forall, H3.
  - apply rstrip_with_no_hh, (drop_while_no_hh false), H4.
  - intros c Hc. apply rstrip_with_head_inv in Hc.
    apply (drop_while_head _ _ _ Hc).
  - intros c Hc. apply (rstrip_with_last _ _ _ Hc).
Qed.

Lemma slugify_fixes_shaped s : slug_shaped s -> slugify U s = s.
Proof.
  intros [Hc Hh Hhd Hl]. unfold slugify, strip_with.
  assert (Hlow : lower U s = s).
  { unfold lower.
    replace (forallb is_ascii s) with true.
    - clear -Hc. induction Hc as [|c r H _ IH]; simpl; [reflexivity|].
      unfold ascii_lower at 1. rewrite (slug_char_not_upper _ H), IH.
      reflexivity.
    - symmetry. apply forallb_forall. intros c Hin.
      apply slug_char_ascii. rewrite List.Forall_forall in Hc. auto. }
  rewrite Hlow.
  assert (Hf : List.filter (slug_keep U) s = s).
  { clear -Hc. induction Hc as [|c r H _ IH]; simpl; [reflexivity|].
    rewrite (slug_char_keep _ H), IH. reflexivity. }
  rewrite Hf.
  rewrite (sub_runs_id (isspace U)).
  2:{ eapply List.Forall_impl; [|exact Hc]. apply slug_char_not_space. }
  rewrite (sub_runs_hyphen_id _ _ Hh).
  rewrite (drop_while_id _ _ Hhd). apply rstrip_with_id, Hl.
Qed.

End SlugProperties.

(** C8. For every input string [x], [slugify] is idempotent,
    [slugify (slugify x) = slugify x], and [slugify x] consists only of
    lowercase letters, digits and hyphens, with no leading hyphen, no
    trailing hyphen and no two consecutive hyphens. *)
Theorem slugify_idempotent (U : Unicode) (x : pystr) :
  slugify U (slugify U x) = slugify U x
  /\ Forall (fun c => is_az c || is_09 c || is_hyphen c = true) (slugify U x)
  /\ head (slugify U x) <> Some hyphen
  /\ last (slugify U x) <> Some hyphen
  /\ (forall a b, slugify U x <> a ++ hyphen :: hyphen :: b).
Proof.
  pose proof (slugify_shaped U x) as H.
  split; [apply slugify_fixes_shaped, H|].
  destruct H as [Hc Hh Hhd Hl].
  split; [exact Hc|].
  split; [intros E; specialize (Hhd _ E); discriminate|].
  split; [intros E; specialize (Hl _ E); discriminate|].
  intros a b E. rewrite E, no_hh_infix in Hh. discriminate.
Qed.

(** ** The type mapper *)

(** C7. The type mapper respects its precedence and point mappings:
    [N10.2] is a number and not an integer, [AN10] a string of at most 10
    characters, [varchar(50)] of at most 50 and [varchar] of at most
    255. *)
Theorem map_type_points (U : Unicode) (length : Z) :
  map_type U (Some (py "N10.2")) length = Ok [(py "type", JStr (py "number"))]
  /\ map_type U (Some (py "N10.2")) length
     <> Ok [(py "type", JStr (py "integer"))]
  /\ map_type U (Some (py "AN10")) length
     = Ok [(py "type", JStr (py "string")); (py "maxLength", JInt 10)]
  /\ map_type U (Some (py "varchar(50)")) length
     = Ok [(py "type", JStr (py "string")); (py "maxLength", JInt 50)]
  /\ map_type U (Some (py "varchar")) length
     = Ok [(py "type", JStr (py "string")); (py "maxLength", JInt 255)].
Proof.
  repeat split; try (vm_compute; reflexivity).
  vm_compute. discriminate.
Qed.

(** ** Decimal numerals *)

Lemma py_inj a b : py a = py b -> a = b.
Proof.
  unfold py. revert b. induction a as [|c a IH]; intros [|d b]; simpl;
    try discriminate; [reflexivity|].
  intros [= Hc Hr]. f_equal; [|apply IH, Hr].
  rewrite <- (ascii_N_embedding c), <- (ascii_N_embedding d), Hc. reflexivity.
Qed.

Lemma pretty_N_go_length x s :
  (String.length s <= String.length (pretty_N_go x s))%nat.
Proof.
  revert s. induction (N.lt_wf_0 x) as [x _ IH]. intros s.
  destruct (N.eq_dec x 0) as [->|Hx].
  - rewrite pretty_N_go_0. lia.
  - rewrite pretty_N_go_step by lia.
    etrans; [|apply IH, N.div_lt; lia]. simpl. lia.
Qed.

Lemma pretty_N_nonempty (x : N) : pretty x <> ""%string.
Proof.
  unfold pretty, pretty_N. destruct (decide (x = 0)) as [|Hx]; [discriminate|].
  rewrite pretty_N_go_step by lia.
  intros E.
  pose proof (pretty_N_go_length (x `div` 10)
                (String (pretty_N_char (x `mod` 10)) "")) as H.
  rewrite E in H. simpl in H. lia.
Qed.

Lemma pretty_Z_nonempty (z : Z) : py (pretty z) <> [].
Proof.
  intros E. apply (py_inj _ ""%string) in E. revert E.
  destruct z as [|p|p]; unfold pretty, pretty_Z; simpl; try discriminate.
  apply (pretty_N_nonempty (N.pos p)).
Qed.

(** ** Associations *)

Lemma truthy_py_str_nonempty c : truthy c = true -> is_nil (py_str c) = false.
Proof.
  destruct c as [|z|s]; simpl; [discriminate| |].
  - intros _. pose proof (pretty_Z_nonempty z) as H.
    destruct (py (pretty z)); [congruence|reflexivity].
  - destruct s; [discriminate|reflexivity].
Qed.

Lemma falsy_not_multiple c : truthy c = false -> spec_is_multiple (py_str c) = false.
Proof.
  destruct c as [|z|s]; simpl.
  - intros _. vm_compute. reflexivity.
  - rewrite negb_false_iff, Z.eqb_eq. intros ->. vm_compute. reflexivity.
  - destruct s; [intros _; vm_compute; reflexivity|discriminate].
Qed.

(** The code's test and the rule of the specification agree on every
    value of the column. *)
Lemma is_multiple_spec c : is_multiple c = spec_is_multiple (py_str c).
Proof.
  destruct (truthy c) eqn:Ht.
  - unfold is_multiple, spec_is_multiple.
    rewrite Ht, (truthy_py_str_nonempty _ Ht). simpl.
    repeat match goal with |- context [if ?b then _ else _] =>
      destruct b; try reflexivity end.
  - rewrite (falsy_not_multiple _ Ht). unfold is_multiple. rewrite Ht.
    reflexivity.
Qed.

Lemma map_association_resolved U self assoc source_obj_id target_slug :
  object_slug_map self !! other_end_id assoc source_obj_id = Some target_slug ->
  exists prop_name,
    _map_association U self assoc source_obj_id
    = Some (prop_name,
            if is_multiple (other_end_card assoc source_obj_id)
            then array_ref prop_name target_slug
            else object_ref prop_name target_slug).
Proof.
  unfold _map_association, other_end_id, other_end_card.
  destruct (Start_Object_ID assoc =? source_obj_id)%Z; intros ->;
    eexists; reflexivity.
Qed.

(** C3. For every end cardinality processed by the association mapper:
    the strings 0..*, 1..* and * give the array property
    [{type: array, title, items: {type: object, $ref: targetSlug}}];
    0..1, 1 and 1..1 give the single property
    [{type: object, title, $ref: targetSlug}]; any other non-empty string
    containing * or containing .. and not ending in ..1 (such as 2..4)
    gives the array form; anything else the single form; the [$ref] is
    the bare target slug in every case. *)
Theorem map_association_cardinality (U : Unicode)
    (self : OpenRegisterGenerator) (assoc : ConnectorRow)
    (source_obj_id : Z) (target_slug : pystr) :
  object_slug_map self !! other_end_id assoc source_obj_id = Some target_slug ->
  exists prop_name,
    _map_association U self assoc source_obj_id
    = Some (prop_name,
            if spec_is_multiple (py_str (other_end_card assoc source_obj_id))
            then array_ref prop_name target_slug
            else object_ref prop_name target_slug).
Proof.
  intros H. rewrite <- is_multiple_spec.
  apply map_association_resolved, H.
Qed.

(** The cardinalities named by the specification, on the code's test. *)
Example is_multiple_points :
  List.map (fun s => is_multiple (SqlText (py s)))
           ["0..*"; "1..*"; "*"; "0..1"; "1"; "1..1"; "2..4"; "3..1"; ""; "n"]%string
  = [true; true; true; false; false; false; true; false; false; false].
Proof. vm_compute. reflexivity. Qed.

Lemma map_association_unresolved U self assoc source_obj_id :
  object_slug_map self !! other_end_id assoc source_obj_id = None ->
  _map_association U self assoc source_obj_id = None.
Proof.
  unfold _map_association, other_end_id.
  destruct (Start_Object_ID assoc =? source_obj_id)%Z; intros ->; reflexivity.
Qed.

(** C5. For every association touching a source entity, if the target
    entity at the other end is absent from the global index
    ([object_slug_map]), the mapper returns nothing and the association
    loop emits no property for it: the properties are those the loop
    builds without that association.  No exception is involved. *)
Theorem unresolved_association_dropped (U : Unicode)
    (self : OpenRegisterGenerator) (assoc : ConnectorRow) (source_obj_id : Z) :
  object_slug_map self !! other_end_id assoc source_obj_id = None ->
  _map_association U self assoc source_obj_id = None
  /\ (forall properties,
        association_step U self source_obj_id properties assoc = properties)
  /\ (forall before after properties,
        fold_left (association_step U self source_obj_id)
                  (before ++ assoc :: after) properties
        = fold_left (association_step U self source_obj_id)
                    (before ++ after) properties).
Proof.
  intros H. pose proof (map_association_unresolved U _ _ _ H) as HN.
  assert (Hstep : forall properties,
             association_step U self source_obj_id properties assoc = properties).
  { intros properties. unfold association_step. rewrite HN. reflexivity. }
  repeat split; [exact HN|exact Hstep|].
  intros before after properties.
  rewrite !fold_left_app. simpl. rewrite Hstep. reflexivity.
Qed.

(** ** The schema builder *)

Lemma association_step_keeps U self obj_id properties assoc k v :
  dict_get k properties = Some v ->
  dict_get k (association_step U self obj_id properties assoc) = Some v.
Proof.
  intros H. unfold association_step.
  destruct (_map_association U self assoc obj_id) as [[prop_name prop_def]|];
    [|exact H].
  destruct (dict_mem prop_name properties) eqn:E; [exact H|].
  rewrite dict_get_set_ne; [exact H|].
  intros ->. unfold dict_mem in E. rewrite H in E. discriminate.
Qed.

Lemma association_loop_keeps U self obj_id assocs properties k v :
  dict_get k properties = Some v ->
  dict_get k (fold_left (association_step U self obj_id) assocs properties)
  = Some v.
Proof.
  revert properties. induction assocs as [|a r IH]; intros properties H; simpl;
    [exact H|].
  apply IH, association_step_keeps, H.
Qed.

Lemma association_step_appends U self obj_id properties assoc :
  exists added,
    association_step U self obj_id properties assoc = properties ++ added.
Proof.
  unfold association_step.
  destruct (_map_association U self assoc obj_id) as [[prop_name prop_def]|];
    [|exists []; rewrite List.app_nil_r; reflexivity].
  destruct (dict_mem prop_name properties) eqn:E;
    [exists []; rewrite List.app_nil_r; reflexivity|].
  rewrite (dict_set_fresh _ _ _ E). eauto.
Qed.

Lemma association_loop_appends U self obj_id assocs properties :
  exists added,
    fold_left (association_step U self obj_id) assocs properties
    = properties ++ added.
Proof.
  revert properties. induction assocs as [|a r IH]; intros properties; simpl.
  - exists []. rewrite List.app_nil_r. reflexivity.
  - destruct (association_step_appends U self obj_id properties a) as (l1 & ->).
    destruct (IH (properties ++ l1)) as (l2 & ->).
    exists (l1 ++ l2). rewrite List.app_assoc. reflexivity.
Qed.

Lemma association_step_skips U self obj_id properties assoc prop_name prop_def :
  _map_association U self assoc obj_id = Some (prop_name, prop_def) ->
  dict_mem prop_name properties = true ->
  association_step U self obj_id properties assoc = properties.
Proof.
  intros H E. unfold association_step. rewrite H, E. reflexivity.
Qed.

(** The document built by [_generate_schema], field by field. *)
Lemma generate_schema_inv U self cls local_enums schema :
  _generate_schema U self cls local_enums = Ok schema ->
  exists nm aprops required description,
    obj_Name cls = Some nm
    /\ attribute_properties U self cls local_enums = Ok (aprops, required)
    /\ schema =
       [(py "slug", JStr (slugify U nm));
        (py "title", JStr nm);
        (py "version", JStr GGM_VERSION);
        (py "description", JStr description);
        (py "required", JList (List.map JStr required));
        (py "properties",
           JDict (fold_left (association_step U self (Object_ID cls))
                            (get_associations_for_object (db self) (Object_ID cls))
                            aprops));
        (py "searchable", JBool true);
        (py "hardValidation", JBool false)].
Proof.
  unfold _generate_schema, attribute_properties.
  destruct (obj_Name cls) as [nm|]; simpl; [|discriminate].
  destruct (foldM _ _ _) as [[aprops required]|e]; simpl; [|discriminate].
  destruct (is_nil _); intros [= <-]; exists nm, aprops, required;
    eexists; (split; [reflexivity|split; [reflexivity|reflexivity]]).
Qed.

Lemma generate_schema_truthy U self cls local_enums schema :
  _generate_schema U self cls local_enums = Ok schema ->
  dict_truthy schema = true.
Proof.
  intros H. apply generate_schema_inv in H.
  destruct H as (nm & aprops & required & description & _ & _ & ->).
  reflexivity.
Qed.

(** C6. For every generated schema, an association-derived property
    whose key equals the key of an attribute-derived property already
    present is skipped, and every attribute-derived property keeps its
    value in the final properties map: attributes are merged first (the
    final map starts with the attribute-derived entries, as they were),
    and the association loop never overwrites. *)
Theorem association_never_overwrites (U : Unicode)
    (self : OpenRegisterGenerator) (cls : ObjectRow)
    (local_enums : gmap Z (list (option pystr)))
    (schema aprops : pydict) (required : list pystr) :
  _generate_schema U self cls local_enums = Ok schema ->
  attribute_properties U self cls local_enums = Ok (aprops, required) ->
  exists properties,
    dict_get (py "properties") schema = Some (JDict properties)
    /\ (forall k v, dict_get k aprops = Some v -> dict_get k properties = Some v)
    /\ (exists added, properties = aprops ++ added)
    /\ (forall props assoc prop_name prop_def,
          _map_association U self assoc (Object_ID cls) = Some (prop_name, prop_def) ->
          dict_mem prop_name props = true ->
          association_step U self (Object_ID cls) props assoc = props).
Proof.
  intros H Ha. apply generate_schema_inv in H.
  destruct H as (nm & aprops' & required' & description & _ & Ha' & ->).
  rewrite Ha in Ha'. injection Ha' as <- <-.
  eexists. split; [reflexivity|]. split; [|split].
  - intros k v Hk. apply association_loop_keeps, Hk.
  - apply association_loop_appends.
  - intros props assoc prop_name prop_def. apply association_step_skips.
Qed.

Lemma attach_notes_truthy prop notes :
  dict_truthy prop = true -> dict_truthy (attach_notes prop notes) = true.
Proof.
  unfold attach_notes. destruct (is_nil notes); [auto|].
  intros _. apply dict_set_nonempty.
Qed.

Lemma map_attribute_truthy U self attr local_enums prop :
  _map_attribute U self attr local_enums = Ok prop -> dict_truthy prop = true.
Proof.
  unfold _map_attribute.
  assert (Hstd : forall p,
    (prop ← map_type U (attr_Type attr) 0;
     if truthy (Default attr) && negb (is_nil (strip U (py_str (Default attr))))
     then Ok (dict_set (py "default") (JStr (strip U (py_str (Default attr))))
                (attach_notes
                   (dict_set (py "title") (json_of_text (attr_Name attr)) prop)
                   (strip U (strip_tags (text_or_empty (Notes attr))))))
     else Ok (attach_notes
                (dict_set (py "title") (json_of_text (attr_Name attr)) prop)
                (strip U (strip_tags (text_or_empty (Notes attr)))))) = Ok p ->
    dict_truthy p = true).
  { intros p. destruct (map_type U (attr_Type attr) 0) as [base|e]; simpl;
      [|discriminate].
    destruct (_ && _); intros [= <-];
      [apply dict_set_nonempty|apply attach_notes_truthy, dict_set_nonempty]. }
  destruct (set_and_nonzero (Classifier attr)); [|apply Hstd].
  destruct (py_int U (Classifier attr)) as [cid|e]; simpl; [|discriminate].
  destruct (enums (db self) !! cid) as [literals|].
  - intros [= <-]. destruct (is_nil literals);
      [apply attach_notes_truthy; reflexivity|apply dict_set_nonempty].
  - destruct (objects (db self) !! cid) as [obj|]; [|apply Hstd].
    destruct (text_is (Object_Type obj) (py "DataType")); [|apply Hstd].
    destruct (map_type U (attr_Type attr) 0) as [base|e]; simpl; [|discriminate].
    intros [= <-]. apply attach_notes_truthy, dict_set_nonempty.
Qed.

Lemma attribute_step_inv U self local_enums properties required attr st :
  attribute_step U self local_enums (properties, required) attr = Ok st ->
  exists prop,
    _map_attribute U self attr local_enums = Ok prop
    /\ st = (dict_set (_sanitize_property_name U (attr_Name attr)) (JDict prop)
                      properties,
             if set_and_nonzero (LowerBound attr)
             then required ++ [_sanitize_property_name U (attr_Name attr)]
             else required).
Proof.
  unfold attribute_step.
  destruct (_map_attribute U self attr local_enums) as [prop|e] eqn:E; simpl;
    [|discriminate].
  rewrite (map_attribute_truthy _ _ _ _ _ E).
  destruct (set_and_nonzero (LowerBound attr)); intros [= <-]; eauto.
Qed.

Lemma attribute_loop_inv U self local_enums attrs properties required
    properties' required' :
  foldM (attribute_step U self local_enums) (properties, required) attrs
  = Ok (properties', required') ->
  required' = required
              ++ List.map (fun a => _sanitize_property_name U (attr_Name a))
                   (List.filter (fun a => set_and_nonzero (LowerBound a)) attrs)
  /\ (forall k, dict_mem k properties = true -> dict_mem k properties' = true)
  /\ (forall a, In a attrs ->
        dict_mem (_sanitize_property_name U (attr_Name a)) properties' = true).
Proof.
  revert properties required.
  induction attrs as [|a r IH]; intros properties required.
  - simpl. intros [= <- <-]. rewrite List.app_nil_r.
    repeat split; [auto|tauto].
  - rewrite foldM_cons.
    destruct (attribute_step U self local_enums (properties, required) a)
      as [st|e] eqn:E; [|discriminate].
    apply attribute_step_inv in E. destruct E as (prop & _ & ->).
    intros H. apply IH in H. destruct H as (Hreq & Hmono & Hall).
    split; [|split].
    + cbn [List.filter].
      destruct (set_and_nonzero (LowerBound a)); rewrite Hreq;
        [rewrite <- List.app_assoc|]; reflexivity.
    + intros k Hk. apply Hmono, dict_mem_set_mono, Hk.
    + intros a' [<-|Hin]; [apply Hmono, dict_mem_set_same|apply Hall, Hin].
Qed.

Lemma association_loop_mono U self obj_id assocs properties k :
  dict_mem k properties = true ->
  dict_mem k (fold_left (association_step U self obj_id) assocs properties) = true.
Proof.
  unfold dict_mem. destruct (dict_get k properties) as [v|] eqn:E; [|discriminate].
  intros _. rewrite (association_loop_keeps _ _ _ _ _ _ _ E). reflexivity.
Qed.

(** The code's test on the lower bound is the rule of the specification. *)
Lemma set_and_nonzero_spec a :
  set_and_nonzero (LowerBound a) = lower_bound_required a.
Proof.
  unfold lower_bound_required, set_and_nonzero, str_in.
  destruct (LowerBound a) as [|z|s]; simpl; [reflexivity| |].
  - destruct (Z.eqb_spec z 0) as [->|Hz]; simpl; [reflexivity|].
    rewrite orb_false_r, negb_orb. reflexivity.
  - destruct s as [|c s]; simpl; [reflexivity|].
    rewrite !orb_false_r, andb_true_r. reflexivity.
Qed.

(** C9. For every generated SchemaDocument, every name of its required
    list is a key of its properties map, and an attribute is added to
    the required list exactly when its lower cardinality bound is
    present and is neither "0" nor the empty string: the list holds the
    property names of those attributes, in attribute order. *)
Theorem required_subset_properties (U : Unicode)
    (self : OpenRegisterGenerator) (cls : ObjectRow)
    (local_enums : gmap Z (list (option pystr))) (schema : pydict) :
  _generate_schema U self cls local_enums = Ok schema ->
  exists required properties,
    dict_get (py "required") schema = Some (JList (List.map JStr required))
    /\ dict_get (py "properties") schema = Some (JDict properties)
    /\ (forall n, In n required -> In n (dict_keys properties))
    /\ required
       = List.map (fun a => _sanitize_property_name U (attr_Name a))
           (List.filter lower_bound_required
              (get_attributes (db self) (Object_ID cls))).
Proof.
  intros H. apply generate_schema_inv in H.
  destruct H as (nm & aprops & required & description & _ & Ha & ->).
  unfold attribute_properties in Ha. apply attribute_loop_inv in Ha.
  destruct Ha as (Hreq & _ & Hall). simpl in Hreq.
  eexists. eexists. split; [reflexivity|]. split; [reflexivity|].
  assert (Hreq' : required
       = List.map (fun a => _sanitize_property_name U (attr_Name a))
           (List.filter lower_bound_required
              (get_attributes (db self) (Object_ID cls)))).
  { rewrite Hreq. f_equal. apply List.filter_ext. intros a.
    apply set_and_nonzero_spec. }
  split; [|exact Hreq'].
  intros n Hn. apply dict_mem_keys, association_loop_mono.
  rewrite Hreq' in Hn. apply List.in_map_iff in Hn.
  destruct Hn as (a & <- & Ha). apply List.filter_In in Ha.
  apply Hall, Ha.
Qed.

(** ** Enumerations *)

Lemma fold_insert_lookup {V} (f : Z -> V) (ids : list Z) (m : gmap Z V) (k : Z) :
  In k ids \/ m !! k = Some (f k) ->
  fold_left (fun m e => <[e := f e]> m) ids m !! k = Some (f k).
Proof.
  revert m. induction ids as [|a r IH]; intros m; simpl.
  - intros [[]|H]. exact H.
  - intros H. apply IH.
    destruct (Z.eq_dec a k) as [->|Hne].
    + right. apply lookup_insert_eq.
    + destruct H as [[H|H]|H]; [congruence|left; exact H|].
      right. rewrite lookup_insert_ne by exact Hne. exact H.
Qed.

(** Every enumeration of the model is in the cache, wherever it lives. *)
Lemma build_enum_cache_lookup (s : Snapshot) (e : ObjectRow) :
  In e (t_object s) ->
  text_is (Object_Type e) (py "Enumeration") = true ->
  _build_enum_cache s !! Object_ID e
  = Some (List.map attr_Name (select_attributes s (Object_ID e))).
Proof.
  intros Hin Hty. unfold _build_enum_cache.
  apply (fold_insert_lookup
           (fun eid => List.map attr_Name (select_attributes s eid))).
  left. apply List.in_map, List.filter_In. split; assumption.
Qed.

Lemma enums_of_init (s : Snapshot) : enums (GGMDatabase_init s) = _build_enum_cache s.
Proof. unfold GGMDatabase_init. destruct (_build_package_tree s). reflexivity. Qed.

Ltac keys_differ := apply str_eqb_neq; reflexivity.

Lemma attach_notes_get k prop notes :
  k <> py "description" ->
  dict_get k (attach_notes prop notes) = dict_get k prop.
Proof.
  intros Hk. unfold attach_notes. destruct (is_nil notes); [reflexivity|].
  apply dict_get_set_ne. congruence.
Qed.

(** C10, as the code has it.  Enumeration classifiers are resolved
    model-wide: the attribute mapper reads the enumeration cache of the
    database and never the domain-local map it is passed, so for an
    attribute whose classifier is an enumeration of the model, in
    whatever package (another domain, or outside every domain), the
    emitted property is the string property with the attribute's name as
    title; it carries the enumeration's literals as its [enum] list when
    the enumeration has at least one literal, and has no [enum] key at
    all when the enumeration has none. *)
Theorem enum_resolution_is_global (U : Unicode) (s : Snapshot)
    (self : OpenRegisterGenerator) (attr : AttributeRow) (e : ObjectRow)
    (local_enums : gmap Z (list (option pystr))) :
  db self = GGMDatabase_init s ->
  In e (t_object s) ->
  text_is (Object_Type e) (py "Enumeration") = true ->
  set_and_nonzero (Classifier attr) = true ->
  py_int U (Classifier attr) = Ok (Object_ID e) ->
  (forall other_enums,
      _map_attribute U self attr other_enums
      = _map_attribute U self attr local_enums)
  /\ exists prop,
       _map_attribute U self attr local_enums = Ok prop
       /\ dict_get (py "type") prop = Some (JStr (py "string"))
       /\ dict_get (py "title") prop = Some (json_of_text (attr_Name attr))
       /\ dict_get (py "enum") prop
          = let literals :=
              List.map attr_Name (select_attributes s (Object_ID e)) in
            if is_nil literals then None
            else Some (JList (List.map json_of_text literals)).
Proof.
  intros Hdb Hin Hty Hcl Hint. split; [reflexivity|].
  unfold _map_attribute. rewrite Hcl, Hint. simpl.
  rewrite Hdb, enums_of_init, (build_enum_cache_lookup _ _ Hin Hty).
  eexists. split; [reflexivity|].
  destruct (is_nil (List.map attr_Name (select_attributes s (Object_ID e)))).
  - rewrite !attach_notes_get by keys_differ. repeat split.
  - rewrite dict_get_set_eq.
    rewrite !dict_get_set_ne by keys_differ.
    rewrite !attach_notes_get by keys_differ. repeat split.
Qed.

(** An attribute typed by an enumeration without literals: the
    enumeration is in the cache, and the property has no [enum] list. *)
Lemma literal_free_enumeration_gives_no_enum :
  In leeg (t_object literal_free_snapshot)
  /\ text_is (Object_Type leeg) (py "Enumeration") = true
  /\ obj_Package_ID leeg = 99%Z
  /\ OpenRegisterGenerator_init ascii_only 1000
       (GGMDatabase_init literal_free_snapshot) = Ok literal_free_gen
  /\ enums (db literal_free_gen) !! Object_ID leeg = Some []
  /\ set_and_nonzero (Classifier soort) = true
  /\ py_int ascii_only (Classifier soort) = Ok (Object_ID leeg)
  /\ _map_attribute ascii_only literal_free_gen soort ∅
     = Ok [(py "type", JStr (py "string")); (py "title", JStr (py "soort"))]
  /\ forall prop,
       _map_attribute ascii_only literal_free_gen soort ∅ = Ok prop ->
       dict_get (py "enum") prop = None.
Proof.
  assert (H : _map_attribute ascii_only literal_free_gen soort ∅
              = Ok [(py "type", JStr (py "string"));
                    (py "title", JStr (py "soort"))])
    by (vm_compute; reflexivity).
  split; [right; left; reflexivity|].
  do 6 (split; [vm_compute; reflexivity|]).
  split; [exact H|].
  intros prop Hp. rewrite H in Hp. injection Hp as <-. reflexivity.
Qed.

(** ** The package tree *)

Lemma foldM_descendants (d : GGMDatabase) (f : Z -> result (list Z))
    (cs : list Z) (acc : list Z) :
  (forall c, In c cs ->
     exists ids, f c = Ok ids /\ forall q, In q ids <-> descendant d c q) ->
  exists ids,
    foldM (fun result child_id => sub ← f child_id; Ok (result ++ sub)) acc cs
    = Ok ids
    /\ forall q, In q ids <-> In q acc \/ exists c, In c cs /\ descendant d c q.
Proof.
  revert acc. induction cs as [|c r IH]; intros acc H.
  - exists acc. split; [reflexivity|]. intros q. split; [auto|].
    intros [Hq|(c & [] & _)]. exact Hq.
  - destruct (H c (or_introl eq_refl)) as (ids & Hc & Hids).
    destruct (IH (acc ++ ids) (fun c' Hc' => H c' (or_intror Hc')))
      as (res & Hres & Hmem).
    exists res. split.
    + rewrite foldM_cons. rewrite Hc. exact Hres.
    + intros q. rewrite Hmem, List.in_app_iff, Hids. split.
      * intros [[Hq|Hq]|(c' & Hc' & Hq)]; [auto| |].
        -- right. exists c. split; [left; reflexivity|exact Hq].
        -- right. exists c'. split; [right; exact Hc'|exact Hq].
      * intros [Hq|(c' & [->|Hc'] & Hq)]; [auto|auto|].
        right. exists c'. auto.
Qed.

Lemma descendant_unfold d p q :
  descendant d p q <-> q = p \/ exists c, In c (children_of d p) /\ descendant d c q.
Proof.
  unfold descendant. split.
  - intros H. apply rtc_inv in H. destruct H as [->|(c & Hc & Hq)]; [auto|].
    right. exists c. auto.
  - intros [->|(c & Hc & Hq)]; [apply rtc_refl|].
    eapply rtc_l; [exact Hc|exact Hq].
Qed.

Lemma get_descendant_packages_step limit d p :
  get_descendant_packages (S limit) d p
  = foldM (fun result child_id =>
             sub ← get_descendant_packages limit d child_id;
             Ok (result ++ sub))
          [p] (children_of d p).
Proof. reflexivity. Qed.

Lemma descendants_of_bounded_tree_aux (limit : nat) (d : GGMDatabase) (root : Z) :
  depth_le limit d root = true ->
  exists ids,
    get_descendant_packages limit d root = Ok ids
    /\ forall q, In q ids <-> descendant d root q.
Proof.
  revert root. induction limit as [|limit IH]; intros root; simpl;
    [discriminate|].
  intros H. rewrite forallb_forall in H.
  destruct (foldM_descendants d (get_descendant_packages limit d)
              (children_of d root) [root]) as (ids & Hids & Hmem).
  { intros c Hc. apply IH, H, Hc. }
  exists ids. split; [exact Hids|].
  intros q. rewrite Hmem, descendant_unfold. simpl. split.
  - intros [[<-|[]]|H']; auto.
  - intros [->|H']; auto.
Qed.

Lemma forallb_false_witness {A} (f : A -> bool) (l : list A) :
  forallb f l = false -> exists a, In a l /\ f a = false.
Proof.
  induction l as [|a r IH]; simpl; [discriminate|].
  destruct (f a) eqn:E; simpl; [|eauto].
  intros H. destruct (IH H) as (b & Hb & Hf). eauto.
Qed.

(** Below the limit the call returns; otherwise it raises
    [RecursionError], and nothing else. *)
Lemma foldM_descendants_raise (f : Z -> result (list Z)) (cs : list Z)
    (acc : list Z) :
  (forall c, In c cs -> (exists ids, f c = Ok ids) \/ f c = Raise RecursionError) ->
  (exists c, In c cs /\ f c = Raise RecursionError) ->
  foldM (fun result child_id => sub ← f child_id; Ok (result ++ sub)) acc cs
  = Raise RecursionError.
Proof.
  revert acc. induction cs as [|c r IH]; intros acc Hall (c' & Hin & Hc').
  - destruct Hin.
  - rewrite foldM_cons.
    destruct (Hall c (or_introl eq_refl)) as [(ids & Hc)|Hc]; rewrite Hc;
      [|reflexivity].
    simpl. apply IH; [intros x Hx; apply Hall; right; exact Hx|].
    destruct Hin as [<-|Hin]; [congruence|eauto].
Qed.

Lemma descendants_beyond_limit (limit : nat) (d : GGMDatabase) (root : Z) :
  depth_le limit d root = false ->
  get_descendant_packages limit d root = Raise RecursionError.
Proof.
  revert root. induction limit as [|limit IH]; intros root; [reflexivity|].
  rewrite get_descendant_packages_step. simpl. intros H.
  apply foldM_descendants_raise.
  - intros c _. destruct (depth_le limit d c) eqn:E; [left|right; apply IH, E].
    destruct (descendants_of_bounded_tree_aux limit d c E) as (ids & Hids & _).
    eauto.
  - apply forallb_false_witness in H.
    destruct H as (c & Hc & Hd). exists c. split; [exact Hc|apply IH, Hd].
Qed.

Lemma descendants_head (limit : nat) (d : GGMDatabase) (root : Z)
    (ids : list Z) :
  get_descendant_packages limit d root = Ok ids -> head ids = Some root.
Proof.
  destruct limit as [|limit]; [discriminate|].
  rewrite get_descendant_packages_step.
  generalize (children_of d root). intros cs.
  assert (Hhd : forall acc res,
             foldM (fun result child_id =>
                      sub ← get_descendant_packages limit d child_id;
                      Ok (result ++ sub)) (root :: acc) cs = Ok res ->
             head res = Some root).
  { induction cs as [|c r IHr]; intros acc res.
    - simpl. intros [= <-]. reflexivity.
    - rewrite foldM_cons.
      destruct (get_descendant_packages limit d c) as [sub|e]; simpl;
        [|discriminate].
      apply (IHr (acc ++ sub)). }
  apply Hhd.
Qed.

(** A package that lies on a cycle has a child from which it is reached
    again. *)
Lemma cycle_step (d : GGMDatabase) (p : Z) :
  tc (child_of d) p p -> exists c, child_of d p c /\ descendant d c p.
Proof.
  intros H. inversion H as [x y Hpp Ex Ey|x c z Hpc Hcp Ex Ez]; subst.
  - exists p. split; [exact Hpp|apply rtc_refl].
  - exists c. split; [exact Hpc|apply tc_rtc, Hcp].
Qed.

(** Below a package from which a cycle is reached no limit is enough. *)
Lemma reachable_cycle_depth (limit : nat) (d : GGMDatabase) (root p : Z) :
  descendant d root p -> tc (child_of d) p p -> depth_le limit d root = false.
Proof.
  revert root. induction limit as [|limit IH]; intros root Hr Hp;
    [reflexivity|].
  assert (Hc : exists c, child_of d root c /\ descendant d c p).
  { apply rtc_inv in Hr. destruct Hr as [->|(c & Hc & Hcp)]; [|eauto].
    apply cycle_step, Hp. }
  destruct Hc as (c & Hc & Hcp). simpl.
  destruct (forallb (depth_le limit d) (children_of d root)) eqn:E;
    [|reflexivity].
  rewrite forallb_forall in E. rewrite <- (IH c Hcp Hp). symmetry.
  apply E, Hc.
Qed.

(** C2, as the code has it.  The expansion is recursive, one frame of
    the interpreter per level of the package tree, so it has a depth
    limit.  For every package relation, root and recursion limit: if the
    subtree below the root is shallower than the limit (hence free of
    cycles), the call returns a list that starts with the root and holds
    exactly the descendant closure of the root; otherwise it raises
    [RecursionError]; and when a package reached from the root lies on a
    cycle of the parent-child relation, it raises [RecursionError]
    whatever the limit. *)
Theorem descendants_of_bounded_tree (limit : nat) (d : GGMDatabase) (root : Z) :
  (depth_le limit d root = true ->
   exists ids,
     get_descendant_packages limit d root = Ok ids
     /\ head ids = Some root
     /\ forall q, In q ids <-> descendant d root q)
  /\ (depth_le limit d root = false ->
      get_descendant_packages limit d root = Raise RecursionError)
  /\ (forall p,
        descendant d root p -> tc (child_of d) p p ->
        get_descendant_packages limit d root = Raise RecursionError).
Proof.
  split; [|split].
  - intros H.
    destruct (descendants_of_bounded_tree_aux limit d root H)
      as (ids & Hids & Hq).
    exists ids. split; [exact Hids|]. split; [|exact Hq].
    apply (descendants_head limit d root ids Hids).
  - apply descendants_beyond_limit.
  - intros p Hr Hp. apply descendants_beyond_limit.
    apply (reachable_cycle_depth limit d root p Hr Hp).
Qed.

(** On the malformed hierarchy the recursion meets the limit, whatever
    the limit is: the call never returns a list. *)
Lemma cyclic_packages_never_return :
  ~ exists limit ids, get_descendant_packages limit cyclic_db 4 = Ok ids.
Proof.
  intros (limit & ids & H). revert ids H.
  induction limit as [|limit IH]; intros ids; [discriminate|].
  rewrite get_descendant_packages_step.
  replace (children_of cyclic_db 4) with [4%Z] by (vm_compute; reflexivity).
  rewrite foldM_cons.
  destruct (get_descendant_packages limit cyclic_db 4) as [sub|e] eqn:E;
    [|discriminate].
  intros _.
  exfalso. apply (IH sub). reflexivity.
Qed.

(** ** Slug collisions within a domain *)

Lemma suffixed_inj base m n : suffixed base m = suffixed base n -> m = n.
Proof.
  unfold suffixed. intros H. apply app_inv_head in H. apply app_inv_head in H.
  apply py_inj in H. apply (inj pretty) in H. exact H.
Qed.

Lemma dedup_slug_unfold fuel schemas base slug schema c :
  dedup_slug fuel schemas base slug schema c
  = if dict_mem slug schemas then
      match fuel with
      | O => None
      | S fuel' =>
          dedup_slug fuel' schemas base (suffixed base c)
            (dict_set (py "slug") (JStr (suffixed base c)) schema) (c + 1)%Z
      end
    else Some (slug, schema).
Proof. destruct fuel; reflexivity. Qed.

(** A loop that runs out of turns has found every slug it tried. *)
Lemma dedup_slug_none fuel schemas base slug schema c :
  dedup_slug fuel schemas base slug schema c = None ->
  dict_mem slug schemas = true
  /\ forall m, (c <= m < c + Z.of_nat fuel)%Z ->
       dict_mem (suffixed base m) schemas = true.
Proof.
  revert slug schema c. induction fuel as [|fuel IH]; intros slug schema c;
    rewrite dedup_slug_unfold; destruct (dict_mem slug schemas) eqn:E;
    try discriminate.
  - intros _. split; [reflexivity|]. intros m Hm. lia.
  - intros H. apply IH in H. destruct H as [Hc Hrest].
    split; [reflexivity|]. intros m Hm.
    destruct (Z.eq_dec m c) as [->|Hne]; [exact Hc|].
    apply Hrest. lia.
Qed.

(** A map cannot hold more distinct slugs than it has keys. *)
Lemma suffixes_not_all_present {V} (schemas : list (pystr * V)) base :
  ~ forall m, (2 <= m < 2 + Z.of_nat (S (List.length schemas)))%Z ->
      dict_mem (suffixed base m) schemas = true.
Proof.
  intros H.
  set (n := List.length schemas) in *.
  set (l := List.map (fun i => suffixed base (Z.of_nat i)) (List.seq 2 (S n))).
  assert (Hnd : List.NoDup l).
  { apply Finite.Injective_map_NoDup; [|apply List.seq_NoDup].
    intros i j Hij. apply suffixed_inj in Hij. lia. }
  assert (Hincl : List.incl l (dict_keys schemas)).
  { intros k Hk. apply List.in_map_iff in Hk. destruct Hk as (i & <- & Hi).
    apply List.in_seq in Hi. apply dict_mem_keys, H. lia. }
  pose proof (List.NoDup_incl_length Hnd Hincl) as Hlen.
  unfold l, dict_keys in Hlen.
  rewrite !List.length_map, List.length_seq in Hlen. fold n in Hlen. lia.
Qed.

(** With one turn more than the map has keys the loop returns. *)
Lemma dedup_slug_total schemas base schema :
  exists r,
    dedup_slug (S (List.length schemas)) schemas base base schema 2 = Some r.
Proof.
  destruct (dedup_slug _ schemas base base schema 2) as [r|] eqn:E; [eauto|].
  apply dedup_slug_none in E. destruct E as [_ E].
  destruct (suffixes_not_all_present schemas base E).
Qed.

(** What the loop returns: the slug itself when it is free, else the
    first free suffix from the counter on, written into the document. *)
Lemma dedup_slug_some fuel schemas base slug schema c k schema' :
  dedup_slug fuel schemas base slug schema c = Some (k, schema') ->
  dict_mem k schemas = false
  /\ ((dict_mem slug schemas = false /\ k = slug /\ schema' = schema)
      \/ (dict_mem slug schemas = true
          /\ exists n, (c <= n)%Z /\ k = suffixed base n
               /\ (forall m, (c <= m < n)%Z ->
                     dict_mem (suffixed base m) schemas = true)
               /\ schema' = dict_set (py "slug") (JStr k) schema)).
Proof.
  revert slug schema c. induction fuel as [|fuel IH]; intros slug schema c;
    rewrite dedup_slug_unfold; destruct (dict_mem slug schemas) eqn:E;
    try discriminate.
  - intros [= <- <-]. auto.
  - intros H. apply IH in H. destruct H as [Hk H]. split; [exact Hk|].
    right. split; [reflexivity|].
    destruct H as [(Hfree & -> & ->)|(Hc & n & Hn & -> & Hall & ->)].
    + exists c. split; [lia|]. split; [reflexivity|]. split; [|reflexivity].
      intros m Hm. lia.
    + exists n. split; [lia|]. split; [reflexivity|]. split.
      * intros m Hm. destruct (Z.eq_dec m c) as [->|Hne]; [exact Hc|].
        apply Hall. lia.
      * apply dict_set_set.
  - intros [= <- <-]. auto.
Qed.

(** One turn of the class loop: the document goes in under a key that
    was free, and the key is the base slug or its first free suffix. *)
Lemma domain_step_spec U self local_enums schemas slugs cls schema :
  _generate_schema U self cls local_enums = Ok schema ->
  exists nm k,
    obj_Name cls = Some nm
    /\ dict_get (py "slug") schema = Some (JStr (slugify U nm))
    /\ dict_get (py "title") schema = Some (JStr nm)
    /\ domain_step U self local_enums (schemas, slugs) cls
       = Ok (schemas ++ [(k, dict_set (py "slug") (JStr k) schema)],
             slugs ++ [k])
    /\ dict_mem k schemas = false
    /\ (dict_mem (slugify U nm) schemas = false -> k = slugify U nm)
    /\ (dict_mem (slugify U nm) schemas = true ->
        exists n, (2 <= n)%Z /\ k = suffixed (slugify U nm) n
          /\ forall m, (2 <= m < n)%Z ->
               dict_mem (suffixed (slugify U nm) m) schemas = true).
Proof.
  intros H. unfold domain_step. rewrite H, bind_Ok_l.
  rewrite (generate_schema_truthy _ _ _ _ _ H).
  apply generate_schema_inv in H.
  destruct H as (nm & aprops & required & description & Hnm & _ & Hs).
  assert (Hslug : dict_get (py "slug") schema = Some (JStr (slugify U nm)))
    by (rewrite Hs; reflexivity).
  assert (Htitle : dict_get (py "title") schema = Some (JStr nm))
    by (rewrite Hs; reflexivity).
  rewrite Hslug.
  destruct (dedup_slug_total schemas (slugify U nm) schema) as ([k schema'] & E).
  rewrite E. apply dedup_slug_some in E. destruct E as [Hk E].
  exists nm, k. rewrite (dict_set_fresh _ _ _ Hk).
  split; [exact Hnm|]. split; [reflexivity|]. split; [exact Htitle|].
  destruct E as [(Hfree & -> & ->)|(Hc & n & Hn & -> & Hall & ->)].
  - rewrite (dict_set_same _ _ _ Hslug).
    split; [reflexivity|]. split; [exact Hk|]. split; [reflexivity|].
    rewrite Hfree. discriminate.
  - split; [reflexivity|]. split; [exact Hk|]. split; [rewrite Hc; discriminate|].
    intros _. exists n. auto.
Qed.

Lemma NoDup_snoc {A} (l : list A) (k : A) :
  List.NoDup l -> ~ In k l -> List.NoDup (l ++ [k]).
Proof.
  induction 1 as [|a l Ha Hl IH]; simpl; intros Hk.
  - constructor; [tauto|constructor].
  - constructor.
    + rewrite List.in_app_iff. simpl. intros [H|[H|[]]]; [tauto|].
      apply Hk. left. congruence.
    + apply IH. tauto.
Qed.

Lemma domain_loop_inv U self local_enums classes schemas slugs schemas' slugs' :
  foldM (domain_step U self local_enums) (schemas, slugs) classes
  = Ok (schemas', slugs') ->
  exists added,
    schemas' = schemas ++ added
    /\ slugs' = slugs ++ dict_keys added
    /\ Forall2 (entry_of U) classes added
    /\ (List.NoDup (dict_keys schemas) -> List.NoDup (dict_keys schemas')).
Proof.
  revert schemas slugs. induction classes as [|cls r IH]; intros schemas slugs.
  - simpl. intros [= <- <-]. exists []. rewrite !List.app_nil_r.
    repeat split; [constructor|auto].
  - rewrite foldM_cons.
    destruct (domain_step U self local_enums (schemas, slugs) cls)
      as [st|e] eqn:E; [|discriminate].
    assert (Hs : exists schema, _generate_schema U self cls local_enums = Ok schema).
    { unfold domain_step in E.
      destruct (_generate_schema U self cls local_enums); [eauto|discriminate]. }
    destruct Hs as (schema & Hs).
    destruct (domain_step_spec U self local_enums schemas slugs cls schema Hs)
      as (nm & k & Hnm & Hslug & Htitle & Hstep & Hk & Hfree & Htaken).
    rewrite Hstep in E. injection E as <-.
    intros H. apply IH in H.
    destruct H as (added & -> & -> & Hall & Hnd).
    exists ((k, dict_set (py "slug") (JStr k) schema) :: added).
    rewrite <- !List.app_assoc. simpl.
    split; [reflexivity|]. split; [reflexivity|]. split.
    + constructor; [|exact Hall]. exists nm. simpl.
      split; [exact Hnm|]. split.
      * rewrite dict_get_set_ne by keys_differ. exact Htitle.
      * split; [apply dict_get_set_eq|].
        destruct (dict_mem (slugify U nm) schemas) eqn:Em.
        -- right. destruct (Htaken eq_refl) as (n & Hn & -> & _). eauto.
        -- left. apply Hfree. reflexivity.
    + intros Hnd0. rewrite <- List.app_assoc in Hnd. apply Hnd.
      unfold dict_keys. rewrite List.map_app. simpl.
      apply NoDup_snoc; [exact Hnd0|].
      intros Hin. apply dict_mem_keys in Hin. congruence.
Qed.

Lemma Forall2_In_r {A B} (R : A -> B -> Prop) l l' b :
  Forall2 R l l' -> In b l' -> exists a, In a l /\ R a b.
Proof.
  induction 1 as [|x y l l' Hxy _ IH]; simpl; [tauto|].
  intros [<-|Hb]; [eauto|].
  destruct (IH Hb) as (a & Ha & HR). eauto.
Qed.

Lemma Forall2_In_l {A B} (R : A -> B -> Prop) l l' a :
  Forall2 R l l' -> In a l -> exists b, In b l' /\ R a b.
Proof.
  induction 1 as [|x y l l' Hxy _ IH]; simpl; [tauto|].
  intros [<-|Ha]; [eauto|].
  destruct (IH Ha) as (b & Hb & HR). eauto.
Qed.

Lemma domain_schemas_inv U limit self pkg_id schemas slugs :
  domain_schemas U limit self pkg_id = Ok (schemas, slugs) ->
  exists ids classes,
    get_descendant_packages limit (db self) pkg_id = Ok ids
    /\ get_classes_in_packages U (db self) ids = Ok classes
    /\ slugs = dict_keys schemas
    /\ Forall2 (entry_of U) classes schemas
    /\ List.NoDup (dict_keys schemas).
Proof.
  unfold domain_schemas. intros H. apply bind_Ok in H.
  destruct H as (ids & Hids & H). apply bind_Ok in H.
  destruct H as (classes & Hcls & H). apply bind_Ok in H.
  destruct H as (enumerations & _ & H).
  exists ids, classes. split; [exact Hids|]. split; [exact Hcls|].
  apply domain_loop_inv in H. destruct H as (added & -> & -> & Hall & Hnd).
  simpl. split; [reflexivity|]. split; [exact Hall|].
  apply Hnd. constructor.
Qed.

(** The two results of [domain_schemas] are what [_generate_domain] puts
    under [components]. *)
Lemma generate_domain_components U limit self pkg_id info config :
  _generate_domain U limit self pkg_id info = Ok config ->
  exists schemas slugs register,
    domain_schemas U limit self pkg_id = Ok (schemas, slugs)
    /\ dict_get (py "components") config
       = Some (JDict [(py "schemas", json_of_schemas schemas);
                      (py "registers", JDict [(dom_slug info, JDict register)])])
    /\ dict_get (py "schemas") register = Some (JList (List.map JStr slugs)).
Proof.
  unfold _generate_domain. intros H. apply bind_Ok in H.
  destruct H as ([schemas slugs] & Hd & H). injection H as <-.
  exists schemas, slugs. eexists. split; [exact Hd|].
  split; reflexivity.
Qed.

(** C4. Within one domain, a newly built schema whose base slug is
    already a key of the schemas map is inserted under the first free
    suffixed slug, base-2, base-3, ..., and its own slug field is
    rewritten to that key before insertion; for every document of the
    schemas map the slug field equals the key, the keys are the
    register's slug list, and no key occurs twice. *)
Theorem slug_collision_resolution (U : Unicode) (limit : nat)
    (self : OpenRegisterGenerator) (pkg_id : Z)
    (schemas : list (pystr * pydict)) (slugs : list pystr) :
  domain_schemas U limit self pkg_id = Ok (schemas, slugs) ->
  (forall k doc, In (k, doc) schemas -> dict_get (py "slug") doc = Some (JStr k))
  /\ slugs = dict_keys schemas
  /\ List.NoDup slugs
  /\ (forall local_enums schemas0 slugs0 cls schema,
        _generate_schema U self cls local_enums = Ok schema ->
        exists base k,
          dict_get (py "slug") schema = Some (JStr base)
          /\ domain_step U self local_enums (schemas0, slugs0) cls
             = Ok (schemas0 ++ [(k, dict_set (py "slug") (JStr k) schema)],
                   slugs0 ++ [k])
          /\ dict_mem k schemas0 = false
          /\ (dict_mem base schemas0 = false -> k = base)
          /\ (dict_mem base schemas0 = true ->
              exists n, (2 <= n)%Z /\ k = suffixed base n
                /\ forall m, (2 <= m < n)%Z ->
                     dict_mem (suffixed base m) schemas0 = true)).
Proof.
  intros H. apply domain_schemas_inv in H.
  destruct H as (ids & classes & _ & _ & -> & Hall & Hnd).
  split; [|split; [reflexivity|split; [exact Hnd|]]].
  - intros k doc Hin.
    destruct (Forall2_In_r _ _ _ _ Hall Hin) as (cls & _ & nm & _ & _ & Hs & _).
    exact Hs.
  - intros local_enums schemas0 slugs0 cls schema Hs.
    destruct (domain_step_spec U self local_enums schemas0 slugs0 cls schema Hs)
      as (nm & k & _ & Hslug & _ & Hstep & Hk & Hfree & Htaken).
    exists (slugify U nm), k. auto.
Qed.

(** C1, as the code has it.  The schema builder returns a document for
    every entity it is given, so the guard of the class loop never
    excludes one: the documents of a domain's schemas map correspond one
    to one, in order, to the domain's entities (the rows the classes
    query returned), and the register's slug list holds their keys.  An
    entity whose derived slug is empty is emitted as well, under the
    empty key or, on collision, a suffixed one. *)
Theorem every_entity_emitted (U : Unicode) (limit : nat)
    (self : OpenRegisterGenerator) (pkg_id : Z) (ids : list Z)
    (schemas : list (pystr * pydict)) (slugs : list pystr) :
  get_descendant_packages limit (db self) pkg_id = Ok ids ->
  domain_schemas U limit self pkg_id = Ok (schemas, slugs) ->
  slugs = dict_keys schemas
  /\ exists classes,
       get_classes_in_packages U (db self) ids = Ok classes
       /\ Forall2 (entry_of U) classes schemas
       /\ (forall cls nm,
             In cls classes ->
             obj_Name cls = Some nm ->
             slugify U nm = [] ->
             exists k doc,
               In (k, doc) schemas /\ In k slugs
               /\ dict_get (py "title") doc = Some (JStr nm)
               /\ (k = [] \/ exists n, (2 <= n)%Z /\ k = suffixed [] n)).
Proof.
  intros Hids H. apply domain_schemas_inv in H.
  destruct H as (ids' & classes & Hids' & Hcls & -> & Hall & _).
  rewrite Hids in Hids'. injection Hids' as <-.
  split; [reflexivity|]. exists classes. split; [exact Hcls|].
  split; [exact Hall|].
  intros cls nm Hin Hnm Hempty.
  destruct (Forall2_In_l _ _ _ _ Hall Hin)
    as ([k doc] & Hentry & nm' & Hnm' & Htitle & _ & Hk).
  rewrite Hnm in Hnm'. injection Hnm' as <-. simpl in *.
  exists k, doc. split; [exact Hentry|]. split.
  - unfold dict_keys. apply (List.in_map fst) in Hentry. exact Hentry.
  - split; [exact Htitle|]. rewrite Hempty in Hk. exact Hk.
Qed.

(** A class named "!!!" has the empty slug, and its document is in the
    schemas map and the slug list of its domain all the same. *)
Lemma nameless_entity_is_emitted :
  slugify ascii_only (py "!!!") = []
  /\ exists doc,
       domain_schemas ascii_only 1000 nameless_gen 4 = Ok ([([], doc)], [[]])
       /\ dict_get (py "title") doc = Some (JStr (py "!!!")).
Proof.
  split; [vm_compute; reflexivity|].
  eexists. split; vm_compute; reflexivity.
Qed.

(** ** The small model, run *)

Lemma every_entity_emitted_witness :
  get_descendant_packages 1000 (db nameless_gen) 4 = Ok [4%Z]
  /\ domain_schemas ascii_only 1000 nameless_gen 4
     = Ok (fst nameless_domain, snd nameless_domain)
  /\ snd nameless_domain = dict_keys (fst nameless_domain).
Proof.
  assert (H1 : get_descendant_packages 1000 (db nameless_gen) 4 = Ok [4%Z])
    by (vm_compute; reflexivity).
  assert (H2 : domain_schemas ascii_only 1000 nameless_gen 4
               = Ok (fst nameless_domain, snd nameless_domain))
    by (vm_compute; reflexivity).
  split; [exact H1|]. split; [exact H2|].
  exact (proj1 (every_entity_emitted ascii_only 1000 nameless_gen 4 [4%Z]
                  (fst nameless_domain) (snd nameless_domain) H1 H2)).
Defined.

Lemma descendants_of_bounded_tree_witness :
  depth_le 1000 example_db 4 = true
  /\ (exists ids,
        get_descendant_packages 1000 example_db 4 = Ok ids
        /\ head ids = Some 4%Z
        /\ forall q, In q ids <-> descendant example_db 4 q)
  /\ depth_le 1 example_db 4 = false
  /\ get_descendant_packages 1 example_db 4 = Raise RecursionError
  /\ tc (child_of cyclic_db) 4%Z 4%Z
  /\ get_descendant_packages 1000 cyclic_db 4 = Raise RecursionError.
Proof.
  assert (H1 : depth_le 1000 example_db 4 = true) by (vm_compute; reflexivity).
  assert (H2 : depth_le 1 example_db 4 = false) by (vm_compute; reflexivity).
  assert (H3 : descendant cyclic_db 4%Z 4%Z) by apply rtc_refl.
  assert (H4 : tc (child_of cyclic_db) 4%Z 4%Z)
    by (apply tc_once; vm_compute; left; reflexivity).
  split; [exact H1|].
  split; [exact (proj1 (descendants_of_bounded_tree 1000 example_db 4) H1)|].
  split; [exact H2|].
  split; [exact (proj1 (proj2 (descendants_of_bounded_tree 1 example_db 4)) H2)|].
  split; [exact H4|].
  exact (proj2 (proj2 (descendants_of_bounded_tree 1000 cyclic_db 4)) 4%Z H3 H4).
Defined.

Lemma map_association_cardinality_witness :
  object_slug_map example_gen !! other_end_id heeft_adressen 10 = Some (py "adres")
  /\ exists prop_name,
       _map_association ascii_only example_gen heeft_adressen 10
       = Some (prop_name,
               if spec_is_multiple (py_str (other_end_card heeft_adressen 10))
               then array_ref prop_name (py "adres")
               else object_ref prop_name (py "adres")).
Proof.
  assert (H : object_slug_map example_gen !! other_end_id heeft_adressen 10
              = Some (py "adres")) by (vm_compute; reflexivity).
  split; [exact H|].
  exact (map_association_cardinality ascii_only example_gen heeft_adressen 10
           (py "adres") H).
Defined.

Lemma slug_collision_resolution_witness :
  domain_schemas ascii_only 1000 example_gen 4
  = Ok (fst example_domain, snd example_domain)
  /\ dict_keys (fst example_domain) = [py "persoon"; py "adres"; py "adres-2"]
  /\ forall k doc,
       In (k, doc) (fst example_domain) ->
       dict_get (py "slug") doc = Some (JStr k).
Proof.
  assert (H : domain_schemas ascii_only 1000 example_gen 4
              = Ok (fst example_domain, snd example_domain))
    by (vm_compute; reflexivity).
  split; [exact H|]. split; [vm_compute; reflexivity|].
  exact (proj1 (slug_collision_resolution ascii_only 1000 example_gen 4
                  (fst example_domain) (snd example_domain) H)).
Defined.

Lemma unresolved_association_dropped_witness :
  object_slug_map example_gen !! other_end_id heeft_voertuigen 10 = None
  /\ _map_association ascii_only example_gen heeft_voertuigen 10 = None.
Proof.
  assert (H : object_slug_map example_gen !! other_end_id heeft_voertuigen 10
              = None) by (vm_compute; reflexivity).
  split; [exact H|].
  exact (proj1 (unresolved_association_dropped ascii_only example_gen
                  heeft_voertuigen 10 H)).
Defined.

Lemma association_never_overwrites_witness :
  _generate_schema ascii_only example_gen persoon ∅ = Ok persoon_schema
  /\ attribute_properties ascii_only example_gen persoon ∅
     = Ok (fst persoon_attributes, snd persoon_attributes)
  /\ exists properties,
       dict_get (py "properties") persoon_schema = Some (JDict properties)
       /\ (forall k v, dict_get k (fst persoon_attributes) = Some v ->
             dict_get k properties = Some v)
       /\ (exists added, properties = fst persoon_attributes ++ added)
       /\ (forall props assoc prop_name prop_def,
             _map_association ascii_only example_gen assoc (Object_ID persoon)
             = Some (prop_name, prop_def) ->
             dict_mem prop_name props = true ->
             association_step ascii_only example_gen (Object_ID persoon) props assoc
             = props).
Proof.
  assert (H1 : _generate_schema ascii_only example_gen persoon ∅
               = Ok persoon_schema) by (vm_compute; reflexivity).
  assert (H2 : attribute_properties ascii_only example_gen persoon ∅
               = Ok (fst persoon_attributes, snd persoon_attributes))
    by (vm_compute; reflexivity).
  split; [exact H1|]. split; [exact H2|].
  exact (association_never_overwrites ascii_only example_gen persoon ∅
           persoon_schema (fst persoon_attributes) (snd persoon_attributes)
           H1 H2).
Defined.

Lemma required_subset_properties_witness :
  _generate_schema ascii_only example_gen persoon ∅ = Ok persoon_schema
  /\ exists required properties,
       dict_get (py "required") persoon_schema
       = Some (JList (List.map JStr required))
       /\ dict_get (py "properties") persoon_schema = Some (JDict properties)
       /\ (forall n, In n required -> In n (dict_keys properties))
       /\ required
          = List.map (fun a => _sanitize_property_name ascii_only (attr_Name a))
              (List.filter lower_bound_required
                 (get_attributes (db example_gen) (Object_ID persoon))).
Proof.
  assert (H : _generate_schema ascii_only example_gen persoon ∅
              = Ok persoon_schema) by (vm_compute; reflexivity).
  split; [exact H|].
  exact (required_subset_properties ascii_only example_gen persoon ∅
           persoon_schema H).
Defined.

Lemma enum_resolution_is_global_witness :
  obj_Package_ID ja_nee = 99%Z
  /\ exists prop,
       _map_attribute ascii_only example_gen indicatie ∅ = Ok prop
       /\ dict_get (py "type") prop = Some (JStr (py "string"))
       /\ dict_get (py "title") prop = Some (json_of_text (attr_Name indicatie))
       /\ dict_get (py "enum") prop
          = let literals :=
              List.map attr_Name
                (select_attributes example_snapshot (Object_ID ja_nee)) in
            if is_nil literals then None
            else Some (JList (List.map json_of_text literals)).
Proof.
  split; [reflexivity|].
  assert (H1 : db example_gen = GGMDatabase_init example_snapshot)
    by (vm_compute; reflexivity).
  assert (H2 : In ja_nee (t_object example_snapshot))
    by (do 3 right; left; reflexivity).
  assert (H3 : text_is (Object_Type ja_nee) (py "Enumeration") = true)
    by (vm_compute; reflexivity).
  assert (H4 : set_and_nonzero (Classifier indicatie) = true)
    by (vm_compute; reflexivity).
  assert (H5 : py_int ascii_only (Classifier indicatie) = Ok (Object_ID ja_nee))
    by (vm_compute; reflexivity).
  exact (proj2 (enum_resolution_is_global ascii_only example_snapshot
                  example_gen indicatie ja_nee ∅ H1 H2 H3 H4 H5)).
Defined.

(** What the run of the small model gives. *)

Example example_domain_slugs :
  snd example_domain = [py "persoon"; py "adres"; py "adres-2"].
Proof. vm_compute. reflexivity. Qed.

Example example_persoon_required :
  dict_get (py "required") persoon_schema = Some (JList [JStr (py "leeftijd")]).
Proof. vm_compute. reflexivity. Qed.

Example example_persoon_property_names :
  (match dict_get (py "properties") persoon_schema with
   | Some (JDict properties) => dict_keys properties
   | _ => []
   end)
  = [py "leeftijd"; py "adressen"; py "indicatieOverleden"; py "hoofdadres"].
Proof. vm_compute. reflexivity. Qed.

(** The attribute [adressen] keeps its value although an association
    with the role [adressen] comes after it. *)
Example example_attribute_wins :
  (match dict_get (py "properties") persoon_schema with
   | Some (JDict properties) => dict_get (py "adressen") properties
   | _ => None
   end)
  = Some (JDict [(py "type", JStr (py "string")); (py "maxLength", JInt 40);
                 (py "title", JStr (py "adressen"))]).
Proof. vm_compute. reflexivity. Qed.

Example example_enum_property :
  _map_attribute ascii_only example_gen indicatie ∅
  = Ok [(py "type", JStr (py "string"));
        (py "title", JStr (py "indicatie overleden"));
        (py "enum", JList [JStr (py "Ja"); JStr (py "Nee")])].
Proof. vm_compute. reflexivity. Qed.

(** A chain of packages needs a recursion limit above its depth. *)
Example example_depth_limit :
  get_descendant_packages 1 example_db 4 = Raise RecursionError
  /\ get_descendant_packages 2 example_db 4 = Ok [4%Z; 5%Z].
Proof. split; vm_compute; reflexivity. Qed.

(** The document of the nameless class reaches the configuration: the
    register of its domain lists the empty slug. *)
Example nameless_register :
  exists config components registers register,
    _generate_domain ascii_only 1000 nameless_gen 4 bestuur = Ok config
    /\ dict_get (py "components") config = Some (JDict components)
    /\ dict_get (py "registers") components = Some (JDict registers)
    /\ dict_get (dom_slug bestuur) registers = Some (JDict register)
    /\ dict_get (py "schemas") register = Some (JList [JStr []]).
Proof. do 4 eexists. repeat split; vm_compute; reflexivity. Qed.

(** * Further properties of the code *)

(** ** The slug codec, continued *)

Section SlugMore.
Context (U : Unicode).

Lemma alnum_slug_char c : is_alnum c = true -> slug_char c = true.
Proof. unfold is_alnum, slug_char. intros ->. reflexivity. Qed.

Lemma alnum_not_hyphen c : is_alnum c = true -> is_hyphen c = false.
Proof.
  unfold is_alnum, is_az, is_09, is_hyphen, hyphen. intros H.
  apply N.eqb_neq.
  apply orb_prop in H. destruct H as [H|H]; apply andb_prop in H;
    destruct H as [H1 H2]; apply N.leb_le in H1, H2; lia.
Qed.

Lemma sub_runs_In p b s c :
  In c s -> p c = false -> In c (sub_runs p b s).
Proof.
  revert b. induction s as [|d r IH]; intros b; simpl; [tauto|].
  intros [->|Hin] Hc.
  - rewrite Hc. left. reflexivity.
  - destruct (p d); [destruct b|]; simpl; auto.
Qed.

Lemma drop_while_In p s c : In c s -> p c = false -> In c (drop_while p s).
Proof.
  induction s as [|d r IH]; simpl; [tauto|].
  intros [->|Hin] Hc.
  - rewrite Hc. left. reflexivity.
  - destruct (p d); [auto|right; exact Hin].
Qed.

Lemma rstrip_with_In p s c : In c s -> p c = false -> In c (rstrip_with p s).
Proof.
  induction s as [|d r IH]; simpl; [tauto|].
  intros [->|Hin] Hc.
  - rewrite Hc. left. reflexivity.
  - specialize (IH Hin Hc).
    destruct (rstrip_with p r); [destruct IH|].
    rewrite andb_false_r. right. exact IH.
Qed.

Lemma sub_runs_all p b s :
  Forall (fun c => p c = true \/ is_hyphen c = true) s ->
  Forall (fun c => is_hyphen c = true) (sub_runs p b s).
Proof.
  intros H. revert b. induction H as [|c r Hc _ IH]; intros b; simpl;
    [constructor|].
  destruct (p c) eqn:E.
  - destruct b; [apply IH|constructor; [reflexivity|apply IH]].
  - destruct Hc as [Hc|Hc]; [congruence|]. constructor; [exact Hc|apply IH].
Qed.

Lemma drop_while_all p s : Forall (fun c => p c = true) s -> drop_while p s = [].
Proof. induction 1 as [|c r Hc _ IH]; simpl; [|rewrite Hc]; auto. Qed.

(** X1. The slug of a name is empty exactly when its lowercased form
    has no letter [a-z] and no digit. *)
Theorem slugify_empty_iff (x : pystr) :
  slugify U x = [] <-> Forall (fun c => is_alnum c = false) (lower U x).
Proof.
  unfold slugify, strip_with. split.
  - intros E. apply List.Forall_forall. intros c Hin.
    destruct (is_alnum c) eqn:Hc; [|reflexivity]. exfalso.
    assert (Hs : isspace U c = false)
      by apply slug_char_not_space, alnum_slug_char, Hc.
    assert (Hh : is_hyphen c = false) by apply alnum_not_hyphen, Hc.
    assert (Hk : In c (List.filter (slug_keep U) (lower U x))).
    { apply List.filter_In. split; [exact Hin|].
      apply slug_char_keep, alnum_slug_char, Hc. }
    apply (sub_runs_In (isspace U) false) in Hk; [|exact Hs].
    apply (sub_runs_In is_hyphen false) in Hk; [|exact Hh].
    apply (drop_while_In is_hyphen) in Hk; [|exact Hh].
    apply (rstrip_with_In is_hyphen) in Hk; [|exact Hh].
    rewrite E in Hk. destruct Hk.
  - intros H.
    assert (H1 : Forall (fun c => isspace U c = true \/ is_hyphen c = true)
                   (List.filter (slug_keep U) (lower U x))).
    { apply List.Forall_forall. intros c Hc. apply List.filter_In in Hc.
      destruct Hc as [Hin Hk]. rewrite List.Forall_forall in H.
      specialize (H c Hin). unfold slug_keep in Hk. unfold is_alnum in H.
      apply orb_false_iff in H. destruct H as [Ha Hd].
      rewrite Ha, Hd in Hk. simpl in Hk.
      apply orb_prop in Hk. exact Hk. }
    apply (sub_runs_all (isspace U) false) in H1.
    assert (H2 : Forall (fun c => is_hyphen c = true)
                   (sub_runs is_hyphen false
                      (sub_runs (isspace U) false
                         (List.filter (slug_keep U) (lower U x))))).
    { apply sub_runs_all. eapply List.Forall_impl; [|exact H1]. auto. }
    rewrite (drop_while_all _ _ H2). reflexivity.
Qed.

Lemma ascii_lower_upper c : ascii_lower (ascii_upper c) = ascii_lower c.
Proof.
  unfold ascii_lower, ascii_upper, is_AZ, is_az.
  destruct ((97 <=? c) && (c <=? 122)) eqn:E.
  - apply andb_prop in E. destruct E as [E1 E2]. apply N.leb_le in E1, E2.
    replace ((65 <=? c - 32) && (c - 32 <=? 90)) with true
      by (symmetry; apply andb_true_iff; rewrite !N.leb_le; lia).
    replace ((65 <=? c) && (c <=? 90)) with false
      by (symmetry; apply andb_false_iff; rewrite !N.leb_gt; lia).
    lia.
  - reflexivity.
Qed.

Lemma ascii_lower_idem c : ascii_lower (ascii_lower c) = ascii_lower c.
Proof.
  unfold ascii_lower, is_AZ.
  destruct ((65 <=? c) && (c <=? 90)) eqn:E; [|rewrite E; reflexivity].
  apply andb_prop in E. destruct E as [E1 E2]. apply N.leb_le in E1, E2.
  replace ((65 <=? c + 32) && (c + 32 <=? 90)) with false
    by (symmetry; apply andb_false_iff; rewrite !N.leb_gt; lia).
  reflexivity.
Qed.

Lemma ascii_upper_ascii c : is_ascii c = true -> is_ascii (ascii_upper c) = true.
Proof.
  unfold is_ascii, ascii_upper. rewrite !N.ltb_lt.
  destruct (is_az c); lia.
Qed.

Lemma ascii_lower_ascii c : is_ascii c = true -> is_ascii (ascii_lower c) = true.
Proof.
  unfold is_ascii, ascii_lower, is_AZ. rewrite !N.ltb_lt.
  destruct ((65 <=? c) && (c <=? 90)) eqn:E; [|lia].
  apply andb_prop in E. destruct E as [E1 E2]. apply N.leb_le in E1, E2. lia.
Qed.

Lemma forallb_map_ascii (f : N -> N) s :
  (forall c, is_ascii c = true -> is_ascii (f c) = true) ->
  forallb is_ascii s = true -> forallb is_ascii (List.map f s) = true.
Proof.
  intros Hf. induction s as [|c r IH]; simpl; [reflexivity|].
  rewrite !andb_true_iff. intros [Hc Hr]. auto.
Qed.

(** X2. On ASCII names the slug does not depend on the case of the
    letters: the upper-cased and the lower-cased name have the slug of
    the name itself. *)
Theorem slugify_ignores_case (s : pystr) :
  forallb is_ascii s = true ->
  slugify U (upper U s) = slugify U s /\ slugify U (lower U s) = slugify U s.
Proof.
  intros H. unfold slugify.
  assert (Hup : lower U (upper U s) = lower U s).
  { unfold upper. rewrite H. unfold lower.
    rewrite (forallb_map_ascii _ _ ascii_upper_ascii H), H.
    rewrite List.map_map. apply List.map_ext. apply ascii_lower_upper. }
  assert (Hlow : lower U (lower U s) = lower U s).
  { unfold lower. rewrite H.
    rewrite (forallb_map_ascii _ _ ascii_lower_ascii H).
    rewrite List.map_map. apply List.map_ext. apply ascii_lower_idem. }
  rewrite Hup, Hlow. split; reflexivity.
Qed.

End SlugMore.

Section CamelAndNames.
Context (U : Unicode).

Lemma hyphenate_no_capitals s :
  Forall (fun c => is_AZ c = false) s -> hyphenate_capitals s = s.
Proof.
  unfold hyphenate_capitals.
  induction 1 as [|c r Hc _ IH]; simpl; [reflexivity|].
  rewrite Hc. simpl. f_equal. exact IH.
Qed.

Lemma strip_with_fixes_shaped s : slug_shaped s -> strip_with is_hyphen s = s.
Proof.
  intros [_ _ Hhd Hl]. unfold strip_with.
  rewrite (drop_while_id _ _ Hhd). apply rstrip_with_id, Hl.
Qed.

(** X3. [camel_to_slug] gives a slug (lowercase letters, digits and
    single inner hyphens only) and is idempotent; on a slug it is the
    identity. *)
Theorem camel_to_slug_idempotent (x : pystr) :
  slug_shaped (camel_to_slug U x)
  /\ camel_to_slug U (camel_to_slug U x) = camel_to_slug U x
  /\ (forall s, slug_shaped s -> camel_to_slug U s = s).
Proof.
  assert (Hfix : forall s, slug_shaped s -> camel_to_slug U s = s).
  { intros s Hs. unfold camel_to_slug.
    rewrite hyphenate_no_capitals.
    - rewrite (strip_with_fixes_shaped _ Hs). apply slugify_fixes_shaped, Hs.
    - eapply List.Forall_impl; [|apply (shaped_chars _ Hs)].
      apply slug_char_not_upper. }
  assert (Hs : slug_shaped (camel_to_slug U x)) by apply slugify_shaped.
  split; [exact Hs|]. split; [apply Hfix, Hs|exact Hfix].
Qed.

(** *** Property names *)

Lemma ident_char_ascii c : ident_char c = true -> is_ascii c = true.
Proof.
  unfold ident_char, is_az, is_AZ, is_09, is_ascii. intros H.
  apply N.ltb_lt.
  repeat (apply orb_prop in H; destruct H as [H|H]);
    try (apply andb_prop in H; destruct H as [H1 H2];
         apply N.leb_le in H1, H2; lia).
  apply N.eqb_eq in H. lia.
Qed.

Lemma ident_char_not_space c : ident_char c = true -> isspace U c = false.
Proof.
  intros H. unfold isspace. rewrite (ident_char_ascii _ H).
  revert H. unfold ident_char, is_az, is_AZ, is_09, ascii_isspace.
  intros H. apply orb_false_iff. rewrite !andb_false_iff, !N.leb_gt.
  repeat (apply orb_prop in H; destruct H as [H|H]);
    try (apply andb_prop in H; destruct H as [H1 H2];
         apply N.leb_le in H1, H2; lia).
  apply N.eqb_eq in H. lia.
Qed.

Lemma ident_char_keep c : ident_char c = true -> sanitize_keep U c = true.
Proof.
  unfold ident_char, sanitize_keep. intros H.
  repeat (apply orb_prop in H; destruct H as [H|H]); rewrite H;
    rewrite ?orb_true_r; reflexivity.
Qed.

Lemma keep_not_space_ident c :
  sanitize_keep U c = true -> isspace U c = false -> ident_char c = true.
Proof.
  unfold sanitize_keep, ident_char. intros H Hs.
  rewrite Hs, orb_false_r in H. exact H.
Qed.

Lemma ident_lower c : ident_char c = true -> ident_char (ascii_lower c) = true.
Proof.
  unfold ascii_lower. destruct (is_AZ c) eqn:E; [|auto]. intros _.
  unfold is_AZ in E. apply andb_prop in E. destruct E as [E1 E2].
  apply N.leb_le in E1, E2. unfold ident_char, is_az.
  replace ((97 <=? c + 32) && (c + 32 <=? 122)) with true
    by (symmetry; apply andb_true_iff; rewrite !N.leb_le; lia).
  reflexivity.
Qed.

Lemma ident_upper c : ident_char c = true -> ident_char (ascii_upper c) = true.
Proof.
  unfold ascii_upper. destruct (is_az c) eqn:E; [|auto]. intros _.
  unfold is_az in E. apply andb_prop in E. destruct E as [E1 E2].
  apply N.leb_le in E1, E2. unfold ident_char, is_AZ.
  replace ((65 <=? c - 32) && (c - 32 <=? 90)) with true
    by (symmetry; apply andb_true_iff; rewrite !N.leb_le; lia).
  rewrite orb_true_r. reflexivity.
Qed.

Lemma lower_not_upper c : is_AZ (ascii_lower c) = false.
Proof.
  unfold ascii_lower. destruct (is_AZ c) eqn:E; [|exact E].
  unfold is_AZ in *. apply andb_prop in E. destruct E as [E1 E2].
  apply N.leb_le in E1, E2. apply andb_false_iff. rewrite !N.leb_gt. lia.
Qed.

(** The words of [split]: none is empty, none holds white space. *)
Lemma split_ws_parts (Q : N -> Prop) cur s :
  (forall c, In c s -> isspace U c = false -> Q c) ->
  Forall Q cur ->
  Forall (fun part => part <> [] /\ Forall Q part) (split_ws U cur s).
Proof.
  revert cur. induction s as [|c r IH]; intros cur Hs Hcur; simpl.
  - destruct cur; simpl; [constructor|].
    constructor; [|constructor]. split; [discriminate|exact Hcur].
  - assert (Hr : forall c, In c r -> isspace U c = false -> Q c)
      by (intros x Hx; apply Hs; right; exact Hx).
    destruct (isspace U c) eqn:E.
    + destruct cur; simpl; [apply IH; [exact Hr|constructor]|].
      constructor; [split; [discriminate|exact Hcur]|].
      apply IH; [exact Hr|constructor].
    + apply IH; [exact Hr|]. apply List.Forall_app. split; [exact Hcur|].
      constructor; [|constructor]. apply Hs; [left; reflexivity|exact E].
Qed.

Lemma split_ws_no_space cur s :
  Forall (fun c => isspace U c = false) s ->
  cur ++ s <> [] -> split_ws U cur s = [cur ++ s].
Proof.
  intros H. revert cur. induction H as [|c r Hc _ IH]; intros cur Hne; simpl.
  - rewrite List.app_nil_r in *. destruct cur; [congruence|reflexivity].
  - rewrite Hc. rewrite IH; rewrite <- List.app_assoc; simpl; auto.
Qed.

Lemma lower_first part :
  Forall (fun c => ident_char c = true) part ->
  lower U (take 1 part) ++ drop 1 part
  = match part with [] => [] | c :: r => ascii_lower c :: r end.
Proof.
  destruct part as [|c r]; [reflexivity|]. intros H.
  apply List.Forall_inv in H. simpl. unfold lower. simpl.
  rewrite (ident_char_ascii _ H). reflexivity.
Qed.

Lemma upper_first part :
  Forall (fun c => ident_char c = true) part ->
  upper U (take 1 part) ++ drop 1 part
  = match part with [] => [] | c :: r => ascii_upper c :: r end.
Proof.
  destruct part as [|c r]; [reflexivity|]. intros H.
  apply List.Forall_inv in H. simpl. unfold upper. simpl.
  rewrite (ident_char_ascii _ H). reflexivity.
Qed.

Lemma camel_tail_ident parts acc :
  Forall (fun part => part <> [] /\ Forall (fun c => ident_char c = true) part)
         parts ->
  Forall (fun c => ident_char c = true) acc ->
  Forall (fun c => ident_char c = true)
    (fold_left (fun result part => result ++ upper U (take 1 part) ++ drop 1 part)
               parts acc)
  /\ head (fold_left
             (fun result part => result ++ upper U (take 1 part) ++ drop 1 part)
             parts acc)
     = match acc with [] => head (fold_left
             (fun result part => result ++ upper U (take 1 part) ++ drop 1 part)
             parts acc) | c :: _ => Some c end.
Proof.
  intros H. revert acc. induction H as [|p r [Hne Hp] _ IH]; intros acc Hacc.
  - simpl. split; [exact Hacc|]. destruct acc; reflexivity.
  - simpl. rewrite (upper_first _ Hp).
    assert (Hacc' : Forall (fun c => ident_char c = true)
                      (acc ++ match p with [] => [] | c :: r0 => ascii_upper c :: r0 end)).
    { apply List.Forall_app. split; [exact Hacc|].
      destruct p as [|c p']; [constructor|].
      constructor; [apply ident_upper, (List.Forall_inv Hp)|].
      apply (List.Forall_inv_tail Hp). }
    destruct (IH _ Hacc') as [IH1 IH2]. split; [exact IH1|].
    destruct acc as [|a acc']; [reflexivity|]. exact IH2.
Qed.

(** X4. A sanitized property name holds only letters, digits and
    underscores, never starts with a capital letter, and sanitizing it
    again changes nothing. *)
Theorem sanitize_property_name_idempotent (name : option pystr) :
  Forall (fun c => ident_char c = true) (_sanitize_property_name U name)
  /\ (forall c, head (_sanitize_property_name U name) = Some c -> is_AZ c = false)
  /\ _sanitize_property_name U (Some (_sanitize_property_name U name))
     = _sanitize_property_name U name.
Proof.
  assert (Hshape : forall name,
    Forall (fun c => ident_char c = true) (_sanitize_property_name U name)
    /\ (forall c, head (_sanitize_property_name U name) = Some c ->
          is_AZ c = false)).
  { clear name. intros name. unfold _sanitize_property_name.
    destruct (is_nil (text_or_empty name)); [split; [constructor|discriminate]|].
    pose proof (split_ws_parts (fun c => ident_char c = true) []
                  (List.filter (sanitize_keep U) (strip U (text_or_empty name))))
      as Hparts.
    fold (split U (List.filter (sanitize_keep U) (strip U (text_or_empty name))))
      in Hparts.
    destruct (split U _) as [|p0 rest]; [split; [constructor|discriminate]|].
    assert (Hall : Forall (fun part => part <> [] /\
                     Forall (fun c => ident_char c = true) part) (p0 :: rest)).
    { apply Hparts; [|constructor]. intros c Hc Hs.
      apply List.filter_In in Hc. apply keep_not_space_ident; [apply Hc|exact Hs]. }
    apply List.Forall_cons_iff in Hall. destruct Hall as [[Hne Hp0] Hrest].
    rewrite (lower_first _ Hp0).
    destruct p0 as [|c p0']; [congruence|].
    assert (Hacc : Forall (fun c => ident_char c = true) (ascii_lower c :: p0')).
    { constructor; [apply ident_lower, (List.Forall_inv Hp0)|].
      apply (List.Forall_inv_tail Hp0). }
    destruct (camel_tail_ident rest _ Hrest Hacc) as [H1 H2].
    split; [exact H1|]. rewrite H2. intros c' [= <-]. apply lower_not_upper. }
  destruct (Hshape name) as [Hc Hhd]. split; [exact Hc|]. split; [exact Hhd|].
  set (r := _sanitize_property_name U name) in *.
  unfold _sanitize_property_name at 1. simpl text_or_empty.
  destruct r as [|c r'] eqn:Er; [reflexivity|]. simpl is_nil. cbv iota.
  assert (Hns : Forall (fun c => isspace U c = false) (c :: r')).
  { eapply List.Forall_impl; [|exact Hc]. apply ident_char_not_space. }
  assert (Hstrip : strip U (c :: r') = c :: r').
  { unfold strip, strip_with. rewrite drop_while_id.
    - apply rstrip_with_id. intros x Hx. apply last_Some_elem_of in Hx.
      apply list_elem_of_In in Hx. rewrite List.Forall_forall in Hns. auto.
    - intros x [= <-]. apply (List.Forall_inv Hns). }
  rewrite Hstrip.
  assert (Hf : List.filter (sanitize_keep U) (c :: r') = c :: r').
  { clear -Hc. induction Hc as [|x l Hx _ IH]; simpl; [reflexivity|].
    rewrite (ident_char_keep _ Hx), IH. reflexivity. }
  rewrite Hf. unfold split. rewrite (split_ws_no_space [] _ Hns) by discriminate.
  change (lower U (take 1 (c :: r')) ++ drop 1 (c :: r') = c :: r').
  rewrite (lower_first _ Hc). f_equal.
  unfold ascii_lower. rewrite (Hhd c eq_refl). reflexivity.
Qed.

End CamelAndNames.

(** ** The type mapper, continued *)

Section TypeMapperMore.
Context (U : Unicode).

Ltac in_list := vm_compute; repeat (first [left; reflexivity | right]).

(** X5. Whatever the token, the type mapper either gives one of three
    shapes (a bare kind among string, integer, number and boolean; a
    string with one of the eight formats; a string with a maximal
    length) or raises [ValueError]; and it raises only on a token of
    the AN or varchar pattern whose run of digits [int()] refuses. *)
Theorem map_type_well_formed (type_name : option pystr) (length : Z) :
  match map_type U type_name length with
  | Ok prop => property_type prop
  | Raise e =>
      e = ValueError
      /\ exists g,
           (re_AN U (strip U (text_or_empty type_name)) = Some g
            \/ re_varchar U (lower U (strip U (text_or_empty type_name)))
               = Some g)
           /\ parse_int U g = None
  end.
Proof.
  unfold map_type, int_of_text.
  destruct (re_AN U (strip U (text_or_empty type_name))) as [g|] eqn:EAN;
    [destruct (parse_int U g) eqn:Eg|];
    (destruct (re_varchar U (lower U (strip U (text_or_empty type_name))))
       as [g'|] eqn:EV; [destruct (parse_int U g') eqn:Eg'|]);
    repeat match goal with
           | |- context [if ?b then _ else _] => destruct b
           end;
    simpl;
    first [ apply pt_maxlen
          | apply pt_format; in_list
          | apply pt_kind; in_list
          | split; [reflexivity|]; eexists; split; [left; reflexivity|eassumption]
          | split; [reflexivity|]; eexists; split; [right; reflexivity|eassumption] ].
Qed.

Lemma map_type_raise_kind (type_name : option pystr) (length : Z) (e : pyerr) :
  map_type U type_name length = Raise e -> e = ValueError.
Proof.
  unfold map_type, int_of_text.
  repeat match goal with
         | |- context [if ?b then _ else _] => destruct b
         | |- context [match ?o with Some _ => _ | None => _ end] => destruct o
         end;
    simpl; first [discriminate | intros [= <-]; reflexivity].
Qed.

Lemma strip_with_idem p s : strip_with p (strip_with p s) = strip_with p s.
Proof.
  unfold strip_with at 1. rewrite drop_while_id.
  - apply rstrip_with_id. intros c Hc. apply (rstrip_with_last _ _ _ Hc).
  - intros c Hc. unfold strip_with in Hc. apply rstrip_with_head_inv in Hc.
    apply (drop_while_head _ _ _ Hc).
Qed.

(** X6. White space around a type token does not change its mapping,
    and a token of white space only is mapped like the empty token. *)
Theorem map_type_ignores_outer_space (s : pystr) (length : Z) :
  map_type U (Some s) length = map_type U (Some (strip U s)) length.
Proof.
  destruct s as [|c r]; [reflexivity|].
  unfold map_type. simpl text_or_empty.
  destruct (strip U (c :: r)) as [|d t'] eqn:E.
  - reflexivity.
  - simpl is_nil. cbv iota.
    replace (strip U (d :: t')) with (d :: t'); [reflexivity|].
    rewrite <- E. symmetry. apply strip_with_idem.
Qed.

Lemma str_eqb_no_digit s k c :
  In c s -> is_09 c = true ->
  forallb (fun x => negb (is_09 x)) k = true -> str_eqb s k = false.
Proof.
  intros Hin Hd Hk. apply str_eqb_neq. intros ->.
  rewrite forallb_forall in Hk. specialize (Hk c Hin).
  rewrite Hd in Hk. discriminate.
Qed.

Lemma str_in_no_digit s ks c :
  In c s -> is_09 c = true ->
  forallb (forallb (fun x => negb (is_09 x))) ks = true -> str_in s ks = false.
Proof.
  intros Hin Hd. unfold str_in. induction ks as [|k r IH]; simpl; [reflexivity|].
  rewrite andb_true_iff. intros [Hk Hr].
  rewrite (str_eqb_no_digit _ _ _ Hin Hd Hk). apply IH, Hr.
Qed.

Lemma strip_no_space s :
  Forall (fun c => isspace U c = false) s -> strip U s = s.
Proof.
  intros H. rewrite List.Forall_forall in H. unfold strip, strip_with.
  rewrite drop_while_id.
  - apply rstrip_with_id. intros c Hc. apply last_Some_elem_of in Hc.
    apply list_elem_of_In in Hc. auto.
  - intros c Hc. apply H. destruct s; [discriminate|].
    injection Hc as ->. left. reflexivity.
Qed.

Lemma digit_is_ascii c : is_09 c = true -> is_ascii c = true.
Proof.
  unfold is_09, is_ascii. rewrite andb_true_iff, !N.leb_le, N.ltb_lt. lia.
Qed.

Lemma digit_lower c : is_09 c = true -> ascii_lower c = c.
Proof.
  unfold is_09, ascii_lower, is_AZ. rewrite andb_true_iff, !N.leb_le.
  intros [H1 H2].
  replace ((65 <=? c) && (c <=? 90)) with false
    by (symmetry; apply andb_false_iff; rewrite !N.leb_gt; lia).
  reflexivity.
Qed.

Lemma digit_not_space c : is_09 c = true -> isspace U c = false.
Proof.
  intros H. apply (slug_char_not_space U). unfold slug_char.
  rewrite H, orb_true_r. reflexivity.
Qed.

Lemma digit_isdigit c : is_09 c = true -> isdigit U c = true.
Proof.
  intros H. unfold isdigit, digit_value.
  rewrite (digit_is_ascii _ H), H. reflexivity.
Qed.

(** A token with an ASCII digit is no keyword: only the three digit
    patterns can give it a type other than the plain string. *)
Lemma map_type_digit_token (t : pystr) (length : Z) (c : N) :
  forallb is_ascii t = true ->
  Forall (fun x => isspace U x = false) t ->
  In c t -> is_09 c = true ->
  starts_with (py "varchar") (lower U t) = false ->
  map_type U (Some t) length
  = if re_N_int U t then Ok (ty "integer")
    else if re_N_dec U t then Ok (ty "number")
    else match re_AN U t with
         | Some g => n ← int_of_text U g; Ok (ty_maxlen n)
         | None => Ok (ty "string")
         end.
Proof.
  intros Hascii Hns Hin Hd Hv.
  assert (Hin' : In c (lower U t)).
  { unfold lower. rewrite Hascii. rewrite <- (digit_lower _ Hd).
    apply List.in_map, Hin. }
  unfold map_type. simpl text_or_empty.
  replace (is_nil t) with false by (destruct t; [destruct Hin|reflexivity]).
  rewrite (strip_no_space _ Hns). rewrite Hv.
  rewrite !(str_in_no_digit (lower U t) _ c Hin' Hd) by reflexivity.
  rewrite !(str_eqb_no_digit (lower U t) _ c Hin' Hd) by reflexivity.
  destruct (re_N_int U t); [reflexivity|].
  destruct (re_N_dec U t); [reflexivity|].
  destruct (re_AN U t); [reflexivity|].
  simpl. destruct (_ && _); reflexivity.
Qed.

Lemma take_while_app p d r :
  Forall (fun c => p c = true) d ->
  (forall x, head r = Some x -> p x = false) ->
  take_while p (d ++ r) = d /\ drop_while p (d ++ r) = r.
Proof.
  intros Hd Hr. induction Hd as [|c d' Hc _ IH]; simpl.
  - destruct r as [|x r']; [split; reflexivity|]. simpl.
    rewrite (Hr x eq_refl). split; reflexivity.
  - rewrite Hc. destruct IH as [-> ->]. split; reflexivity.
Qed.

Lemma digit_not_int_space c : is_09 c = true -> int_isspace U c = false.
Proof.
  intros H. unfold int_isspace. rewrite (digit_is_ascii _ H).
  revert H. unfold is_09. rewrite andb_true_iff, !N.leb_le. intros [H1 H2].
  apply orb_false_iff. split.
  - apply andb_false_iff. right. apply N.leb_gt. lia.
  - apply N.eqb_neq. lia.
Qed.

Lemma digit_not_mark c (m : N) :
  is_09 c = true -> (m < 48 \/ 57 < m) -> (c =? m) = false.
Proof.
  unfold is_09. rewrite andb_true_iff, !N.leb_le. intros [H1 H2] Hm.
  apply N.eqb_neq. lia.
Qed.

(** The digits of [int()] on a run of ASCII digits: the number written,
    and one more digit counted for each. *)
Lemma parse_ascii_digits d acc n b :
  Forall (fun c => is_09 c = true) d ->
  parse_digits U acc n b d
  = if is_nil d && negb b then None
    else Some (fold_left (fun acc c => (10 * acc + Z.of_N (c - 48))%Z) d acc,
               (n + List.length d)%nat).
Proof.
  intros H. revert acc n b. induction H as [|c r Hc _ IH]; intros acc n b.
  - simpl. destruct b; simpl; [rewrite Nat.add_0_r|]; reflexivity.
  - cbn [parse_digits].
    rewrite (digit_not_mark c 95 Hc) by lia.
    rewrite (digit_not_int_space _ Hc).
    assert (Hv : digit_value U c = Some (Z.of_N (c - 48))).
    { unfold digit_value. rewrite (digit_is_ascii _ Hc), Hc. reflexivity. }
    rewrite Hv, IH. cbn [is_nil negb andb]. rewrite andb_false_r.
    do 2 f_equal. simpl. lia.
Qed.

Lemma strip_with_none p s :
  Forall (fun c => p c = false) s -> strip_with p s = s.
Proof.
  intros H. rewrite List.Forall_forall in H. unfold strip_with.
  rewrite drop_while_id.
  - apply rstrip_with_id. intros c Hc. apply last_Some_elem_of in Hc.
    apply list_elem_of_In in Hc. auto.
  - intros c Hc. apply H. destruct s; [discriminate|].
    injection Hc as ->. left. reflexivity.
Qed.

(** [int()] on a run of ASCII digits: the number written, unless the run
    is longer than the interpreter allows. *)
Lemma int_of_ascii_digits d :
  d <> [] -> Forall (fun c => is_09 c = true) d ->
  int_of_text U d
  = if exceeds_str_digits U (List.length d) then Raise ValueError
    else Ok (decimal_value d).
Proof.
  intros Hne H. unfold int_of_text, parse_int.
  rewrite strip_with_none
    by (eapply List.Forall_impl; [|exact H]; apply digit_not_int_space).
  destruct d as [|c r]; [congruence|].
  pose proof (List.Forall_inv H) as Hc.
  rewrite (digit_not_mark c 43 Hc) by lia.
  rewrite (digit_not_mark c 45 Hc) by lia.
  rewrite (parse_ascii_digits _ 0%Z O false H). simpl.
  destruct (exceeds_str_digits U (S (List.length r))); reflexivity.
Qed.

(** X7. The digit patterns, for every run of ASCII digits: N<digits> is
    an integer, N<digits>.<digits> and N<digits>,<digits> are numbers,
    and AN<digits> is a string whose maximal length is the number
    written, unless the run has more digits than [int()] reads (more
    than 640 and more than the interpreter's bound), in which case the
    mapper raises [ValueError]. *)
Theorem map_type_digit_patterns (d1 d2 : pystr) (sep : N) (length : Z) :
  d1 <> [] -> d2 <> [] ->
  Forall (fun c => is_09 c = true) d1 ->
  Forall (fun c => is_09 c = true) d2 ->
  sep = 46 \/ sep = 44 ->
  map_type U (Some (78 :: d1)) length = Ok [(py "type", JStr (py "integer"))]
  /\ map_type U (Some (78 :: d1 ++ sep :: d2)) length
     = Ok [(py "type", JStr (py "number"))]
  /\ map_type U (Some (65 :: 78 :: d1)) length
     = if exceeds_str_digits U (List.length d1) then Raise ValueError
       else Ok [(py "type", JStr (py "string"));
                (py "maxLength", JInt (decimal_value d1))].
Proof.
  intros Hne1 Hne2 Hd1 Hd2 Hsep.
  destruct d1 as [|c d1']; [congruence|].
  pose proof (List.Forall_inv Hd1) as Hc.
  assert (Hsep_ascii : is_ascii sep = true) by (destruct Hsep; subst; reflexivity).
  assert (Hsep_ns : isspace U sep = false) by (destruct Hsep; subst; reflexivity).
  assert (Hsep_nd : isdigit U sep = false) by (destruct Hsep; subst; reflexivity).
  assert (Hdig : forall d, Forall (fun c => is_09 c = true) d ->
                   Forall (fun c => isdigit U c = true) d).
  { intros d H. eapply List.Forall_impl; [|exact H]. apply digit_isdigit. }
  assert (Hasc : forall d, Forall (fun c => is_09 c = true) d ->
                   forallb is_ascii d = true).
  { intros d H. apply forallb_forall. rewrite List.Forall_forall in H.
    intros x Hx. apply digit_is_ascii, H, Hx. }
  assert (Hnsp : forall d, Forall (fun c => is_09 c = true) d ->
                   Forall (fun c => isspace U c = false) d).
  { intros d H. eapply List.Forall_impl; [|exact H]. apply digit_not_space. }
  assert (Hend : forall x : N, head (@nil N) = Some x -> isdigit U x = false)
    by discriminate.
  destruct (take_while_app (isdigit U) (c :: d1') [] (Hdig _ Hd1) Hend)
    as [Ht1 Hr1].
  rewrite List.app_nil_r in Ht1, Hr1.
  assert (Hcons : forall a l, is_ascii a = true -> forallb is_ascii l = true ->
                   forallb is_ascii (a :: l) = true).
  { intros a l Ha Hl. simpl. rewrite Ha, Hl. reflexivity. }
  split; [|split].
  - assert (HA : forallb is_ascii (78 :: c :: d1') = true)
      by (apply Hcons; [reflexivity|apply Hasc, Hd1]).
    rewrite (map_type_digit_token (78 :: c :: d1') length c).
    + unfold re_N_int. rewrite Ht1, Hr1. reflexivity.
    + exact HA.
    + constructor; [reflexivity|apply Hnsp, Hd1].
    + right. left. reflexivity.
    + exact Hc.
    + unfold lower. rewrite HA. reflexivity.
  - assert (Hmid : forall x, head (sep :: d2) = Some x -> isdigit U x = false)
      by (intros x [= <-]; exact Hsep_nd).
    destruct (take_while_app (isdigit U) (c :: d1') (sep :: d2) (Hdig _ Hd1) Hmid)
      as [Ht Hr].
    destruct (take_while_app (isdigit U) d2 [] (Hdig _ Hd2) Hend) as [Ht2 Hr2].
    rewrite List.app_nil_r in Ht2, Hr2.
    assert (HA : forallb is_ascii (78 :: (c :: d1') ++ sep :: d2) = true).
    { apply Hcons; [reflexivity|]. rewrite forallb_app, (Hasc _ Hd1).
      apply Hcons; [exact Hsep_ascii|apply Hasc, Hd2]. }
    rewrite (map_type_digit_token (78 :: (c :: d1') ++ sep :: d2) length c).
    + unfold re_N_int, re_N_dec. rewrite Ht, Hr, Ht2, Hr2.
      destruct d2 as [|e d2']; [congruence|].
      destruct Hsep; subst; reflexivity.
    + exact HA.
    + constructor; [reflexivity|]. apply List.Forall_app. split; [apply Hnsp, Hd1|].
      constructor; [exact Hsep_ns|apply Hnsp, Hd2].
    + right. left. reflexivity.
    + exact Hc.
    + unfold lower. rewrite HA. reflexivity.
  - assert (HA : forallb is_ascii (65 :: 78 :: c :: d1') = true)
      by (apply Hcons; [reflexivity|apply Hcons; [reflexivity|apply Hasc, Hd1]]).
    rewrite (map_type_digit_token (65 :: 78 :: c :: d1') length c).
    + replace (re_N_int U (65 :: 78 :: c :: d1')) with false by reflexivity.
      replace (re_N_dec U (65 :: 78 :: c :: d1')) with false by reflexivity.
      replace (re_AN U (65 :: 78 :: c :: d1')) with (Some (c :: d1'))
        by (unfold re_AN; rewrite Ht1, Hr1; reflexivity).
      rewrite (int_of_ascii_digits _ Hne1 Hd1).
      destruct (exceeds_str_digits U (List.length (c :: d1'))); reflexivity.
    + exact HA.
    + constructor; [reflexivity|]. constructor; [reflexivity|apply Hnsp, Hd1].
    + right. right. left. reflexivity.
    + exact Hc.
    + unfold lower. rewrite HA. reflexivity.
Qed.

End TypeMapperMore.

(** ** The database caches *)

Lemma foldM_descendants_mono (f g : Z -> result (list Z)) (cs acc res : list Z) :
  (forall c r, In c cs -> f c = Ok r -> g c = Ok r) ->
  foldM (fun result child_id => sub ← f child_id; Ok (result ++ sub)) acc cs
  = Ok res ->
  foldM (fun result child_id => sub ← g child_id; Ok (result ++ sub)) acc cs
  = Ok res.
Proof.
  revert acc. induction cs as [|c r IH]; intros acc Hfg; [auto|].
  rewrite !foldM_cons.
  destruct (f c) as [sub|e] eqn:E; simpl; [|discriminate].
  rewrite (Hfg c sub (or_introl eq_refl) E). simpl.
  apply IH. intros c' r' Hc'. apply Hfg. right. exact Hc'.
Qed.

(** X8. What [get_descendant_packages] returns does not depend on the
    recursion limit: a call that returns under one limit returns the
    same list under every larger one. *)
Theorem descendants_limit_independent (limit limit' : nat) (d : GGMDatabase)
    (root : Z) (ids : list Z) :
  get_descendant_packages limit d root = Ok ids ->
  (limit <= limit')%nat ->
  get_descendant_packages limit' d root = Ok ids.
Proof.
  revert limit' root ids. induction limit as [|limit IH];
    intros limit' root ids; [discriminate|].
  intros H Hle. destruct limit' as [|limit']; [lia|].
  rewrite get_descendant_packages_step in *.
  revert H. apply foldM_descendants_mono.
  intros c r _ Hc. apply (IH limit' c r Hc). lia.
Qed.

Lemma descendants_raise_kind (limit : nat) (d : GGMDatabase) (root : Z)
    (e : pyerr) :
  get_descendant_packages limit d root = Raise e ->
  e = RecursionError
  /\ get_descendant_packages limit d root = Raise RecursionError.
Proof.
  destruct (depth_le limit d root) eqn:E.
  - destruct (descendants_of_bounded_tree_aux limit d root E) as (ids & -> & _).
    discriminate.
  - rewrite (descendants_beyond_limit limit d root E).
    intros [= <-]. split; reflexivity.
Qed.

(** X9. The only exception of [get_descendant_packages] is
    [RecursionError], and it is raised exactly when the subtree below
    the package is not shallower than the limit. *)
Theorem descendants_raise_only_recursion (limit : nat) (d : GGMDatabase)
    (root : Z) :
  (forall e, get_descendant_packages limit d root = Raise e ->
             e = RecursionError)
  /\ (get_descendant_packages limit d root = Raise RecursionError
      <-> depth_le limit d root = false).
Proof.
  destruct (depth_le limit d root) eqn:E.
  - destruct (descendants_of_bounded_tree_aux limit d root E) as (ids & -> & _).
    split; [discriminate|]. split; discriminate.
  - rewrite (descendants_beyond_limit limit d root E).
    split; [intros e [= <-]; reflexivity|]. split; reflexivity.
Qed.

Lemma package_tree_fold (rows : list PackageRow) (pk : gmap Z PackageRow)
    (ch : gmap Z (list Z)) (p : Z) :
  default [] ((fold_left
     (fun '(pk, ch) row =>
        (<[pkg_Package_ID row := row]> pk,
         <[pkg_Parent_ID row :=
             default [] (ch !! pkg_Parent_ID row) ++ [pkg_Package_ID row]]> ch))
     rows (pk, ch)).2 !! p)
  = default [] (ch !! p)
    ++ List.map pkg_Package_ID
         (List.filter (fun row => (pkg_Parent_ID row =? p)%Z) rows).
Proof.
  revert pk ch. induction rows as [|row r IH]; intros pk ch.
  - simpl. rewrite List.app_nil_r. reflexivity.
  - cbn [fold_left List.filter]. rewrite IH.
    destruct (Z.eqb_spec (pkg_Parent_ID row) p) as [->|Hne].
    + rewrite lookup_insert_eq. simpl. rewrite <- List.app_assoc. reflexivity.
    + rewrite lookup_insert_ne by exact Hne. reflexivity.
Qed.

(** X10. After [_build_package_tree] the children of a package are the
    ids of the package rows that name it as parent, in table order; a
    package without such rows has no children. *)
Theorem package_children_of_init (s : Snapshot) (p : Z) :
  children_of (GGMDatabase_init s) p
  = List.map pkg_Package_ID
      (List.filter (fun row => (pkg_Parent_ID row =? p)%Z) (t_package s)).
Proof.
  unfold children_of, GGMDatabase_init.
  pose proof (package_tree_fold (t_package s) ∅ ∅ p) as H.
  fold (_build_package_tree s) in H.
  destruct (_build_package_tree s) as [pk ch]. simpl in *.
  rewrite H, lookup_empty. reflexivity.
Qed.

Lemma find_app_first {A} (f : A -> bool) (l l' : list A) :
  List.find f (l ++ l')
  = match List.find f l with Some x => Some x | None => List.find f l' end.
Proof.
  induction l as [|a r IH]; simpl; [reflexivity|].
  destruct (f a); [reflexivity|exact IH].
Qed.

Lemma object_cache_fold (rows : list ObjectRow) (m : gmap Z ObjectRow) (id : Z) :
  fold_left (fun m row => <[Object_ID row := row]> m) rows m !! id
  = match List.find (fun row => (Object_ID row =? id)%Z) (rev rows) with
    | Some row => Some row
    | None => m !! id
    end.
Proof.
  revert m. induction rows as [|row r IH]; intros m; [reflexivity|].
  cbn [fold_left]. rewrite IH. simpl rev.
  rewrite find_app_first.
  destruct (List.find _ (rev r)); [reflexivity|]. simpl.
  destruct (Z.eqb_spec (Object_ID row) id) as [->|Hne].
  - apply lookup_insert_eq.
  - apply lookup_insert_ne, Hne.
Qed.

Lemma objects_of_init (s : Snapshot) (id : Z) :
  objects (GGMDatabase_init s) !! id
  = List.find (fun row => (Object_ID row =? id)%Z) (rev (t_object s)).
Proof.
  unfold GGMDatabase_init. destruct (_build_package_tree s). simpl.
  unfold _build_object_cache. rewrite object_cache_fold, lookup_empty.
  destruct (List.find _ _); reflexivity.
Qed.

(** X11. The object cache maps an id to the last row of [t_object] with
    that id: a cached row is a row of the table under its own id, every
    row's id is cached, and an id that no row has is absent. *)
Theorem object_cache_lookup (s : Snapshot) (id : Z) :
  objects (GGMDatabase_init s) !! id
  = List.find (fun row => (Object_ID row =? id)%Z) (rev (t_object s))
  /\ (forall row, objects (GGMDatabase_init s) !! id = Some row ->
        In row (t_object s) /\ Object_ID row = id)
  /\ (forall row, In row (t_object s) ->
        is_Some (objects (GGMDatabase_init s) !! Object_ID row)).
Proof.
  split; [apply objects_of_init|]. split.
  - intros row H. rewrite objects_of_init in H. apply List.find_some in H.
    destruct H as [Hin Hid]. rewrite <- List.in_rev in Hin.
    apply Z.eqb_eq in Hid. auto.
  - intros row Hin. rewrite objects_of_init.
    destruct (List.find _ _) eqn:F; [eauto|].
    exfalso. pose proof (List.find_none _ _ F row) as Hn. simpl in Hn.
    rewrite Z.eqb_refl in Hn. discriminate Hn.
    rewrite <- List.in_rev. exact Hin.
Qed.

Lemma fold_insert_lookup_iff {V} (f : Z -> V) (ids : list Z) (m : gmap Z V)
    (k : Z) :
  fold_left (fun m e => <[e := f e]> m) ids m !! k
  = if Z_in k ids then Some (f k) else m !! k.
Proof.
  revert m. induction ids as [|a r IH]; intros m; [reflexivity|].
  cbn [fold_left]. rewrite IH. unfold Z_in. simpl.
  destruct (existsb (Z.eqb k) r) eqn:E; [rewrite orb_true_r; reflexivity|].
  rewrite orb_false_r. destruct (Z.eqb_spec k a) as [->|Hne].
  - apply lookup_insert_eq.
  - apply lookup_insert_ne. congruence.
Qed.

(** X12. The enumeration cache has an entry for an id exactly when some
    object row with that id is typed Enumeration, and the entry is then
    the list of the names of that object's attribute rows in the order
    of their positions. *)
Theorem enum_cache_entries (s : Snapshot) (id : Z) (literals : list (option pystr)) :
  enums (GGMDatabase_init s) !! id = Some literals
  <-> (exists e, In e (t_object s) /\ Object_ID e = id
                 /\ text_is (Object_Type e) (py "Enumeration") = true)
      /\ literals = List.map attr_Name (select_attributes s id).
Proof.
  rewrite enums_of_init. unfold _build_enum_cache.
  rewrite fold_insert_lookup_iff, lookup_empty.
  destruct (Z_in id _) eqn:E.
  - unfold Z_in in E. apply existsb_exists in E.
    destruct E as (x & Hx & Hid). apply Z.eqb_eq in Hid. subst x.
    apply List.in_map_iff in Hx. destruct Hx as (e & He & Hin).
    apply List.filter_In in Hin. split.
    + intros [= <-]. split; [|reflexivity]. exists e. tauto.
    + intros [_ ->]. reflexivity.
  - split; [discriminate|]. intros [(e & Hin & Hid & Hty) _]. exfalso.
    assert (Z_in id (List.map Object_ID
              (List.filter (fun o => text_is (Object_Type o) (py "Enumeration"))
                           (t_object s))) = true).
    { apply existsb_exists. exists id. split; [|apply Z.eqb_refl].
      rewrite <- Hid. apply List.in_map, List.filter_In. auto. }
    congruence.
Qed.

Lemma insert_by_pos_perm a l : Permutation (insert_by_pos a l) (a :: l).
Proof.
  induction l as [|b r IH]; simpl; [reflexivity|].
  destruct (Pos a <=? Pos b)%Z; [reflexivity|].
  rewrite IH. apply perm_swap.
Qed.

Lemma insert_by_pos_sorted a l :
  StronglySorted (fun x y => (Pos x <= Pos y)%Z) l ->
  StronglySorted (fun x y => (Pos x <= Pos y)%Z) (insert_by_pos a l).
Proof.
  induction 1 as [|b r Hr IH Hb]; simpl.
  - constructor; [constructor|constructor].
  - destruct (Z.leb_spec (Pos a) (Pos b)) as [Hle|Hgt].
    + constructor; [constructor; assumption|].
      constructor; [exact Hle|].
      eapply List.Forall_impl; [|exact Hb]. simpl. intros x Hx. lia.
    + constructor; [exact IH|].
      rewrite (insert_by_pos_perm a r). constructor; [lia|exact Hb].
Qed.

(** X13. The attributes of an object come back as [ORDER BY Pos] asks:
    the result is a rearrangement of the attribute rows of that object,
    and positions never decrease along it. *)
Theorem get_attributes_ordered (db : GGMDatabase) (object_id : Z) :
  Permutation (get_attributes db object_id)
    (List.filter (fun a => (attr_Object_ID a =? object_id)%Z)
                 (t_attribute (conn db)))
  /\ StronglySorted (fun x y => (Pos x <= Pos y)%Z) (get_attributes db object_id)
  /\ Forall (fun a => attr_Object_ID a = object_id) (get_attributes db object_id).
Proof.
  unfold get_attributes, select_attributes.
  set (l := List.filter _ _).
  assert (Hp : Permutation (order_by_pos l) l).
  { unfold order_by_pos. induction l as [|a r IH]; simpl; [reflexivity|].
    rewrite insert_by_pos_perm, IH. reflexivity. }
  split; [exact Hp|]. split.
  - unfold order_by_pos. clear Hp. induction l as [|a r IH]; simpl;
      [constructor|apply insert_by_pos_sorted, IH].
  - rewrite Hp. apply List.Forall_forall. intros a Ha.
    apply List.filter_In in Ha. apply Z.eqb_eq, Ha.
Qed.

(** ** The attribute mapper *)

Section AttributeMapper.
Context (U : Unicode).

Lemma map_attribute_raise_kind (self : OpenRegisterGenerator)
    (attr : AttributeRow) (local_enums : gmap Z (list (option pystr)))
    (e : pyerr) :
  _map_attribute U self attr local_enums = Raise e -> e = ValueError.
Proof.
  unfold _map_attribute.
  destruct (map_type U (attr_Type attr) 0) as [base|e'] eqn:Em;
    [|apply map_type_raise_kind in Em; subst e'].
  - destruct (set_and_nonzero (Classifier attr)) eqn:Hc; simpl;
      [|destruct (_ && _); discriminate].
    destruct (Classifier attr) as [|z|s]; simpl; [discriminate Hc| |].
    + destruct (enums (db self) !! z); [discriminate|].
      destruct (objects (db self) !! z) as [obj|];
        [destruct (text_is _ _)|]; simpl; try discriminate;
        destruct (_ && _); discriminate.
    + unfold int_of_text. destruct (parse_int U s) as [z|]; simpl;
        [|intros [= <-]; reflexivity].
      destruct (enums (db self) !! z); [discriminate|].
      destruct (objects (db self) !! z) as [obj|];
        [destruct (text_is _ _)|]; simpl; try discriminate;
        destruct (_ && _); discriminate.
  - destruct (set_and_nonzero (Classifier attr)) eqn:Hc; simpl;
      [|intros [= <-]; reflexivity].
    destruct (py_int U (Classifier attr)) as [cid|e'] eqn:Hi; simpl.
    + destruct (enums (db self) !! cid); [discriminate|].
      destruct (objects (db self) !! cid) as [obj|];
        [destruct (text_is _ _)|]; simpl; intros [= <-]; reflexivity.
    + destruct (Classifier attr) as [|z|s]; simpl in Hi;
        [discriminate Hc|discriminate Hi|].
      unfold int_of_text in Hi. destruct (parse_int U s); [discriminate|].
      injection Hi as <-. intros [= <-]. reflexivity.
Qed.

(** X14. The attribute mapper raises only [ValueError], and in two
    cases exactly: the classifier is a text other than "0" and "" that
    [int()] does not read; or the classifier is unset or names no
    enumeration of the cache, and the type mapper raises on the type of
    the attribute.  For a classifier that names an enumeration the type
    is not looked at. *)
Theorem map_attribute_raises (self : OpenRegisterGenerator)
    (attr : AttributeRow) (local_enums : gmap Z (list (option pystr)))
    (e : pyerr) :
  _map_attribute U self attr local_enums = Raise e
  <-> e = ValueError
      /\ ((set_and_nonzero (Classifier attr) = true
           /\ exists s, Classifier attr = SqlText s /\ parse_int U s = None)
          \/ ((set_and_nonzero (Classifier attr) = false
               \/ exists cid, py_int U (Classifier attr) = Ok cid
                              /\ enums (db self) !! cid = None)
              /\ map_type U (attr_Type attr) 0 = Raise ValueError)).
Proof.
  assert (Hstd : forall e',
    (prop ← map_type U (attr_Type attr) 0;
     if truthy (Default attr) && negb (is_nil (strip U (py_str (Default attr))))
     then Ok (dict_set (py "default") (JStr (strip U (py_str (Default attr))))
                (attach_notes
                   (dict_set (py "title") (json_of_text (attr_Name attr)) prop)
                   (strip U (strip_tags (text_or_empty (Notes attr))))))
     else Ok (attach_notes
                (dict_set (py "title") (json_of_text (attr_Name attr)) prop)
                (strip U (strip_tags (text_or_empty (Notes attr)))))) = Raise e'
    <-> map_type U (attr_Type attr) 0 = Raise e').
  { intros e'. destruct (map_type U (attr_Type attr) 0) as [base|e0]; simpl;
      [|tauto].
    destruct (_ && _); split; discriminate. }
  assert (Hdt : forall e',
    (prop ← map_type U (attr_Type attr) 0;
     Ok (attach_notes
           (dict_set (py "title") (json_of_text (attr_Name attr)) prop)
           (strip U (strip_tags (text_or_empty (Notes attr)))))) = Raise e'
    <-> map_type U (attr_Type attr) 0 = Raise e').
  { intros e'. destruct (map_type U (attr_Type attr) 0) as [base|e0]; simpl;
      [split; discriminate|tauto]. }
  unfold _map_attribute.
  destruct (set_and_nonzero (Classifier attr)) eqn:Hc.
  - destruct (py_int U (Classifier attr)) as [cid|e'] eqn:Hi; simpl.
    + destruct (enums (db self) !! cid) as [literals|] eqn:He.
      * split; [discriminate|].
        intros (_ & [(_ & s & Hs & Hp)|([H|(cid' & Hcid & Hen)] & _)]).
        -- rewrite Hs in Hi. unfold py_int, int_of_text in Hi.
           rewrite Hp in Hi. discriminate.
        -- discriminate.
        -- injection Hcid as <-. congruence.
      * etrans;
          [destruct (objects (db self) !! cid) as [obj|];
             [destruct (text_is _ _); [apply Hdt|apply Hstd]|apply Hstd]|].
        split.
        -- intros H. pose proof (map_type_raise_kind U _ _ _ H) as ->.
           split; [reflexivity|]. right. split; [right; eauto|exact H].
        -- intros (-> & [(_ & s & Hs & Hp)|(_ & H)]); [|exact H].
           rewrite Hs in Hi. unfold py_int, int_of_text in Hi.
           rewrite Hp in Hi. discriminate.
    + destruct (Classifier attr) as [|z|s] eqn:Hcl; simpl in Hi;
        [discriminate Hc|discriminate Hi|].
      unfold int_of_text in Hi.
      destruct (parse_int U s) as [z|] eqn:Hp; [discriminate|].
      injection Hi as <-. split.
      * intros [= <-]. split; [reflexivity|]. left. eauto.
      * intros (-> & _). reflexivity.
  - etrans; [apply Hstd|]. split.
    + intros H. pose proof (map_type_raise_kind U _ _ _ H) as ->.
      split; [reflexivity|]. right. split; [left; reflexivity|exact H].
    + intros (-> & [(H & _)|(_ & H)]); [discriminate|exact H].
Qed.

Lemma map_type_lookups (type_name : option pystr) (length : Z) (base : pydict) :
  map_type U type_name length = Ok base ->
  (exists kind,
     dict_get (py "type") base = Some (JStr kind)
     /\ In kind [py "string"; py "integer"; py "number"; py "boolean"])
  /\ dict_get (py "title") base = None
  /\ dict_get (py "description") base = None
  /\ dict_get (py "default") base = None.
Proof.
  unfold map_type, int_of_text.
  repeat match goal with
         | |- context [if ?b then _ else _] => destruct b
         | |- context [match ?o with Some _ => _ | None => _ end] => destruct o
         end;
    simpl; try discriminate; intros [= <-];
    (split; [eexists; split; [reflexivity|];
             vm_compute; repeat (first [left; reflexivity | right])
            |repeat split]).
Qed.

Lemma attach_notes_description prop notes :
  dict_get (py "description") prop = None ->
  dict_get (py "description") (attach_notes prop notes)
  = if is_nil notes then None else Some (JStr notes).
Proof.
  intros H. unfold attach_notes. destruct (is_nil notes); [exact H|].
  apply dict_get_set_eq.
Qed.

(** The three ways in which the attribute mapper returns a property. *)
Lemma map_attribute_inv (self : OpenRegisterGenerator) (attr : AttributeRow)
    (local_enums : gmap Z (list (option pystr))) (prop : pydict) :
  _map_attribute U self attr local_enums = Ok prop ->
  (exists literals,
     classifier_resolved U self attr = true
     /\ prop
        = (if is_nil literals
           then attach_notes [(py "type", JStr (py "string"));
                              (py "title", json_of_text (attr_Name attr))]
                             (attribute_notes U attr)
           else dict_set (py "enum") (JList (List.map json_of_text literals))
                  (attach_notes [(py "type", JStr (py "string"));
                                 (py "title", json_of_text (attr_Name attr))]
                                (attribute_notes U attr))))
  \/ (exists base,
        map_type U (attr_Type attr) 0 = Ok base
        /\ ((classifier_resolved U self attr = true
             /\ prop
                = attach_notes
                    (dict_set (py "title") (json_of_text (attr_Name attr)) base)
                    (attribute_notes U attr))
            \/ (classifier_resolved U self attr = false
                /\ prop
                   = if truthy (Default attr)
                        && negb (is_nil (strip U (py_str (Default attr))))
                     then dict_set (py "default")
                            (JStr (strip U (py_str (Default attr))))
                            (attach_notes
                               (dict_set (py "title")
                                  (json_of_text (attr_Name attr)) base)
                               (attribute_notes U attr))
                     else attach_notes
                            (dict_set (py "title")
                               (json_of_text (attr_Name attr)) base)
                            (attribute_notes U attr)))).
Proof.
  unfold _map_attribute, classifier_resolved. fold (attribute_notes U attr).
  assert (Hstd : forall p,
    (prop ← map_type U (attr_Type attr) 0;
     if truthy (Default attr) && negb (is_nil (strip U (py_str (Default attr))))
     then Ok (dict_set (py "default") (JStr (strip U (py_str (Default attr))))
                (attach_notes
                   (dict_set (py "title") (json_of_text (attr_Name attr)) prop)
                   (attribute_notes U attr)))
     else Ok (attach_notes
                (dict_set (py "title") (json_of_text (attr_Name attr)) prop)
                (attribute_notes U attr))) = Ok p ->
    exists base,
      map_type U (attr_Type attr) 0 = Ok base
      /\ p = if truthy (Default attr)
                && negb (is_nil (strip U (py_str (Default attr))))
             then dict_set (py "default")
                    (JStr (strip U (py_str (Default attr))))
                    (attach_notes
                       (dict_set (py "title") (json_of_text (attr_Name attr))
                          base)
                       (attribute_notes U attr))
             else attach_notes
                    (dict_set (py "title") (json_of_text (attr_Name attr)) base)
                    (attribute_notes U attr)).
  { intros p. destruct (map_type U (attr_Type attr) 0) as [base|e]; simpl;
      [|discriminate].
    intros H. exists base. split; [reflexivity|].
    destruct (_ && _); injection H as <-; reflexivity. }
  destruct (set_and_nonzero (Classifier attr)); simpl.
  - destruct (py_int U (Classifier attr)) as [cid|e]; simpl; [|discriminate].
    destruct (enums (db self) !! cid) as [literals|]; simpl.
    + intros [= <-]. left. exists literals. split; reflexivity.
    + destruct (objects (db self) !! cid) as [obj|]; simpl.
      * destruct (text_is (Object_Type obj) (py "DataType")); simpl.
        -- destruct (map_type U (attr_Type attr) 0) as [base|e]; simpl;
             [|discriminate].
           intros [= <-]. right. exists base. split; [reflexivity|].
           left. split; reflexivity.
        -- intros H. apply Hstd in H. destruct H as (base & Hb & ->).
           right. exists base. split; [exact Hb|]. right. split; reflexivity.
      * intros H. apply Hstd in H. destruct H as (base & Hb & ->).
        right. exists base. split; [exact Hb|]. right. split; reflexivity.
  - intros H. apply Hstd in H. destruct H as (base & Hb & ->).
    right. exists base. split; [exact Hb|]. right. split; reflexivity.
Qed.

(** X15. Every property the attribute mapper returns carries the
    attribute's name as title, a type among string, integer, number and
    boolean, and the tag-stripped, trimmed note as description exactly
    when that note is not empty. *)
Theorem map_attribute_fields (self : OpenRegisterGenerator)
    (attr : AttributeRow) (local_enums : gmap Z (list (option pystr)))
    (prop : pydict) :
  _map_attribute U self attr local_enums = Ok prop ->
  dict_get (py "title") prop = Some (json_of_text (attr_Name attr))
  /\ (exists kind,
        dict_get (py "type") prop = Some (JStr kind)
        /\ In kind [py "string"; py "integer"; py "number"; py "boolean"])
  /\ dict_get (py "description") prop
     = if is_nil (attribute_notes U attr) then None
       else Some (JStr (attribute_notes U attr)).
Proof.
  intros H. apply map_attribute_inv in H.
  destruct H as [(literals & _ & ->)|(base & Hb & H)].
  - destruct (is_nil literals).
    + split; [|split].
      * rewrite attach_notes_get by keys_differ. reflexivity.
      * rewrite attach_notes_get by keys_differ.
        exists (py "string"). split; [reflexivity|left; reflexivity].
      * apply attach_notes_description. reflexivity.
    + rewrite !dict_get_set_ne by keys_differ. split; [|split].
      * rewrite attach_notes_get by keys_differ. reflexivity.
      * rewrite attach_notes_get by keys_differ.
        exists (py "string"). split; [reflexivity|left; reflexivity].
      * apply attach_notes_description. reflexivity.
  - pose proof (map_type_lookups _ _ _ Hb) as (Hty & Hti & Hde & _).
    assert (Hbase :
      dict_get (py "title")
        (attach_notes (dict_set (py "title") (json_of_text (attr_Name attr)) base)
           (attribute_notes U attr))
      = Some (json_of_text (attr_Name attr))
      /\ (exists kind,
            dict_get (py "type")
              (attach_notes
                 (dict_set (py "title") (json_of_text (attr_Name attr)) base)
                 (attribute_notes U attr)) = Some (JStr kind)
            /\ In kind [py "string"; py "integer"; py "number"; py "boolean"])
      /\ dict_get (py "description")
           (attach_notes
              (dict_set (py "title") (json_of_text (attr_Name attr)) base)
              (attribute_notes U attr))
         = if is_nil (attribute_notes U attr) then None
           else Some (JStr (attribute_notes U attr))).
    { split; [|split].
      - rewrite attach_notes_get by keys_differ. apply dict_get_set_eq.
      - rewrite attach_notes_get by keys_differ.
        rewrite dict_get_set_ne by keys_differ. exact Hty.
      - apply attach_notes_description.
        rewrite dict_get_set_ne by keys_differ. exact Hde. }
    destruct H as [(_ & ->)|(_ & ->)]; [exact Hbase|].
    destruct (_ && _); [|exact Hbase].
    rewrite !dict_get_set_ne by keys_differ. exact Hbase.
Qed.

(** X16. A property carries a default exactly when the attribute's
    default is set, is not blank, and the classifier names neither an
    enumeration nor a DataType object; the default is then the trimmed
    text of the value. *)
Theorem map_attribute_default (self : OpenRegisterGenerator)
    (attr : AttributeRow) (local_enums : gmap Z (list (option pystr)))
    (prop : pydict) :
  _map_attribute U self attr local_enums = Ok prop ->
  dict_get (py "default") prop
  = if negb (classifier_resolved U self attr)
       && truthy (Default attr)
       && negb (is_nil (strip U (py_str (Default attr))))
    then Some (JStr (strip U (py_str (Default attr))))
    else None.
Proof.
  intros H. apply map_attribute_inv in H.
  destruct H as [(literals & -> & ->)|(base & Hb & H)].
  - simpl. unfold attach_notes.
    destruct (is_nil literals); destruct (is_nil (attribute_notes U attr));
      rewrite ?dict_get_set_ne by keys_differ; reflexivity.
  - pose proof (map_type_lookups _ _ _ Hb) as (_ & _ & _ & Hdf).
    assert (Hbase : dict_get (py "default")
              (attach_notes
                 (dict_set (py "title") (json_of_text (attr_Name attr)) base)
                 (attribute_notes U attr)) = None).
    { unfold attach_notes. destruct (is_nil (attribute_notes U attr));
        rewrite !dict_get_set_ne by keys_differ; exact Hdf. }
    destruct H as [(-> & ->)|(-> & ->)]; simpl; [exact Hbase|].
    destruct (_ && _); [apply dict_get_set_eq|exact Hbase].
Qed.

End AttributeMapper.

(** ** The schema builder, continued *)

Section SchemaBuilderMore.
Context (U : Unicode).

Lemma foldM_app {A B} (f : B -> A -> result B) b l1 l2 :
  foldM f b (l1 ++ l2) = (b' ← foldM f b l1; foldM f b' l2).
Proof.
  revert b. induction l1 as [|a r IH]; intros b; [reflexivity|].
  simpl. destruct (f b a) as [b'|e]; simpl; [apply IH|reflexivity].
Qed.

Lemma attribute_loop_other_keys self local_enums attrs properties required
    properties' required' k :
  foldM (attribute_step U self local_enums) (properties, required) attrs
  = Ok (properties', required') ->
  Forall (fun b => attribute_key U b <> k) attrs ->
  dict_get k properties' = dict_get k properties.
Proof.
  revert properties required. induction attrs as [|a r IH];
    intros properties required.
  - simpl. intros [= <- <-] _. reflexivity.
  - rewrite foldM_cons.
    destruct (attribute_step U self local_enums (properties, required) a)
      as [st|e] eqn:E; [|discriminate].
    apply attribute_step_inv in E. destruct E as (prop & _ & ->).
    intros H Hall. apply List.Forall_cons_iff in Hall. destruct Hall as [Ha Hr].
    rewrite (IH _ _ H Hr). apply dict_get_set_ne. exact Ha.
Qed.

(** X17. Among attributes that sanitize to the same property key the
    last one wins: the properties map of the schema holds, under the key
    of an attribute that no later attribute shares, the property mapped
    from that very attribute, whatever associations follow. *)
Theorem attribute_last_wins (self : OpenRegisterGenerator) (cls : ObjectRow)
    (local_enums : gmap Z (list (option pystr))) (schema : pydict)
    (before after : list AttributeRow) (a : AttributeRow) :
  _generate_schema U self cls local_enums = Ok schema ->
  get_attributes (db self) (Object_ID cls) = before ++ a :: after ->
  Forall (fun b => attribute_key U b <> attribute_key U a) after ->
  exists prop properties,
    _map_attribute U self a local_enums = Ok prop
    /\ dict_get (py "properties") schema = Some (JDict properties)
    /\ dict_get (attribute_key U a) properties = Some (JDict prop).
Proof.
  intros H Hattrs Hafter. apply generate_schema_inv in H.
  destruct H as (nm & aprops & required & description & _ & Ha & ->).
  unfold attribute_properties in Ha. rewrite Hattrs, foldM_app in Ha.
  apply bind_Ok in Ha. destruct Ha as ([p1 r1] & _ & Ha).
  rewrite foldM_cons in Ha.
  destruct (attribute_step U self local_enums (p1, r1) a) as [st|e] eqn:E;
    [|discriminate].
  apply attribute_step_inv in E. destruct E as (prop & Hprop & ->).
  exists prop. eexists. split; [exact Hprop|]. split; [reflexivity|].
  apply association_loop_keeps.
  rewrite (attribute_loop_other_keys _ _ _ _ _ _ _ _ Ha Hafter).
  apply dict_get_set_eq.
Qed.

Lemma attribute_loop_raises self local_enums attrs st e :
  foldM (attribute_step U self local_enums) st attrs = Raise e ->
  e = ValueError
  /\ exists a, In a attrs /\ _map_attribute U self a local_enums = Raise ValueError.
Proof.
  revert st. induction attrs as [|a r IH]; intros st; [discriminate|].
  rewrite foldM_cons.
  destruct (attribute_step U self local_enums st a) as [st'|e'] eqn:E.
  - intros H. destruct (IH _ H) as (-> & a' & Hin & Ha').
    split; [reflexivity|]. exists a'. split; [right; exact Hin|exact Ha'].
  - intros [= <-]. unfold attribute_step in E. destruct st as [p r0].
    destruct (_map_attribute U self a local_enums) as [prop|e''] eqn:Em.
    + simpl in E. destruct (dict_truthy prop); [|discriminate].
      destruct (set_and_nonzero _); discriminate.
    + simpl in E. injection E as <-.
      pose proof (map_attribute_raise_kind U self a local_enums e'' Em) as ->.
      split; [reflexivity|].
      exists a. split; [left; reflexivity|exact Em].
Qed.

Lemma attribute_loop_total self local_enums attrs st :
  Forall (fun a => exists prop, _map_attribute U self a local_enums = Ok prop)
         attrs ->
  exists st', foldM (attribute_step U self local_enums) st attrs = Ok st'.
Proof.
  intros H. revert st. induction H as [|a r (prop & Ha) _ IH]; intros st.
  - exists st. reflexivity.
  - rewrite foldM_cons. unfold attribute_step at 1. destruct st as [p r0].
    rewrite Ha, bind_Ok_l. rewrite (map_attribute_truthy _ _ _ _ _ Ha).
    destruct (set_and_nonzero _); apply IH.
Qed.

Lemma generate_schema_raise_cases (self : OpenRegisterGenerator)
    (cls : ObjectRow) (local_enums : gmap Z (list (option pystr))) (e : pyerr) :
  _generate_schema U self cls local_enums = Raise e ->
  (obj_Name cls = None /\ e = AttributeError)
  \/ (e = ValueError
      /\ exists a, In a (get_attributes (db self) (Object_ID cls))
                   /\ _map_attribute U self a local_enums = Raise ValueError).
Proof.
  unfold _generate_schema.
  destruct (obj_Name cls) as [nm|]; simpl; [|intros [= <-]; auto].
  destruct (foldM _ _ _) as [[aprops required]|e'] eqn:E; simpl.
  - destruct (is_nil _); discriminate.
  - apply attribute_loop_raises in E. destruct E as (-> & a & Hin & Ha).
    intros [= <-]. right. split; [reflexivity|]. eauto.
Qed.

(** X18. The schema builder raises in two cases only: [AttributeError]
    exactly for a class whose name is NULL, and [ValueError] exactly for
    a named class one of whose attributes makes the attribute mapper
    raise. *)
Theorem generate_schema_raises (self : OpenRegisterGenerator) (cls : ObjectRow)
    (local_enums : gmap Z (list (option pystr))) (e : pyerr) :
  _generate_schema U self cls local_enums = Raise e
  <-> (obj_Name cls = None /\ e = AttributeError)
      \/ (obj_Name cls <> None /\ e = ValueError
          /\ exists a, In a (get_attributes (db self) (Object_ID cls))
                       /\ _map_attribute U self a local_enums = Raise ValueError).
Proof.
  unfold _generate_schema.
  destruct (obj_Name cls) as [nm|]; simpl.
  - destruct (foldM _ _ _) as [[aprops required]|e'] eqn:E; simpl.
    + split.
      * destruct (is_nil _); discriminate.
      * intros [[H _]|(_ & -> & a & Hin & Ha)]; [discriminate|]. exfalso.
        apply List.in_split in Hin. destruct Hin as (l1 & l2 & Hl).
        rewrite Hl, foldM_app in E. apply bind_Ok in E.
        destruct E as (st & _ & E). rewrite foldM_cons in E.
        unfold attribute_step in E. destruct st as [p r0].
        rewrite Ha in E. discriminate.
    + apply attribute_loop_raises in E. destruct E as (-> & a & Hin & Ha).
      split.
      * intros [= <-]. right. split; [discriminate|]. eauto.
      * intros [[H _]|(_ & -> & _)]; [discriminate|reflexivity].
  - split.
    + intros [= <-]. left. auto.
    + intros [[_ ->]|(H & _)]; [reflexivity|congruence].
Qed.

(** X19. A generated schema has its eight fields in a fixed order, the
    constants [searchable] true and [hardValidation] false, and a
    description that is never empty: the cleaned note, or a text made
    from the class name, followed by one inheritance note that lists
    the slugs of the generalization parents found in the global index;
    parents the index does not know are left out, and without any known
    parent there is no note. *)
Theorem generate_schema_document (self : OpenRegisterGenerator)
    (cls : ObjectRow) (local_enums : gmap Z (list (option pystr)))
    (schema : pydict) :
  _generate_schema U self cls local_enums = Ok schema ->
  dict_keys schema
  = [py "slug"; py "title"; py "version"; py "description"; py "required";
     py "properties"; py "searchable"; py "hardValidation"]
  /\ dict_get (py "version") schema = Some (JStr GGM_VERSION)
  /\ dict_get (py "searchable") schema = Some (JBool true)
  /\ dict_get (py "hardValidation") schema = Some (JBool false)
  /\ base_description U cls <> []
  /\ dict_get (py "description") schema
     = Some (JStr (base_description U cls
                   ++ if is_nil (resolved_parents self cls) then []
                      else py " Extends: "
                           ++ join (py ", ") (resolved_parents self cls)
                           ++ py ".")).
Proof.
  unfold _generate_schema, base_description.
  destruct (obj_Name cls) as [nm|] eqn:Hnm; simpl; [|discriminate].
  destruct (foldM _ _ _) as [[aprops required]|e]; simpl; [|discriminate].
  fold (resolved_parents self cls).
  assert (Hne : (if is_nil (strip U (strip_tags (text_or_empty (Note cls))))
                 then py "GGM entity: " ++ nm
                 else strip U (strip_tags (text_or_empty (Note cls)))) <> []).
  { destruct (strip U _) eqn:E; simpl; discriminate. }
  destruct (is_nil (resolved_parents self cls)); intros [= <-].
  - rewrite List.app_nil_r. repeat split. exact Hne.
  - repeat split. exact Hne.
Qed.

(** X20. The key under which an association is emitted is also the
    title of its property, and it is empty only when the slug of the
    target itself is empty. *)
Theorem map_association_key (self : OpenRegisterGenerator)
    (assoc : ConnectorRow) (source_obj_id : Z) (prop_name : pystr)
    (prop : pydict) :
  _map_association U self assoc source_obj_id = Some (prop_name, prop) ->
  dict_get (py "title") prop = Some (JStr prop_name)
  /\ exists target_slug,
       object_slug_map self !! other_end_id assoc source_obj_id = Some target_slug
       /\ (prop_name = [] -> target_slug = []).
Proof.
  unfold _map_association, other_end_id.
  destruct (Start_Object_ID assoc =? source_obj_id)%Z;
    (destruct (object_slug_map self !! _) as [target_slug|]; [|discriminate]);
    intros [= <- <-];
    (split; [destruct (is_multiple _); reflexivity|]);
    exists target_slug; (split; [reflexivity|]);
    destruct (_sanitize_property_name U _); simpl; auto; discriminate.
Qed.

End SchemaBuilderMore.

(** ** The global index *)

Section GlobalIndex.
Context (U : Unicode).

Lemma init_unfold limit d :
  OpenRegisterGenerator_init U limit d
  = foldM (index_domain U limit d)
          {| db := d; object_domain_map := ∅; object_slug_map := ∅;
             domain_slug_map := ∅ |}
          DOMAIN_PACKAGES.
Proof. reflexivity. Qed.

Lemma index_class_inv pkg_id g cls g' :
  index_class U pkg_id g cls = Ok g' ->
  exists nm,
    obj_Name cls = Some nm
    /\ db g' = db g
    /\ domain_slug_map g' = domain_slug_map g
    /\ object_slug_map g' = <[Object_ID cls := slugify U nm]> (object_slug_map g)
    /\ object_domain_map g' = <[Object_ID cls := pkg_id]> (object_domain_map g).
Proof.
  unfold index_class. destruct (obj_Name cls) as [nm|]; simpl; [|discriminate].
  intros [= <-]. exists nm. repeat split.
Qed.

Lemma index_classes_inv pkg_id classes g g' :
  foldM (index_class U pkg_id) g classes = Ok g' ->
  db g' = db g
  /\ domain_slug_map g' = domain_slug_map g
  /\ (forall id s, object_slug_map g' !! id = Some s ->
        object_slug_map g !! id = Some s
        \/ exists cls nm, In cls classes /\ Object_ID cls = id
             /\ obj_Name cls = Some nm /\ s = slugify U nm)
  /\ (forall id p, object_domain_map g' !! id = Some p ->
        object_domain_map g !! id = Some p \/ p = pkg_id)
  /\ (forall id, is_Some (object_slug_map g' !! id)
        <-> is_Some (object_slug_map g !! id)
            \/ exists cls, In cls classes /\ Object_ID cls = id)
  /\ (forall id, is_Some (object_domain_map g' !! id)
        <-> is_Some (object_domain_map g !! id)
            \/ exists cls, In cls classes /\ Object_ID cls = id).
Proof.
  revert g. induction classes as [|cls r IH]; intros g.
  - simpl. intros [= <-].
    split; [reflexivity|]. split; [reflexivity|].
    split; [auto|]. split; [auto|]. split.
    + intros id. split; [auto|]. intros [H|(cls & [] & _)]; exact H.
    + intros id. split; [auto|]. intros [H|(cls & [] & _)]; exact H.
  - rewrite foldM_cons.
    destruct (index_class U pkg_id g cls) as [g1|e] eqn:E; [|discriminate].
    apply index_class_inv in E.
    destruct E as (nm & Hnm & Hdb & Hds & Hslug & Hdom).
    intros H. apply IH in H.
    destruct H as (Hdb' & Hds' & Hs & Hd & Hks & Hkd).
    split; [congruence|]. split; [congruence|]. split; [|split; [|split]].
    + intros id s Hl. destruct (Hs id s Hl) as [H1|(c & n & Hin & Hid & Hn & ->)].
      * rewrite Hslug in H1. apply lookup_insert_Some in H1.
        destruct H1 as [[<- <-]|[_ H1]]; [|left; exact H1].
        right. exists cls, nm. repeat split; auto. left. reflexivity.
      * right. exists c, n. repeat split; auto. right. exact Hin.
    + intros id p Hl. destruct (Hd id p Hl) as [H1|H1]; [|right; exact H1].
      rewrite Hdom in H1. apply lookup_insert_Some in H1.
      destruct H1 as [[_ <-]|[_ H1]]; [right; reflexivity|left; exact H1].
    + intros id. rewrite Hks, Hslug, lookup_insert_is_Some. split.
      * intros [[<-|[_ H]]|(c & Hin & Hid)].
        -- right. exists cls. split; [left|]; reflexivity.
        -- left. exact H.
        -- right. exists c. split; [right; exact Hin|exact Hid].
      * intros [H|(c & [<-|Hin] & Hid)].
        -- left. destruct (Z.eq_dec (Object_ID cls) id); [left|right]; auto.
        -- left. left. exact Hid.
        -- right. exists c. auto.
    + intros id. rewrite Hkd, Hdom, lookup_insert_is_Some. split.
      * intros [[<-|[_ H]]|(c & Hin & Hid)].
        -- right. exists cls. split; [left|]; reflexivity.
        -- left. exact H.
        -- right. exists c. split; [right; exact Hin|exact Hid].
      * intros [H|(c & [<-|Hin] & Hid)].
        -- left. destruct (Z.eq_dec (Object_ID cls) id); [left|right]; auto.
        -- left. left. exact Hid.
        -- right. exists c. auto.
Qed.

(** The two statements that grow with their argument: what makes the
    library refuse them, and what they select otherwise. *)
Lemma cursor_execute_raises sql parameters e :
  cursor_execute U sql parameters = Raise e ->
  (e = DataError /\ sqlite_max_sql_length U < N.of_nat (List.length sql))
  \/ (e = OperationalError
      /\ sqlite_max_variable_number U < N.of_nat (List.length parameters)).
Proof.
  unfold cursor_execute.
  destruct (N.ltb_spec (sqlite_max_sql_length U) (N.of_nat (List.length sql)));
    [intros [= <-]; left; auto|].
  destruct (N.ltb_spec (sqlite_max_variable_number U)
              (N.of_nat (List.length parameters)));
    [intros [= <-]; right; auto|discriminate].
Qed.

Lemma get_classes_raises d ids e :
  get_classes_in_packages U d ids = Raise e ->
  (e = DataError
   /\ sqlite_max_sql_length U
      < N.of_nat (List.length (sql_classes_in_packages ids)))
  \/ (e = OperationalError
      /\ sqlite_max_variable_number U < N.of_nat (List.length ids)).
Proof.
  unfold get_classes_in_packages.
  destruct (cursor_execute U _ ids) as [[]|e'] eqn:E; simpl; [discriminate|].
  intros [= <-]. apply (cursor_execute_raises _ _ _ E).
Qed.

Lemma get_classes_ok d ids classes :
  get_classes_in_packages U d ids = Ok classes ->
  cursor_execute U (sql_classes_in_packages ids) ids = Ok tt
  /\ classes
     = List.filter
         (fun o => text_is (Object_Type o) (py "Class")
                   && text_is (Stereotype o) (py "Objecttype")
                   && Z_in (obj_Package_ID o) ids)
         (t_object (conn d)).
Proof.
  unfold get_classes_in_packages.
  destruct (cursor_execute U _ ids) as [[]|e']; simpl; [|discriminate].
  intros [= <-]. split; reflexivity.
Qed.

(** The statement for the enumerations is the shorter one and binds the
    same parameters: once the classes are selected it cannot fail. *)
Lemma get_enumerations_after_classes d ids classes :
  get_classes_in_packages U d ids = Ok classes ->
  exists enumerations, get_enumerations_in_packages U d ids = Ok enumerations.
Proof.
  intros H. apply get_classes_ok in H. destruct H as [H _].
  unfold get_enumerations_in_packages, cursor_execute in *.
  destruct (N.ltb_spec (sqlite_max_sql_length U)
              (N.of_nat (List.length (sql_classes_in_packages ids))))
    as [|Hlen]; [discriminate|].
  destruct (sqlite_max_variable_number U <? N.of_nat (List.length ids));
    [discriminate|].
  replace (sqlite_max_sql_length U
           <? N.of_nat (List.length (sql_enumerations_in_packages ids)))
    with false; [simpl; eauto|].
  symmetry. apply N.ltb_ge. etrans; [|exact Hlen].
  unfold sql_enumerations_in_packages, sql_classes_in_packages.
  rewrite !List.length_app.
  change (List.length (py "SELECT Object_ID, Name, Note, Package_ID "))
    with 41%nat.
  change (List.length (py "WHERE Object_Type = 'Enumeration' ")) with 34%nat.
  change (List.length
            (py "SELECT Object_ID, Name, Note, Stereotype, Package_ID, ea_guid "))
    with 62%nat.
  change (List.length
            (py "WHERE Object_Type = 'Class' AND Stereotype = 'Objecttype' "))
    with 58%nat.
  lia.
Qed.

Lemma index_domain_inv limit d g pkg_id info g' :
  index_domain U limit d g (pkg_id, info) = Ok g' ->
  exists ids classes,
    get_descendant_packages limit d pkg_id = Ok ids
    /\ get_classes_in_packages U d ids = Ok classes
    /\ db g' = db g
    /\ domain_slug_map g' = <[pkg_id := dom_slug info]> (domain_slug_map g)
    /\ (forall id s, object_slug_map g' !! id = Some s ->
          object_slug_map g !! id = Some s
          \/ exists cls nm, In cls classes
               /\ Object_ID cls = id /\ obj_Name cls = Some nm
               /\ s = slugify U nm)
    /\ (forall id p, object_domain_map g' !! id = Some p ->
          object_domain_map g !! id = Some p \/ p = pkg_id)
    /\ (forall id, is_Some (object_slug_map g' !! id)
          <-> is_Some (object_slug_map g !! id)
              \/ exists cls, In cls classes /\ Object_ID cls = id)
    /\ (forall id, is_Some (object_domain_map g' !! id)
          <-> is_Some (object_domain_map g !! id)
              \/ exists cls, In cls classes /\ Object_ID cls = id).
Proof.
  unfold index_domain. intros H. apply bind_Ok in H.
  destruct H as (ids & Hids & H). apply bind_Ok in H.
  destruct H as (classes & Hcls & H).
  exists ids, classes. split; [exact Hids|]. split; [exact Hcls|].
  apply index_classes_inv in H. simpl in H. exact H.
Qed.

Lemma classes_are_modeled d ids classes cls :
  get_classes_in_packages U d ids = Ok classes ->
  In cls classes ->
  In cls (t_object (conn d))
  /\ text_is (Object_Type cls) (py "Class") = true
  /\ text_is (Stereotype cls) (py "Objecttype") = true
  /\ In (obj_Package_ID cls) ids.
Proof.
  intros Hc H. apply get_classes_ok in Hc. destruct Hc as [_ ->].
  apply List.filter_In in H.
  destruct H as [Hin H]. apply andb_prop in H. destruct H as [H Hp].
  apply andb_prop in H. unfold Z_in in Hp. apply existsb_exists in Hp.
  destruct Hp as (x & Hx & Hid). apply Z.eqb_eq in Hid. subst x. tauto.
Qed.

Lemma index_domains_inv limit d doms g g' :
  foldM (index_domain U limit d) g doms = Ok g' ->
  db g' = db g
  /\ domain_slug_map g'
     = fold_left (fun m '(p, info) => <[p := dom_slug info]> m) doms
                 (domain_slug_map g)
  /\ (forall id s, object_slug_map g' !! id = Some s ->
        object_slug_map g !! id = Some s
        \/ exists cls nm pkg_id info ids,
             modeled_class d cls nm /\ Object_ID cls = id
             /\ s = slugify U nm
             /\ In (pkg_id, info) doms
             /\ get_descendant_packages limit d pkg_id = Ok ids
             /\ In (obj_Package_ID cls) ids)
  /\ (forall id p, object_domain_map g' !! id = Some p ->
        object_domain_map g !! id = Some p \/ In p (List.map fst doms))
  /\ ((forall id, is_Some (object_slug_map g !! id)
                  <-> is_Some (object_domain_map g !! id)) ->
      forall id, is_Some (object_slug_map g' !! id)
                 <-> is_Some (object_domain_map g' !! id))
  /\ (forall id, is_Some (object_slug_map g !! id) ->
                 is_Some (object_slug_map g' !! id))
  /\ (forall pkg_id info ids,
        In (pkg_id, info) doms ->
        get_descendant_packages limit d pkg_id = Ok ids ->
        exists classes,
          get_classes_in_packages U d ids = Ok classes
          /\ forall cls, In cls classes ->
               is_Some (object_slug_map g' !! Object_ID cls)).
Proof.
  revert g. induction doms as [|[pkg_id info] r IH]; intros g.
  - simpl. intros [= <-].
    split; [reflexivity|]. split; [reflexivity|].
    split; [auto|]. split; [auto|]. split; [auto|]. split; [auto|].
    intros ? ? ? [].
  - rewrite foldM_cons.
    destruct (index_domain U limit d g (pkg_id, info)) as [g1|e] eqn:E;
      [|discriminate].
    apply index_domain_inv in E.
    destruct E as (ids & classes & Hids & Hcls & Hdb & Hds & Hs & Hd & Hks & Hkd).
    intros H. apply IH in H.
    destruct H as (Hdb' & Hds' & Hs' & Hd' & Hk' & Hmono & Hall).
    split; [congruence|]. split; [rewrite Hds', Hds; reflexivity|].
    split; [|split; [|split; [|split]]].
    + intros id s Hl.
      destruct (Hs' id s Hl)
        as [H1|(cls & nm & p & i & ids' & Hm & Hid & Hsl & Hin & Hg & Hp)].
      * destruct (Hs id s H1) as [H2|(cls & nm & Hin & Hid & Hnm & ->)];
          [left; exact H2|].
        right. exists cls, nm, pkg_id, info, ids.
        destruct (classes_are_modeled _ _ _ _ Hcls Hin) as (Ha & Hb & Hc & Hp).
        split; [repeat split; assumption|].
        split; [exact Hid|]. split; [reflexivity|].
        split; [left; reflexivity|]. split; [exact Hids|exact Hp].
      * right. exists cls, nm, p, i, ids'.
        split; [exact Hm|]. split; [exact Hid|]. split; [exact Hsl|].
        split; [right; exact Hin|]. split; [exact Hg|exact Hp].
    + intros id p Hl. simpl. destruct (Hd' id p Hl) as [H1|H1]; [|auto].
      destruct (Hd id p H1) as [H2| ->]; auto.
    + intros Hg. apply Hk'. intros id. rewrite Hks, Hkd, Hg. reflexivity.
    + intros id Hid. apply Hmono, Hks. left. exact Hid.
    + intros p i ids' [[= <- <-]|Hin] Hids'.
      * rewrite Hids in Hids'. injection Hids' as <-.
        exists classes. split; [exact Hcls|].
        intros cls Hin. apply Hmono, Hks. right. exists cls. auto.
      * apply (Hall p i ids' Hin Hids').
Qed.

(** X21. The global index is sound.  After [__init__], every id of the
    slug map is the id of a Class row with stereotype Objecttype whose
    package lies in the expansion of a fixed domain package, and it is
    mapped to the slug of that row's name; the slug map and
    the domain map index the same ids; every domain recorded is one of
    the fixed domain packages; and every fixed domain package has its
    register slug. *)
Theorem global_index_sound (limit : nat) (d : GGMDatabase)
    (g : OpenRegisterGenerator) :
  OpenRegisterGenerator_init U limit d = Ok g ->
  db g = d
  /\ (forall id s, object_slug_map g !! id = Some s ->
        exists cls nm pkg_id info ids,
          modeled_class d cls nm /\ Object_ID cls = id
          /\ s = slugify U nm
          /\ In (pkg_id, info) DOMAIN_PACKAGES
          /\ get_descendant_packages limit d pkg_id = Ok ids
          /\ In (obj_Package_ID cls) ids)
  /\ (forall id, is_Some (object_slug_map g !! id)
                 <-> is_Some (object_domain_map g !! id))
  /\ (forall id p, object_domain_map g !! id = Some p ->
        In p (List.map fst DOMAIN_PACKAGES))
  /\ (forall p info, In (p, info) DOMAIN_PACKAGES ->
        domain_slug_map g !! p = Some (dom_slug info)).
Proof.
  rewrite init_unfold. intros H. apply index_domains_inv in H.
  destruct H as (Hdb & Hds & Hs & Hd & Hk & _ & _).
  cbn [db object_domain_map object_slug_map domain_slug_map] in *.
  split; [exact Hdb|]. split; [|split; [|split]].
  - intros id s Hl. destruct (Hs id s Hl) as [H|H]; [|exact H].
    rewrite lookup_empty in H. discriminate.
  - apply Hk. intros id. rewrite !lookup_empty.
    split; intros [x Hx]; discriminate.
  - intros id p Hl. destruct (Hd id p Hl) as [H|H]; [|exact H].
    rewrite lookup_empty in H. discriminate.
  - intros p info Hin. rewrite Hds. clear -Hin.
    repeat (destruct Hin as [Hin|Hin];
            [injection Hin as <- <-; vm_compute; reflexivity|]).
    destruct Hin.
Qed.

(** X22. The global index is complete.  After [__init__], the classes
    query under the subtree of any fixed domain package returns, and
    every class it selects is in the slug map, so an association between
    two classes of tracked domains is always resolved, also across
    domains. *)
Theorem global_index_complete (limit : nat) (d : GGMDatabase)
    (g : OpenRegisterGenerator) (pkg_id : Z) (info : DomainInfo)
    (ids : list Z) :
  OpenRegisterGenerator_init U limit d = Ok g ->
  In (pkg_id, info) DOMAIN_PACKAGES ->
  get_descendant_packages limit d pkg_id = Ok ids ->
  exists classes,
    get_classes_in_packages U d ids = Ok classes
    /\ forall cls,
         In cls classes ->
         exists s,
           object_slug_map g !! Object_ID cls = Some s
           /\ forall assoc source_obj_id,
                other_end_id assoc source_obj_id = Object_ID cls ->
                exists prop_name prop,
                  _map_association U g assoc source_obj_id
                  = Some (prop_name, prop).
Proof.
  rewrite init_unfold. intros H Hin Hids. apply index_domains_inv in H.
  destruct H as (_ & _ & _ & _ & _ & _ & Hall).
  destruct (Hall pkg_id info ids Hin Hids) as (classes & Hcls & Hsome).
  exists classes. split; [exact Hcls|]. intros cls Hc.
  destruct (Hsome cls Hc) as (s & Hs).
  exists s. split; [exact Hs|].
  intros assoc source_obj_id Ho. rewrite <- Ho in Hs.
  destruct (map_association_resolved U g assoc source_obj_id s Hs) as (n & Hn).
  eauto.
Qed.

End GlobalIndex.

(** ** Domains and files *)

Section DomainsMore.
Context (U : Unicode).

Lemma dict_keys_json_of_schemas schemas d :
  json_of_schemas schemas = JDict d -> dict_keys d = dict_keys schemas.
Proof.
  unfold json_of_schemas, dict_keys. intros [= <-].
  rewrite List.map_map. apply List.map_ext. intros [k v]. reflexivity.
Qed.

(** X23. In the document of a domain the register lists exactly the
    keys of [components.schemas], in the same order and without
    repetition, and the register is filed under the domain's slug, which
    is also its own [slug] field. *)
Theorem register_lists_schema_keys (limit : nat)
    (self : OpenRegisterGenerator) (pkg_id : Z) (info : DomainInfo)
    (config : pydict) :
  _generate_domain U limit self pkg_id info = Ok config ->
  exists schemas register,
    dict_get (py "components") config
    = Some (JDict [(py "schemas", JDict schemas);
                   (py "registers", JDict [(dom_slug info, JDict register)])])
    /\ dict_get (py "schemas") register
       = Some (JList (List.map JStr (dict_keys schemas)))
    /\ List.NoDup (dict_keys schemas)
    /\ dict_get (py "slug") register = Some (JStr (dom_slug info)).
Proof.
  unfold _generate_domain. intros H. apply bind_Ok in H.
  destruct H as ([schemas slugs] & Hd & H). injection H as <-.
  apply domain_schemas_inv in Hd.
  destruct Hd as (ids & classes & _ & _ & -> & _ & Hnd).
  destruct (json_of_schemas schemas) as [| | | | |d] eqn:E;
    try (unfold json_of_schemas in E; discriminate).
  pose proof (dict_keys_json_of_schemas _ _ E) as Hk.
  exists d. eexists. split; [reflexivity|].
  rewrite Hk. split; [reflexivity|]. split; [exact Hnd|reflexivity].
Qed.

Lemma domain_loop_raises self local_enums classes st e :
  foldM (domain_step U self local_enums) st classes = Raise e ->
  exists cls, In cls classes /\ _generate_schema U self cls local_enums = Raise e.
Proof.
  revert st. induction classes as [|cls r IH]; intros st; [discriminate|].
  rewrite foldM_cons.
  destruct (domain_step U self local_enums st cls) as [st'|e'] eqn:E.
  - intros H. destruct (IH _ H) as (c & Hin & Hc). exists c. split; [right|]; auto.
  - intros [= <-]. exists cls. split; [left; reflexivity|].
    destruct (_generate_schema U self cls local_enums) as [schema|e''] eqn:Es.
    + destruct st as [schemas slugs].
      destruct (domain_step_spec U self local_enums schemas slugs cls schema Es)
        as (nm & k & _ & _ & _ & Hstep & _). congruence.
    + unfold domain_step in E. destruct st. rewrite Es in E.
      simpl in E. congruence.
Qed.

(** X24. Building the schemas of a domain fails in five ways only:
    with [RecursionError] when the package expansion meets the recursion
    limit; with [DataError] when the statement of the classes query,
    which has one [?] per package of the expansion, is longer than the
    library admits; with [OperationalError] when it has more [?] than
    the library admits; with [AttributeError] when a class the query
    returned has no name; and with [ValueError] when the attribute
    mapper raises [ValueError] on an attribute of such a class.  The
    enumerations query and the collision loop never fail. *)
Theorem domain_schemas_raises (limit : nat) (self : OpenRegisterGenerator)
    (pkg_id : Z) (e : pyerr) :
  domain_schemas U limit self pkg_id = Raise e ->
  (e = RecursionError
   /\ get_descendant_packages limit (db self) pkg_id = Raise RecursionError)
  \/ exists ids,
       get_descendant_packages limit (db self) pkg_id = Ok ids
       /\ ((e = DataError
            /\ sqlite_max_sql_length U
               < N.of_nat (List.length (sql_classes_in_packages ids)))
           \/ (e = OperationalError
               /\ sqlite_max_variable_number U < N.of_nat (List.length ids))
           \/ exists classes cls,
                get_classes_in_packages U (db self) ids = Ok classes
                /\ In cls classes
                /\ ((e = AttributeError /\ obj_Name cls = None)
                    \/ (e = ValueError
                        /\ exists a,
                             In a (get_attributes (db self) (Object_ID cls))
                             /\ forall local_enums,
                                  _map_attribute U self a local_enums
                                  = Raise ValueError))).
Proof.
  unfold domain_schemas.
  destruct (get_descendant_packages limit (db self) pkg_id) as [ids|e'] eqn:E.
  - rewrite bind_Ok_l. intros H. right. exists ids. split; [reflexivity|].
    destruct (get_classes_in_packages U (db self) ids) as [classes|e'] eqn:Ec.
    + rewrite bind_Ok_l in H. right. right.
      destruct (get_enumerations_after_classes U _ _ _ Ec)
        as (enumerations & Een).
      rewrite Een, bind_Ok_l in H.
      apply domain_loop_raises in H. destruct H as (cls & Hin & Hc).
      exists classes, cls. split; [reflexivity|]. split; [exact Hin|].
      apply generate_schema_raise_cases in Hc.
      destruct Hc as [[Hn ->]|(-> & a & Ha & Hm)]; [left; auto|].
      right. split; [reflexivity|]. exists a. split; [exact Ha|].
      intros local_enums. exact Hm.
    + simpl in H. injection H as <-.
      destruct (get_classes_raises U _ _ _ Ec) as [Hd|Ho]; [left|right; left];
        assumption.
  - simpl. intros [= <-]. left.
    destruct (descendants_raise_kind limit (db self) pkg_id e' E) as [-> _].
    split; reflexivity.
Qed.

Lemma generate_all_fold limit self doms acc res :
  foldM (fun out '(pkg_id, info) =>
           config ← _generate_domain U limit self pkg_id info;
           Ok (out ++ [(dom_file info, config)])) acc doms = Ok res
  <-> exists files,
        res = acc ++ files
        /\ Forall2 (fun entry file =>
                      file.1 = dom_file entry.2
                      /\ _generate_domain U limit self entry.1 entry.2 = Ok file.2)
                   doms files.
Proof.
  revert acc. induction doms as [|[pkg_id info] r IH]; intros acc.
  - simpl. split.
    + intros [= <-]. exists []. rewrite List.app_nil_r. split; [auto|constructor].
    + intros (files & -> & H). inversion H. rewrite List.app_nil_r. reflexivity.
  - rewrite foldM_cons.
    destruct (_generate_domain U limit self pkg_id info) as [config|e] eqn:E;
      simpl.
    + rewrite IH. split.
      * intros (files & -> & H). exists ((dom_file info, config) :: files).
        rewrite <- List.app_assoc. split; [reflexivity|].
        constructor; [split; [reflexivity|exact E]|exact H].
      * intros (files & -> & H). inversion H as [|? [f c] ? tl [Hf Hc] Htl]; subst.
        simpl in Hf, Hc. subst f. rewrite E in Hc. injection Hc as <-.
        exists tl. rewrite <- List.app_assoc. split; [reflexivity|exact Htl].
    + split; [discriminate|].
      intros (files & _ & H). inversion H as [|? [f c] ? tl [Hf Hc] Htl]; subst.
      simpl in Hc. congruence.
Qed.

(** X25. [generate_all] succeeds exactly when every fixed domain can
    be generated; it then writes twelve files, one per domain in table
    order, each under the domain's own file name with the document of
    that domain, and no two files share a name. *)
Theorem generate_all_files (limit : nat) (self : OpenRegisterGenerator)
    (out : list (pystr * pydict)) :
  (generate_all U limit self = Ok out
   <-> Forall2 (fun entry file =>
                  file.1 = dom_file entry.2
                  /\ _generate_domain U limit self entry.1 entry.2 = Ok file.2)
               DOMAIN_PACKAGES out)
  /\ (generate_all U limit self = Ok out ->
      List.length out = 12%nat /\ List.NoDup (List.map fst out)).
Proof.
  assert (Hiff : generate_all U limit self = Ok out
     <-> Forall2 (fun entry file =>
                    file.1 = dom_file entry.2
                    /\ _generate_domain U limit self entry.1 entry.2 = Ok file.2)
                 DOMAIN_PACKAGES out).
  { unfold generate_all. rewrite generate_all_fold. simpl. split.
    - intros (files & -> & H). exact H.
    - intros H. exists out. auto. }
  split; [exact Hiff|]. intros H. apply Hiff in H.
  assert (Hnames : List.map fst out
                   = List.map (fun entry => dom_file entry.2) DOMAIN_PACKAGES).
  { clear Hiff. induction H as [|x y l l' [Hxy _] _ IH]; [reflexivity|].
    simpl. rewrite Hxy, IH. reflexivity. }
  split.
  - rewrite <- (List.length_map fst), Hnames, List.length_map. reflexivity.
  - rewrite Hnames. apply NoDup_ListNoDup, (bool_decide_unpack _).
    vm_compute. reflexivity.
Qed.

End DomainsMore.

(** ** Notes *)

Lemma find_gt_None r : find_gt r = None <-> ~ In 62 r.
Proof.
  induction r as [|c r IH]; simpl; [tauto|].
  destruct (N.eqb_spec c 62) as [->|Hne].
  - split; [discriminate|]. intros H. exfalso. apply H. left. reflexivity.
  - destruct (find_gt r); simpl.
    + split; [discriminate|]. intros H. exfalso.
      assert (Hn : ~ In 62 r) by tauto. apply IH in Hn. discriminate.
    + split; [|reflexivity]. intros _ [H|H]; [congruence|].
      apply (proj1 IH eq_refl H).
Qed.

Lemma strip_tags_from_In k s c : In c (strip_tags_from k s) -> In c s.
Proof.
  revert k. induction s as [|d r IH]; intros k; simpl; [tauto|].
  destruct k as [|k]; [|intros H; right; apply (IH _ H)].
  destruct (d =? 60).
  - destruct (find_gt r) as [[|i]|]; simpl.
    + intros [H|H]; [left; exact H|right; apply (IH _ H)].
    + intros H. right. apply (IH _ H).
    + intros [H|H]; [left; exact H|right; apply (IH _ H)].
  - simpl. intros [H|H]; [left; exact H|right; apply (IH _ H)].
Qed.

Lemma strip_tags_from_no_tag k s : no_tag (strip_tags_from k s) = true.
Proof.
  revert k. induction s as [|d r IH]; intros k; simpl; [reflexivity|].
  destruct k as [|k]; [|apply IH].
  destruct (N.eqb_spec d 60) as [->|Hne].
  - destruct (find_gt r) as [[|i]|] eqn:E; [| apply IH |].
    + simpl. rewrite IH, andb_true_r.
      destruct r as [|x r']; [discriminate|]. simpl in E.
      destruct (N.eqb_spec x 62) as [->|Hx].
      * simpl. reflexivity.
      * destruct (find_gt r'); discriminate.
    + simpl. rewrite IH, andb_true_r.
      replace (find_gt (strip_tags_from 0 r)) with (@None nat); [reflexivity|].
      symmetry. apply find_gt_None. intros H.
      apply strip_tags_from_In in H. apply find_gt_None in E. tauto.
  - simpl. apply N.eqb_neq in Hne. rewrite Hne, IH. reflexivity.
Qed.

Lemma strip_tags_fixes_no_tag s : no_tag s = true -> strip_tags_from 0 s = s.
Proof.
  induction s as [|c r IH]; simpl; [reflexivity|].
  rewrite andb_true_iff. intros [H Hr].
  destruct (c =? 60).
  - destruct (find_gt r) as [[|i]|]; [|discriminate|]; rewrite (IH Hr);
      reflexivity.
  - rewrite (IH Hr). reflexivity.
Qed.

(** X26. Stripping the tags of a note leaves no complete tag behind,
    so stripping twice is stripping once; and a note without ['<'] is
    not changed at all. *)
Theorem strip_tags_idempotent (s : pystr) :
  no_tag (strip_tags s) = true
  /\ strip_tags (strip_tags s) = strip_tags s
  /\ (~ In 60 s -> strip_tags s = s).
Proof.
  unfold strip_tags. split; [apply strip_tags_from_no_tag|].
  split; [apply strip_tags_fixes_no_tag, strip_tags_from_no_tag|].
  intros H. apply strip_tags_fixes_no_tag.
  induction s as [|c r IH]; simpl; [reflexivity|].
  destruct (N.eqb_spec c 60) as [->|Hne].
  - exfalso. apply H. left. reflexivity.
  - simpl. apply IH. intros Hin. apply H. right. exact Hin.
Qed.

(** ** Construction of the generator *)

Section InitErrors.
Context (U : Unicode).

Lemma index_classes_raises pkg_id classes g e :
  foldM (index_class U pkg_id) g classes = Raise e ->
  e = AttributeError /\ exists cls, In cls classes /\ obj_Name cls = None.
Proof.
  revert g. induction classes as [|cls r IH]; intros g; [discriminate|].
  rewrite foldM_cons.
  destruct (index_class U pkg_id g cls) as [g1|e'] eqn:E.
  - intros H. destruct (IH _ H) as (-> & c & Hin & Hc).
    split; [reflexivity|]. exists c. split; [right|]; auto.
  - intros [= <-]. unfold index_class in E.
    destruct (obj_Name cls) eqn:Hn; simpl in E; [discriminate|].
    injection E as <-. split; [reflexivity|].
    exists cls. split; [left; reflexivity|exact Hn].
Qed.

(** X27. The construction of the generator fails in four ways only,
    each at a fixed domain package: with [RecursionError] when the
    package expansion of the domain meets the recursion limit; with
    [DataError] or [OperationalError] when the statement of the classes
    query for the expansion is longer, or has more [?], than the library
    admits; and with [AttributeError] when a class the query returned
    has a NULL name. *)
Theorem generator_init_raises (limit : nat) (d : GGMDatabase) (e : pyerr) :
  OpenRegisterGenerator_init U limit d = Raise e ->
  exists pkg_id info,
    In (pkg_id, info) DOMAIN_PACKAGES
    /\ ((e = RecursionError
         /\ get_descendant_packages limit d pkg_id = Raise RecursionError)
        \/ exists ids,
             get_descendant_packages limit d pkg_id = Ok ids
             /\ ((e = DataError
                  /\ sqlite_max_sql_length U
                     < N.of_nat (List.length (sql_classes_in_packages ids)))
                 \/ (e = OperationalError
                     /\ sqlite_max_variable_number U
                        < N.of_nat (List.length ids))
                 \/ (e = AttributeError
                     /\ exists classes cls,
                          get_classes_in_packages U d ids = Ok classes
                          /\ In cls classes
                          /\ obj_Name cls = None))).
Proof.
  rewrite init_unfold.
  generalize {| db := d; object_domain_map := ∅; object_slug_map := ∅;
                domain_slug_map := ∅ |}.
  generalize DOMAIN_PACKAGES. intros doms.
  induction doms as [|[pkg_id info] r IH]; intros g; [discriminate|].
  rewrite foldM_cons.
  destruct (index_domain U limit d g (pkg_id, info)) as [g1|e'] eqn:E.
  - intros H. destruct (IH _ H) as (p & i & Hin & Hc).
    exists p, i. split; [right; exact Hin|exact Hc].
  - intros [= <-]. exists pkg_id, info. split; [left; reflexivity|].
    unfold index_domain in E.
    destruct (get_descendant_packages limit d pkg_id) as [ids|e''] eqn:Eg.
    + rewrite bind_Ok_l in E. right. exists ids. split; [reflexivity|].
      destruct (get_classes_in_packages U d ids) as [classes|e''] eqn:Ec.
      * rewrite bind_Ok_l in E. apply index_classes_raises in E.
        destruct E as (-> & cls & Hin & Hn). right. right.
        split; [reflexivity|]. exists classes, cls. auto.
      * simpl in E. injection E as <-.
        destruct (get_classes_raises U _ _ _ Ec) as [Hd|Ho];
          [left|right; left]; assumption.
    + simpl in E. injection E as <-. left.
      destruct (descendants_raise_kind limit d pkg_id e'' Eg) as [-> _].
      split; reflexivity.
Qed.

End InitErrors.

(** ** Associations that share a key *)

Section AssociationOrder.
Context (U : Unicode).

Lemma association_loop_absent self obj_id assocs properties k :
  dict_mem k properties = false ->
  Forall (fun b => forall k' d',
            _map_association U self b obj_id = Some (k', d') -> k' <> k) assocs ->
  dict_mem k (fold_left (association_step U self obj_id) assocs properties)
  = false.
Proof.
  intros Hk Hall. revert properties Hk.
  induction Hall as [|b r Hb _ IH]; intros properties Hk; [exact Hk|].
  simpl. apply IH. unfold association_step.
  destruct (_map_association U self b obj_id) as [[k' d']|] eqn:E; [|exact Hk].
  destruct (dict_mem k' properties); [exact Hk|].
  unfold dict_mem. rewrite dict_get_set_ne by (apply (Hb k' d'); reflexivity).
  exact Hk.
Qed.

(** X28. Among associations that yield the same property key the first
    one wins: the property of an association whose key is used neither
    by an attribute nor by an earlier association of the class is in the
    schema's properties map, and no later association replaces it. *)
Theorem association_first_wins (self : OpenRegisterGenerator) (cls : ObjectRow)
    (local_enums : gmap Z (list (option pystr))) (schema aprops : pydict)
    (required : list pystr) (before after : list ConnectorRow)
    (a : ConnectorRow) (k : pystr) (def : pydict) :
  _generate_schema U self cls local_enums = Ok schema ->
  attribute_properties U self cls local_enums = Ok (aprops, required) ->
  get_associations_for_object (db self) (Object_ID cls) = before ++ a :: after ->
  _map_association U self a (Object_ID cls) = Some (k, def) ->
  dict_mem k aprops = false ->
  Forall (fun b => forall k' d',
            _map_association U self b (Object_ID cls) = Some (k', d') -> k' <> k)
         before ->
  exists properties,
    dict_get (py "properties") schema = Some (JDict properties)
    /\ dict_get k properties = Some (JDict def).
Proof.
  intros H Ha Hassocs Hmap Hk Hbefore. apply generate_schema_inv in H.
  destruct H as (nm & aprops' & required' & description & _ & Ha' & ->).
  rewrite Ha in Ha'. injection Ha' as <- <-.
  eexists. split; [reflexivity|].
  rewrite Hassocs, fold_left_app. simpl.
  apply association_loop_keeps.
  pose proof (association_loop_absent self (Object_ID cls) before aprops k
                Hk Hbefore) as Hfree.
  unfold association_step at 1. rewrite Hmap, Hfree.
  apply dict_get_set_eq.
Qed.

End AssociationOrder.

(** ** The small model, run again *)

Lemma slugify_ignores_case_witness :
  slugify ascii_only (upper ascii_only (py "Adres")) = slugify ascii_only (py "Adres").
Proof.
  assert (H : forallb is_ascii (py "Adres") = true) by (vm_compute; reflexivity).
  exact (proj1 (slugify_ignores_case ascii_only (py "Adres") H)).
Defined.

Lemma map_type_digit_patterns_witness :
  map_type ascii_only (Some (78 :: py "10" ++ 46 :: py "2")) 0
  = Ok [(py "type", JStr (py "number"))]
  /\ map_type ascii_only (Some (65 :: 78 :: py "10")) 0
     = if exceeds_str_digits ascii_only (List.length (py "10"))
       then Raise ValueError
       else Ok [(py "type", JStr (py "string"));
                (py "maxLength", JInt (decimal_value (py "10")))].
Proof.
  assert (H1 : py "10" <> []) by (vm_compute; discriminate).
  assert (H2 : py "2" <> []) by (vm_compute; discriminate).
  assert (H3 : Forall (fun c => is_09 c = true) (py "10"))
    by (vm_compute; repeat constructor).
  assert (H4 : Forall (fun c => is_09 c = true) (py "2"))
    by (vm_compute; repeat constructor).
  assert (H5 : 46 = 46 \/ 46 = 44) by (left; reflexivity).
  exact (proj2 (map_type_digit_patterns ascii_only (py "10") (py "2") 46 0
                  H1 H2 H3 H4 H5)).
Defined.

Lemma descendants_limit_independent_witness :
  get_descendant_packages 1000 example_db 4 = Ok [4%Z; 5%Z].
Proof.
  assert (H1 : get_descendant_packages 2 example_db 4 = Ok [4%Z; 5%Z])
    by (vm_compute; reflexivity).
  assert (H2 : (2 <= 1000)%nat) by lia.
  exact (descendants_limit_independent 2 1000 example_db 4 [4%Z; 5%Z] H1 H2).
Defined.

Lemma map_attribute_fields_witness :
  dict_get (py "title") indicatie_property
  = Some (json_of_text (attr_Name indicatie)).
Proof.
  assert (H : _map_attribute ascii_only example_gen indicatie ∅
              = Ok indicatie_property) by (vm_compute; reflexivity).
  exact (proj1 (map_attribute_fields ascii_only example_gen indicatie ∅
                  indicatie_property H)).
Defined.

Lemma map_attribute_default_witness :
  dict_get (py "default") indicatie_property
  = if negb (classifier_resolved ascii_only example_gen indicatie)
       && truthy (Default indicatie)
       && negb (is_nil (strip ascii_only (py_str (Default indicatie))))
    then Some (JStr (strip ascii_only (py_str (Default indicatie))))
    else None.
Proof.
  assert (H : _map_attribute ascii_only example_gen indicatie ∅
              = Ok indicatie_property) by (vm_compute; reflexivity).
  exact (map_attribute_default ascii_only example_gen indicatie ∅
           indicatie_property H).
Defined.

Lemma attribute_last_wins_witness :
  exists prop properties,
    _map_attribute ascii_only example_gen adressen_attr ∅ = Ok prop
    /\ dict_get (py "properties") persoon_schema = Some (JDict properties)
    /\ dict_get (attribute_key ascii_only adressen_attr) properties
       = Some (JDict prop).
Proof.
  assert (H1 : _generate_schema ascii_only example_gen persoon ∅
               = Ok persoon_schema) by (vm_compute; reflexivity).
  assert (H2 : get_attributes (db example_gen) (Object_ID persoon)
               = [leeftijd_attr] ++ adressen_attr :: [indicatie])
    by (vm_compute; reflexivity).
  assert (H3 : Forall (fun b => attribute_key ascii_only b
                               <> attribute_key ascii_only adressen_attr)
                      [indicatie])
    by (constructor; [vm_compute; discriminate|constructor]).
  exact (attribute_last_wins ascii_only example_gen persoon ∅ persoon_schema
           [leeftijd_attr] [indicatie] adressen_attr H1 H2 H3).
Defined.

Lemma generate_schema_document_witness :
  dict_keys persoon_schema
  = [py "slug"; py "title"; py "version"; py "description"; py "required";
     py "properties"; py "searchable"; py "hardValidation"].
Proof.
  assert (H : _generate_schema ascii_only example_gen persoon ∅
              = Ok persoon_schema) by (vm_compute; reflexivity).
  exact (proj1 (generate_schema_document ascii_only example_gen persoon ∅
                  persoon_schema H)).
Defined.

Lemma map_association_key_witness :
  dict_get (py "title") adressen_relation.2 = Some (JStr adressen_relation.1).
Proof.
  assert (H : _map_association ascii_only example_gen heeft_adressen 10
              = Some (adressen_relation.1, adressen_relation.2))
    by (vm_compute; reflexivity).
  exact (proj1 (map_association_key ascii_only example_gen heeft_adressen 10
                  adressen_relation.1 adressen_relation.2 H)).
Defined.

Lemma global_index_sound_witness :
  db example_gen = example_db.
Proof.
  assert (H : OpenRegisterGenerator_init ascii_only 1000 example_db
              = Ok example_gen) by (vm_compute; reflexivity).
  exact (proj1 (global_index_sound ascii_only 1000 example_db example_gen H)).
Defined.

Lemma global_index_complete_witness :
  exists classes,
    get_classes_in_packages ascii_only example_db [4%Z; 5%Z] = Ok classes
    /\ forall cls,
         In cls classes ->
         exists s,
           object_slug_map example_gen !! Object_ID cls = Some s
           /\ forall assoc source_obj_id,
                other_end_id assoc source_obj_id = Object_ID cls ->
                exists prop_name prop,
                  _map_association ascii_only example_gen assoc source_obj_id
                  = Some (prop_name, prop).
Proof.
  assert (H1 : OpenRegisterGenerator_init ascii_only 1000 example_db
               = Ok example_gen) by (vm_compute; reflexivity).
  assert (H2 : In (4%Z, bestuur) DOMAIN_PACKAGES) by (left; reflexivity).
  assert (H3 : get_descendant_packages 1000 example_db 4 = Ok [4%Z; 5%Z])
    by (vm_compute; reflexivity).
  exact (global_index_complete ascii_only 1000 example_db example_gen 4 bestuur
           [4%Z; 5%Z] H1 H2 H3).
Defined.

Lemma register_lists_schema_keys_witness :
  exists schemas register,
    dict_get (py "components") example_config
    = Some (JDict [(py "schemas", JDict schemas);
                   (py "registers", JDict [(dom_slug bestuur, JDict register)])])
    /\ dict_get (py "schemas") register
       = Some (JList (List.map JStr (dict_keys schemas)))
    /\ List.NoDup (dict_keys schemas)
    /\ dict_get (py "slug") register = Some (JStr (dom_slug bestuur)).
Proof.
  assert (H : _generate_domain ascii_only 1000 example_gen 4 bestuur
              = Ok example_config) by (vm_compute; reflexivity).
  exact (register_lists_schema_keys ascii_only 1000 example_gen 4 bestuur
           example_config H).
Defined.

Lemma domain_schemas_raises_witness :
  OpenRegisterGenerator_init ascii_only 1000 faulty_db = Ok faulty_gen
  /\ domain_schemas ascii_only 1000 faulty_gen 4 = Raise ValueError
  /\ exists ids classes cls a,
       get_descendant_packages 1000 (db faulty_gen) 4 = Ok ids
       /\ get_classes_in_packages ascii_only (db faulty_gen) ids = Ok classes
       /\ In cls classes
       /\ In a (get_attributes (db faulty_gen) (Object_ID cls))
       /\ forall local_enums,
            _map_attribute ascii_only faulty_gen a local_enums
            = Raise ValueError.
Proof.
  assert (H0 : OpenRegisterGenerator_init ascii_only 1000 faulty_db
               = Ok faulty_gen) by (vm_compute; reflexivity).
  assert (H : domain_schemas ascii_only 1000 faulty_gen 4 = Raise ValueError)
    by (vm_compute; reflexivity).
  split; [exact H0|]. split; [exact H|].
  destruct (domain_schemas_raises ascii_only 1000 faulty_gen 4 ValueError H)
    as [[He _]|(ids & Hids
                & [[He _]|[[He _]|(classes & cls & Hc & Hin
                                   & [[He _]|(_ & a & Ha & Hm)])]])];
    try discriminate He.
  exists ids, classes, cls, a. auto.
Defined.

Lemma generator_init_raises_witness :
  exists pkg_id info,
    In (pkg_id, info) DOMAIN_PACKAGES
    /\ get_descendant_packages 5 cyclic_db pkg_id = Raise RecursionError.
Proof.
  assert (H : OpenRegisterGenerator_init ascii_only 5 cyclic_db
              = Raise RecursionError) by (vm_compute; reflexivity).
  destruct (generator_init_raises ascii_only 5 cyclic_db RecursionError H)
    as (p & i & Hin
        & [[_ Hr]|(ids & _ & [[He _]|[[He _]|[He _]]])]);
    try discriminate He.
  exists p, i. auto.
Defined.

Lemma association_first_wins_witness :
  exists properties,
    dict_get (py "properties") persoon_schema = Some (JDict properties)
    /\ dict_get hoofdadres_relation.1 properties
       = Some (JDict hoofdadres_relation.2).
Proof.
  assert (H1 : _generate_schema ascii_only example_gen persoon ∅
               = Ok persoon_schema) by (vm_compute; reflexivity).
  assert (H2 : attribute_properties ascii_only example_gen persoon ∅
               = Ok (persoon_attributes.1, persoon_attributes.2))
    by (vm_compute; reflexivity).
  assert (H3 : get_associations_for_object (db example_gen) (Object_ID persoon)
               = [heeft_adressen] ++ heeft_hoofdadres :: [heeft_voertuigen])
    by (vm_compute; reflexivity).
  assert (H4 : _map_association ascii_only example_gen heeft_hoofdadres
                 (Object_ID persoon)
               = Some (hoofdadres_relation.1, hoofdadres_relation.2))
    by (vm_compute; reflexivity).
  assert (H5 : dict_mem hoofdadres_relation.1 persoon_attributes.1 = false)
    by (vm_compute; reflexivity).
  assert (H6 : Forall (fun b => forall k' d',
                 _map_association ascii_only example_gen b (Object_ID persoon)
                 = Some (k', d') -> k' <> hoofdadres_relation.1)
                 [heeft_adressen]).
  { constructor; [|constructor]. intros k' d' E. vm_compute in E.
    injection E as <- _. vm_compute. discriminate. }
  exact (association_first_wins ascii_only example_gen persoon ∅ persoon_schema
           persoon_attributes.1 persoon_attributes.2
           [heeft_adressen] [heeft_voertuigen] heeft_hoofdadres
           hoofdadres_relation.1 hoofdadres_relation.2 H1 H2 H3 H4 H5 H6).
Defined.
